(** * The mixing engine of lib-sample-track (Mix.cpp)

    A shallow embedding of [Mixer] -- its constructor, [Process],
    [GetBuffer], [Reposition], [SetTimesAndSpeed] and
    [SetSpeedForKeyboardScrubbing] -- together with the properties of
    the mixing core that are verified against it.

    Conventions of the embedding.
    - [double] and [float] values are IEEE 754 binary64 / binary32 numbers,
      represented by [spec_float]; comparisons are [SFltb], arithmetic is
      [SFadd] / [SFmul] at the matching precision.
    - [size_t] and [unsigned] values are naturals of type [N], [size_t]
      being 64 bits wide; the wrap-around is written out wherever the code
      does arithmetic on them.  Positions in vectors are of type [nat].
    - A failed assertion, an access outside an array and a loop that never
      ends are the three ways a call can fail to return, recorded in
      [outcome].  An [assert] or [wxASSERT] that opens or closes a function
      states its contract and is modelled as checked.  The constructor's
      [assert(false); break;] has a path of its own in a build without
      assertions; both builds are modelled, told apart by [NDEBUG].
    - The [TimesAndSpeed] object that the mixer shares with all its sources
      is kept once, in the mixer; a source that acquires is handed the
      current value and hands back the time it has advanced to. *)

From Stdlib Require Import ZArith NArith Bool Lia.
From Stdlib Require Import Floats.SpecFloat.
From stdpp Require Import list.

Local Open Scope N_scope.

(** ** Floating point values and their order *)

Definition double := spec_float.
Definition float := spec_float.

(** binary32 arithmetic, as used by [*dest++ += pSrc[j] * gain]. *)
Definition fadd (x y : float) : float := SFadd 24 128 x y.
Definition fmul (x y : float) : float := SFmul 24 128 x y.
Definition float_zero : float := S754_zero false.
Definition float_one : float := S754_finite false 8388608 (-23).

Definition double_zero : double := S754_zero false.
(** [std::numeric_limits<double>::max()] *)
Definition double_max : double := SFmax_float 53 1024.

Definition isnan (x : spec_float) : bool :=
  match x with S754_nan => true | _ => false end.

(** [std::isfinite] *)
Definition isfinite (x : spec_float) : bool :=
  match x with
  | S754_zero _ | S754_finite _ _ _ => true
  | S754_infinity _ | S754_nan => false
  end.

(** [fabs] *)
Definition fabs (x : double) : double := SFabs x.

Definition dlt (x y : double) : bool := SFltb x y.
Definition dle (x y : double) : bool := SFleb x y.

(** [std::min], [std::max] and [std::clamp] over a strict comparison [lt]:
    [max(a, b)] is [b] when [a < b] and [a] otherwise, [min(a, b)] is [b]
    when [b < a] and [a] otherwise, [clamp(v, lo, hi)] is [lo] when
    [v < lo], [hi] when [hi < v] and [v] otherwise.  [clamp] requires
    that [hi < lo] is false. *)
Section StdAlgorithm.
Context {T : Type} (lt : T -> T -> bool).

Definition std_max (a b : T) : T := if lt a b then b else a.
Definition std_min (a b : T) : T := if lt b a then b else a.
Definition std_clamp (v lo hi : T) : T :=
  if lt v lo then lo else if lt hi v then hi else v.

End StdAlgorithm.

(** *** The order of the numbers that are not NaN

    Every number that is not a NaN is given a key, a triple of integers
    ordered lexicographically; [SFcompare] is the comparison of the keys. *)

Definition dkey (x : spec_float) : Z * Z * Z :=
  match x with
  | S754_nan => (0, 0, 0)%Z
  | S754_zero _ => (0, 0, 0)%Z
  | S754_infinity true => (-2, 0, 0)%Z
  | S754_infinity false => (2, 0, 0)%Z
  | S754_finite true m e => (-1, - e, Z.neg m)%Z
  | S754_finite false m e => (1, e, Z.pos m)%Z
  end.

Definition key_lt (a b : Z * Z * Z) : Prop :=
  let '(a1, a2, a3) := a in
  let '(b1, b2, b3) := b in
  (a1 < b1 \/ (a1 = b1 /\ (a2 < b2 \/ (a2 = b2 /\ a3 < b3))))%Z.

Definition key_le (a b : Z * Z * Z) : Prop :=
  let '(a1, a2, a3) := a in
  let '(b1, b2, b3) := b in
  (a1 < b1 \/ (a1 = b1 /\ (a2 < b2 \/ (a2 = b2 /\ a3 <= b3))))%Z.

(** ** Calls that do not return normally *)

Inductive failure :=
| AssertionFailed   (* an [assert] or [wxASSERT] does not hold *)
| OutOfBounds       (* an array or vector is accessed outside its extent *)
| NeverReturns.     (* a loop makes no progress *)

Inductive outcome (A : Type) :=
| Ok (a : A)
| Fail (e : failure).
Arguments Ok {A} a.
Arguments Fail {A} e.

Definition bind {A B} (c : outcome A) (k : A -> outcome B) : outcome B :=
  match c with
  | Ok a => k a
  | Fail e => Fail e
  end.

Notation "'do' x <- c ; k" := (bind c (fun x => k))
  (at level 10, x pattern, c at level 100, k at level 200).

Definition assert (b : bool) : outcome unit :=
  if b then Ok tt else Fail AssertionFailed.

(** [v[i]] and [v[i] = x] on an array of known extent. *)
Definition read {A} (v : list A) (i : nat) : outcome A :=
  match v !! i with
  | Some x => Ok x
  | None => Fail OutOfBounds
  end.

Definition store {A} (v : list A) (i : nat) (x : A) : outcome (list A) :=
  if bool_decide (i < length v)%nat then Ok (<[i := x]> v) else Fail OutOfBounds.

Fixpoint foldM {A B} (f : A -> B -> outcome A) (a : A) (l : list B)
  : outcome A :=
  match l with
  | [] => Ok a
  | b :: l' => do a' <- f a b; foldM f a' l'
  end.

(** ** Integers *)

(** The value of a [size_t] product. *)
Definition wrap64 (n : N) : N := n mod 2 ^ 64.

(** The conversion of a [size_t] to [int] at a call ([int len] of
    [MixBuffers]). *)
Definition to_int (n : N) : Z :=
  ((Z.of_N n + 2 ^ 31) mod 2 ^ 32 - 2 ^ 31)%Z.

(** ** Data *)

Record TimesAndSpeed := {
  mT0 : double;
  mT1 : double;
  mSpeed : double;
  mTime : double
}.

Definition set_mTime (ts : TimesAndSpeed) (t : double) : TimesAndSpeed :=
  {| mT0 := mT0 ts; mT1 := mT1 ts; mSpeed := mSpeed ts; mTime := t |}.

(** [Track::ChannelType].  A variable of the enumeration type may also hold
    a value that is none of the three enumerators; [OtherChannel] stands
    for every such value. *)
Inductive ChannelType :=
| LeftChannel
| RightChannel
| MonoChannel
| OtherChannel.

(** One channel of an input track, as far as the mixer asks it:
    [track->GetChannel()] and [track->GetChannelGain(c)]. *)
Record Channel := {
  Track_GetChannel : ChannelType;
  Track_GetChannelGain : N -> float
}.

(** An element of [inputTracks]: [TrackList::Channels(leader)], the channel
    group that the track leads. *)
Record SampleTrack := {
  TrackList_Channels : list Channel
}.

(** [MixerSpec]: the caller's routing matrix, [mMap[track][outChannel]]. *)
Record MixerSpec := {
  GetNumChannels : N;
  GetNumTracks : N;
  mMap : list (list bool)
}.

Record WarpOptions := {
  initialSpeed : double;
  minSpeed : double;
  maxSpeed : double
}.

Inductive sampleFormat := int16Sample | int24Sample | floatSample.

Inductive DitherType := gHighQualityDither | gLowQualityDither.

(** Modelled from the spec: [AudioGraph::Buffers] is not under src/.  The
    engine-internal working buffer of planar float samples is one vector of
    samples per channel; [Buffers{nChannels, blockSize, nBlocks, padding}]
    makes [nChannels] vectors of [blockSize * nBlocks + padding] zeroes. *)
Definition Buffers := list (list float).

Definition Buffers_new (nChannels blockSize nBlocks padding : N) : Buffers :=
  replicate (N.to_nat nChannels)
    (replicate (N.to_nat (blockSize * nBlocks + padding)) float_zero).

Definition Buffers_Channels (b : Buffers) : N := N.of_nat (length b).

(** [GetReadPosition(j)]: the samples of channel [j]. *)
Definition Buffers_GetReadPosition (b : Buffers) (j : nat)
  : outcome (list float) := read b j.

(** The calls [Process] makes while it mixes, in the order it makes them:
    [source.Acquire] on the source at the given position of [mSources], with
    what it returned, and [MixBuffers] for a channel of that source. *)
Inductive Call :=
| AcquireCall (source : nat) (oResult : option N)
| MixBuffersCall (source : nat) (channel : nat).

(** ** The collaborators of the mixer

    Modelled from the spec: [MixerSource] (its constructor, [Acquire] and
    [Reposition]), [SampleBuffer::Allocate], [SAMPLE_SIZE] and [CopySamples]
    are not under src/; the mixer is verified for every implementation of
    them.  [Acquire] fills the working buffers and returns the number of
    frames it produced, or nothing; it reads the shared [TimesAndSpeed] and
    may advance its [mTime], the bounds and the speed being changed by the
    mixer only.

    [NDEBUG] is the build: whether [assert] is compiled out.  It matters
    where the code goes on after an assertion that failed, which the
    constructor does. *)
Class Collaborators := {
  NDEBUG : bool;
  SourceState : Type;
  SampleData : Type;
  MixerSource_new :
    SampleTrack -> N -> double -> WarpOptions -> bool -> bool -> SourceState;
  MixerSource_Acquire :
    SourceState -> Buffers -> N -> TimesAndSpeed ->
    option N * SourceState * Buffers * double;
  MixerSource_Reposition :
    SourceState -> TimesAndSpeed -> double -> bool -> SourceState;
  Allocate : N -> sampleFormat -> SampleData;
  SAMPLE_SIZE : sampleFormat -> N;
  CopySamples :
    list float -> sampleFormat -> SampleData -> N -> sampleFormat -> N ->
    DitherType -> N -> N -> SampleData
}.

Section Mixer.
Context `{Collaborators}.

(** *** Sources *)

(** A [MixerSource]: the leader it was made for, the pointer into the
    rows of the [MixerSpec] it was given ([&pMixerSpec->mMap[i]], the rows
    from the leader's row on, or null), and the rest of its state. *)
Record MixerSource := {
  mpLeader : SampleTrack;
  mpMap : option (list (list bool));
  mSourceState : SourceState
}.

(** Modelled from the spec: [MixerSource::Channels] and
    [MixerSource::GetChannel] are not under src/; they tell how many
    channels the source contributes, the channels of its leader's group, and
    give the channel at a position. *)
Definition Source_Channels (source : MixerSource) : N :=
  N.of_nat (length (TrackList_Channels (mpLeader source))).

Definition Source_GetChannel (source : MixerSource) (j : nat)
  : outcome Channel :=
  read (TrackList_Channels (mpLeader source)) j.

(** Modelled from the spec: [MixerSource::MixerSpec] is not under src/; it
    fetches the source's slice of the mix specification, the row of channel
    [j], and is null when the source was given no map. *)
Definition Source_MixerSpec (source : MixerSource) (j : nat)
  : outcome (option (list bool)) :=
  match mpMap source with
  | None => Ok None
  | Some rows => do row <- read rows j; Ok (Some row)
  end.

Definition Source_Acquire (source : MixerSource) (data : Buffers)
    (bound : N) (ts : TimesAndSpeed)
  : option N * MixerSource * Buffers * double :=
  let '(oResult, state, data', time) :=
    MixerSource_Acquire (mSourceState source) data bound ts in
  (oResult,
   {| mpLeader := mpLeader source; mpMap := mpMap source;
      mSourceState := state |},
   data', time).

Definition Source_Reposition (ts : TimesAndSpeed) (time : double)
    (skipping : bool) (source : MixerSource) : MixerSource :=
  {| mpLeader := mpLeader source; mpMap := mpMap source;
     mSourceState :=
       MixerSource_Reposition (mSourceState source) ts time skipping |}.

(** *** The mixer *)

Record SampleBuffer := {
  sbSize : N;               (* the number of samples allocated *)
  sbFormat : sampleFormat;
  sbData : SampleData
}.

Definition SampleBuffer_Allocate (size : N) (format : sampleFormat)
  : SampleBuffer :=
  {| sbSize := size; sbFormat := format; sbData := Allocate size format |}.

Record Mixer := {
  mNumChannels : N;
  mBufferSize : N;
  mApplyTrackGains : bool;
  mHighQuality : bool;
  mFormat : sampleFormat;
  mInterleaved : bool;
  mTimesAndSpeed : TimesAndSpeed;
  mFloatBuffers : Buffers;
  mTemp : list (list float);
  mBuffer : list SampleBuffer;
  mSources : list MixerSource
}.

Definition BufferSize (m : Mixer) : N := mBufferSize m.

(** [initVector<T>(dim1, f)] and [initVector<T>(dim1, dim2)] *)
Definition initVector {T} (dim1 : N) (row : T) : list T :=
  replicate (N.to_nat dim1) row.

Definition initVector2 (dim1 dim2 : N) : list (list float) :=
  initVector dim1 (replicate (N.to_nat dim2) float_zero).

(** [assert(false); break;] in the loop of the constructor: a build with
    assertions stops there; a build without them leaves the loop, and the
    constructor goes on with the sources made so far. *)
Definition assert_false_break {A} (soFar : A) : outcome A :=
  if NDEBUG then Ok soFar else Fail AssertionFailed.

(** The loop of the constructor over [inputTracks].  The position [i]
    advances by the size of the leader's channel group; a group of size 0
    would leave [i] where it is, and the loop would go on for ever.
    [fuel] bounds the number of rounds; [length inputTracks] rounds are
    always enough, because a round that is followed by another advances [i]
    by at least one.  A null leader and a group that runs over the end of
    [inputTracks] take the same branch, as in the code;
    [TrackList::Channels], which is asked before the leader is tested, is
    taken to return for a null leader too. *)
Fixpoint makeSources (fuel : nat)
    (inputTracks : list (option SampleTrack)) (bufferSize : N)
    (outRate : double) (warpOptions : WarpOptions)
    (highQuality mayThrow : bool) (pMixerSpec : option MixerSpec)
    (i : nat) (mSources : list MixerSource)
  : outcome (list MixerSource) :=
  let nTracks := length inputTracks in
  if bool_decide (i < nTracks)%nat then
    match inputTracks !! i with
    | Some (Some leader) =>
        let nInChannels := length (TrackList_Channels leader) in
        if bool_decide (nTracks < i + nInChannels)%nat
        then assert_false_break mSources
        else
          let source :=
            {| mpLeader := leader;
               mpMap := match pMixerSpec with
                        | Some spec => Some (drop i (mMap spec))
                        | None => None
                        end;
               mSourceState :=
                 MixerSource_new leader bufferSize outRate warpOptions
                   highQuality mayThrow |} in
          match nInChannels, fuel with
          | O, _ => Fail NeverReturns
          | _, O => Fail NeverReturns
          | _, S fuel' =>
              makeSources fuel' inputTracks bufferSize outRate warpOptions
                highQuality mayThrow pMixerSpec (i + nInChannels)
                (mSources ++ [source])
          end
    | _ => assert_false_break mSources   (* a null leader *)
    end
  else Ok mSources.

(** [Mixer::Mixer] *)
Definition Mixer_Mixer (inputTracks : list (option SampleTrack))
    (mayThrow : bool) (warpOptions : WarpOptions)
    (startTime stopTime : double) (numOutChannels : N)
    (outBufferSize : N) (outInterleaved : bool) (outRate : double)
    (outFormat : sampleFormat) (highQuality : bool)
    (mixerSpec : option MixerSpec) (applyTrackGains : bool)
  : outcome Mixer :=
  let nTracks := length inputTracks in
  let pMixerSpec :=
    match mixerSpec with
    | Some spec =>
        if (GetNumChannels spec =? numOutChannels) &&
           (GetNumTracks spec =? N.of_nat nTracks)
        then Some spec else None
    | None => None
    end in
  do sources <-
    makeSources nTracks inputTracks outBufferSize outRate warpOptions
      highQuality mayThrow pMixerSpec 0 [];
  Ok {| mNumChannels := numOutChannels;
        mBufferSize := outBufferSize;
        mApplyTrackGains := applyTrackGains;
        mHighQuality := highQuality;
        mFormat := outFormat;
        mInterleaved := outInterleaved;
        mTimesAndSpeed :=
          {| mT0 := startTime; mT1 := stopTime;
             mSpeed := initialSpeed warpOptions; mTime := startTime |};
        mFloatBuffers := Buffers_new 2 outBufferSize 1 1;
        mTemp := initVector2 numOutChannels outBufferSize;
        mBuffer :=
          initVector (if outInterleaved then 1 else numOutChannels)
            (SampleBuffer_Allocate
               (wrap64 (outBufferSize *
                        (if outInterleaved then numOutChannels else 1)))
               outFormat);
        mSources := sources |}.

(** [Mixer::Clear] *)
Definition Clear (temp : list (list float)) : list (list float) :=
  map (fun buffer => replicate (length buffer) float_zero) temp.

(** The inner loop of [MixBuffers]: [dest[j] += src[j] * gain] for
    [j < len]. *)
Definition accumulate (gain : float) (src dest : list float) (len : Z)
  : outcome (list float) :=
  let n := Z.to_nat len in
  if bool_decide (n <= length src)%nat && bool_decide (n <= length dest)%nat
  then Ok (zip_with (fun d s => fadd d (fmul s gain))
             (take n dest) (take n src) ++ drop n dest)
  else Fail OutOfBounds.

Definition MixBuffers (numChannels : N) (channelFlags : list bool)
    (gains : list float) (src : list float) (dests : list (list float))
    (len : Z) : outcome (list (list float)) :=
  foldM (fun dests c =>
           do flag <- read channelFlags c;
           if negb flag then Ok dests
           else
             do dest <- read dests c;
             do gain <- read gains c;
             do dest' <- accumulate gain src dest len;
             Ok (<[c := dest']> dests))
        dests (seq 0 (N.to_nat numChannels)).

(** The lambda [findChannelFlags] of [Process]: which output buffers an
    input channel accumulates into.  The flags are [unsigned char]s that
    hold 0 or 1, here booleans. *)
Definition findChannelFlags (numChannels : N) (map : option (list bool))
    (channel : ChannelType) : outcome (list bool) :=
  let channelFlags := replicate (N.to_nat numChannels) false in
  match map with
  | Some row =>
      (* ignore left and right when downmixing is customized *)
      if bool_decide (N.to_nat numChannels <= length row)%nat
      then Ok (take (N.to_nat numChannels) row)
      else Fail OutOfBounds
  | None =>
      match channel with
      | LeftChannel => store channelFlags 0 true
      | RightChannel =>
          if 2 <=? numChannels
          then store channelFlags 1 true
          else store channelFlags 0 true
      | MonoChannel | OtherChannel =>   (* case MonoChannel: default: *)
          Ok (replicate (N.to_nat numChannels) true)
      end
  end.

(** What the loop over the sources carries from one round to the next. *)
Record Pass := {
  pBuffers : Buffers;            (* mFloatBuffers *)
  pTime : double;                (* mTimesAndSpeed->mTime *)
  pGains : list float;           (* gains *)
  pTemp : list (list float);     (* mTemp *)
  pMaxOut : N;                   (* maxOut *)
  pLog : list Call
}.

(** The body of the loop over the channels of one source. *)
Definition mixChannel (m : Mixer) (i : nat) (source : MixerSource)
    (oResult : N) (st : Pass) (j : nat) : outcome Pass :=
  do pFloat <- Buffers_GetReadPosition (pBuffers st) j;
  do track <- Source_GetChannel source j;
  let gains :=
    if mApplyTrackGains m
    then map (fun c => Track_GetChannelGain track (N.of_nat c))
           (seq 0 (N.to_nat (mNumChannels m)))
    else pGains st in
  do map <- Source_MixerSpec source j;
  do flags <- findChannelFlags (mNumChannels m) map (Track_GetChannel track);
  do temp <- MixBuffers (mNumChannels m) flags gains pFloat (pTemp st)
               (to_int oResult);
  Ok {| pBuffers := pBuffers st; pTime := pTime st; pGains := gains;
        pTemp := temp; pMaxOut := pMaxOut st;
        pLog := pLog st ++ [MixBuffersCall i j] |}.

(** The loop over [mSources], from the source at position [i] on.  The
    result tells whether the loop ran to its end ([true]) or left [Process]
    by [return 0] ([false]), and gives the sources as the round left
    them. *)
Fixpoint mixSources (m : Mixer) (maxToProcess maxChannels : N) (i : nat)
    (sources : list MixerSource) (st : Pass)
  : outcome (bool * list MixerSource * Pass) :=
  match sources with
  | [] => Ok (true, [], st)
  | source :: rest =>
      let '(oResult, source', data, time) :=
        Source_Acquire source (pBuffers st) maxToProcess
          (set_mTime (mTimesAndSpeed m) (pTime st)) in
      let log := pLog st ++ [AcquireCall i oResult] in
      match oResult with
      | None =>
          Ok (false, source' :: rest,
              {| pBuffers := data; pTime := time; pGains := pGains st;
                 pTemp := pTemp st; pMaxOut := pMaxOut st; pLog := log |})
      | Some result =>
          let st1 :=
            {| pBuffers := data; pTime := time; pGains := pGains st;
               pTemp := pTemp st;
               pMaxOut := std_max N.ltb (pMaxOut st) result;
               pLog := log |} in
          let limit := std_min N.ltb (Source_Channels source') maxChannels in
          do st2 <- foldM (mixChannel m i source' result) st1
                      (seq 0 (N.to_nat limit));
          do r <- mixSources m maxToProcess maxChannels (S i) rest st2;
          let '(completed, rest', st3) := r in
          Ok (completed, source' :: rest', st3)
      end
  end.

(** The last loop of [Process]: the conversion of [mTemp] into [mBuffer]. *)
Definition copyChannel (m : Mixer) (temp : list (list float)) (maxOut : N)
    (buffers : list SampleBuffer) (c : nat) : outcome (list SampleBuffer) :=
  let dstStride := if mInterleaved m then mNumChannels m else 1 in
  let index := if mInterleaved m then O else c in
  let offset :=
    if mInterleaved m then wrap64 (N.of_nat c * SAMPLE_SIZE (mFormat m))
    else 0 in
  do src <- read temp c;
  do dst <- read buffers index;
  Ok (<[index :=
          {| sbSize := sbSize dst; sbFormat := sbFormat dst;
             sbData :=
               CopySamples src floatSample (sbData dst) offset (mFormat m)
                 maxOut
                 (if mHighQuality m then gHighQualityDither
                  else gLowQualityDither)
                 1 dstStride |}]> buffers).

(** [Mixer::Process]: the number of frames returned, the mixer as the call
    leaves it and the calls made on the way. *)
Definition Process (m : Mixer) (maxToProcess : N)
  : outcome (N * Mixer * list Call) :=
  do _ <- assert (maxToProcess <=? BufferSize m);
  let numChannels := N.to_nat (mNumChannels m) in
  let gains :=
    (* without track gains every gain is 1; otherwise the array starts
       uninitialised and is filled in before each use *)
    replicate numChannels
      (if negb (mApplyTrackGains m) then float_one else float_zero) in
  let ts := mTimesAndSpeed m in
  let oldTime := mTime ts in
  let backwards := dlt (mT1 ts) (mT0 ts) in
  let temp := Clear (mTemp m) in
  let maxChannels := Buffers_Channels (mFloatBuffers m) in
  do r <-
    mixSources m maxToProcess maxChannels 0 (mSources m)
      {| pBuffers := mFloatBuffers m; pTime := oldTime; pGains := gains;
         pTemp := temp; pMaxOut := 0; pLog := [] |};
  let '(completed, sources, st) := r in
  if negb completed then
    Ok (0,
        {| mNumChannels := mNumChannels m; mBufferSize := mBufferSize m;
           mApplyTrackGains := mApplyTrackGains m;
           mHighQuality := mHighQuality m; mFormat := mFormat m;
           mInterleaved := mInterleaved m;
           mTimesAndSpeed := set_mTime ts (pTime st);
           mFloatBuffers := pBuffers st; mTemp := pTemp st;
           mBuffer := mBuffer m; mSources := sources |},
        pLog st)
  else
    let time :=
      if backwards
      then std_clamp dlt (pTime st) (mT1 ts) oldTime
      else std_clamp dlt (pTime st) oldTime (mT1 ts) in
    do buffers <- foldM (copyChannel m (pTemp st) (pMaxOut st)) (mBuffer m)
                    (seq 0 numChannels);
    do _ <- assert (pMaxOut st <=? maxToProcess);
    Ok (pMaxOut st,
        {| mNumChannels := mNumChannels m; mBufferSize := mBufferSize m;
           mApplyTrackGains := mApplyTrackGains m;
           mHighQuality := mHighQuality m; mFormat := mFormat m;
           mInterleaved := mInterleaved m;
           mTimesAndSpeed := set_mTime ts time;
           mFloatBuffers := pBuffers st; mTemp := pTemp st;
           mBuffer := buffers; mSources := sources |},
        pLog st).

(** [Mixer::GetBuffer()] and [Mixer::GetBuffer(int channel)] *)
Definition GetBuffer0 (m : Mixer) : outcome SampleBuffer :=
  read (mBuffer m) 0.

Definition GetBuffer (m : Mixer) (channel : Z) : outcome SampleBuffer :=
  if (channel <? 0)%Z then Fail OutOfBounds
  else read (mBuffer m) (Z.to_nat channel).

(** [Mixer::MixGetCurrentTime] *)
Definition MixGetCurrentTime (m : Mixer) : double :=
  mTime (mTimesAndSpeed m).

(** The mixer with other times and other sources. *)
Definition with_times (m : Mixer) (ts : TimesAndSpeed)
    (sources : list MixerSource) : Mixer :=
  {| mNumChannels := mNumChannels m; mBufferSize := mBufferSize m;
     mApplyTrackGains := mApplyTrackGains m;
     mHighQuality := mHighQuality m; mFormat := mFormat m;
     mInterleaved := mInterleaved m;
     mTimesAndSpeed := ts;
     mFloatBuffers := mFloatBuffers m; mTemp := mTemp m;
     mBuffer := mBuffer m; mSources := sources |}.

(** [Mixer::Reposition] *)
Definition Reposition (m : Mixer) (t : double) (bSkipping : bool) : Mixer :=
  let ts := mTimesAndSpeed m in
  let backwards := dlt (mT1 ts) (mT0 ts) in
  let time :=
    if backwards
    then std_clamp dlt t (mT1 ts) (mT0 ts)
    else std_clamp dlt t (mT0 ts) (mT1 ts) in
  let ts' := set_mTime ts time in
  with_times m ts' (map (Source_Reposition ts' time bSkipping) (mSources m)).


Definition set_mSpeed (m : Mixer) (speed : double) : Mixer :=
  let ts := mTimesAndSpeed m in
  with_times m
    {| mT0 := mT0 ts; mT1 := mT1 ts; mSpeed := speed; mTime := mTime ts |}
    (mSources m).

Definition set_bounds (m : Mixer) (t0 t1 : double) : Mixer :=
  let ts := mTimesAndSpeed m in
  with_times m
    {| mT0 := t0; mT1 := t1; mSpeed := mSpeed ts; mTime := mTime ts |}
    (mSources m).

(** [Mixer::SetSpeedForKeyboardScrubbing] *)
Definition SetSpeedForKeyboardScrubbing (m : Mixer) (speed startTime : double)
  : outcome Mixer :=
  do _ <- assert (isfinite speed);
  let ts := mTimesAndSpeed m in
  let m' :=
    (* Check if the direction has changed *)
    if (dlt double_zero speed && dlt (mT1 ts) (mT0 ts)) ||
       (dlt speed double_zero && dlt (mT0 ts) (mT1 ts))
    then
      let m1 :=
        if dlt double_zero speed && dlt (mT1 ts) (mT0 ts)
        then set_bounds m double_zero double_max
        else set_bounds m double_max double_zero in
      Reposition m1 startTime true
    else m in
  Ok (set_mSpeed m' (fabs speed)).

End Mixer.

(** ** Scripted collaborators

    An implementation of the collaborators for concrete runs, in a build
    with assertions.  A scripted
    source answers every [Acquire] the same way: it returns [scFrames]
    (capped by the bound it is given), fills the working buffers with the
    sample [scSample], and leaves [scTime] in the shared [mTime] ([None] or
    a NaN: leaves the time alone).  Output buffers hold the floats as they
    are. *)

Record Script := {
  scFrames : option N;
  scTime : option double;
  scSample : float
}.

Definition script_Acquire (s : Script) (data : Buffers) (bound : N)
    (ts : TimesAndSpeed) : option N * Script * Buffers * double :=
  (match scFrames s with
   | Some k => Some (N.min k bound)
   | None => None
   end,
   s,
   map (map (fun _ => scSample s)) data,
   match scTime s with
   | Some t => if isnan t then mTime ts else t
   | None => mTime ts
   end).

Definition script_CopySamples (src : list float) (srcFormat : sampleFormat)
    (dst : list float) (offset : N) (dstFormat : sampleFormat) (len : N)
    (dither : DitherType) (srcStride dstStride : N) : list float :=
  fold_left
    (fun out k =>
       match src !! (k * N.to_nat srcStride)%nat with
       | Some x => <[(N.to_nat (offset / 4) + k * N.to_nat dstStride)%nat := x]> out
       | None => out
       end)
    (seq 0 (N.to_nat len)) dst.

#[local] Instance scripted : Collaborators := {|
  NDEBUG := false;
  SourceState := Script;
  SampleData := list float;
  MixerSource_new := fun _ _ _ _ _ _ =>
    {| scFrames := Some 0; scTime := None; scSample := float_zero |};
  MixerSource_Acquire := script_Acquire;
  MixerSource_Reposition := fun s _ _ _ => s;
  Allocate := fun size _ => replicate (N.to_nat size) float_zero;
  SAMPLE_SIZE := fun _ => 4;
  CopySamples := script_CopySamples
|}.

(** The double [z], for an integer [z] that a double holds exactly. *)
Definition double_of_Z (z : Z) : double := binary_normalize 53 1024 z 0 false.
Definition float_of_Z (z : Z) : float := binary_normalize 24 128 z 0 false.

Definition mono : Channel :=
  {| Track_GetChannel := MonoChannel; Track_GetChannelGain := fun _ => float_one |}.
Definition left : Channel :=
  {| Track_GetChannel := LeftChannel; Track_GetChannelGain := fun _ => float_one |}.
Definition right : Channel :=
  {| Track_GetChannel := RightChannel; Track_GetChannelGain := fun _ => float_one |}.

Definition scripted_source (channels : list Channel) (s : Script)
  : MixerSource :=
  {| mpLeader := {| TrackList_Channels := channels |};
     mpMap := None;
     mSourceState := s |}.

(** A planar mixer over scripted sources, playing from 0 to 100 with block
    size 4. *)
Definition scripted_mixer (numChannels : N) (sources : list MixerSource)
  : Mixer :=
  {| mNumChannels := numChannels; mBufferSize := 4;
     mApplyTrackGains := false; mHighQuality := false;
     mFormat := floatSample; mInterleaved := false;
     mTimesAndSpeed :=
       {| mT0 := double_zero; mT1 := double_of_Z 100;
          mSpeed := double_of_Z 1; mTime := double_zero |};
     mFloatBuffers := Buffers_new 2 4 1 1;
     mTemp := initVector2 numChannels 4;
     mBuffer := initVector numChannels (SampleBuffer_Allocate 4 floatSample);
     mSources := sources |}.

(** *** Concrete mixers *)

Definition script (frames : option N) (time : option Z) (sample : Z)
  : Script :=
  {| scFrames := frames;
     scTime := option_map double_of_Z time;
     scSample := float_of_Z sample |}.

(** A mono source and a stereo source into two output channels. *)
Definition mono_and_stereo : Mixer :=
  scripted_mixer 2
    [scripted_source [mono] (script (Some 4) (Some 3%Z) 2);
     scripted_source [left; right] (script (Some 3) (Some 7%Z) 5)].

(** Three sources, the second of which has nothing more to give; the first
    has read ahead to time 150, past [mT1 = 100]. *)
Definition second_exhausted : Mixer :=
  scripted_mixer 2
    [scripted_source [mono] (script (Some 4) (Some 150%Z) 2);
     scripted_source [mono] (script None None 0);
     scripted_source [mono] (script (Some 4) (Some 3%Z) 1)].

(** A stereo source into a single output channel. *)
Definition stereo_into_mono : Mixer :=
  scripted_mixer 1
    [scripted_source [left; right] (script (Some 4) (Some 3%Z) 1)].

(** A mono source of amplitude 0.5 into two output channels, with a block
    size of 512. *)
Definition float_half : float := S754_finite false 8388608 (-24).

Definition half_amplitude : Mixer :=
  {| mNumChannels := 2; mBufferSize := 512;
     mApplyTrackGains := false; mHighQuality := false;
     mFormat := floatSample; mInterleaved := false;
     mTimesAndSpeed :=
       {| mT0 := double_zero; mT1 := double_of_Z 100;
          mSpeed := double_of_Z 1; mTime := double_zero |};
     mFloatBuffers := Buffers_new 2 512 1 1;
     mTemp := initVector2 2 512;
     mBuffer := initVector 2 (SampleBuffer_Allocate 512 floatSample);
     mSources :=
       [scripted_source [mono]
          {| scFrames := Some 512; scTime := None;
             scSample := float_half |}] |}.

(** Input for the constructor: a stereo track (leader and follower) and a
    mono track; a mix specification for two tracks only. *)
Definition stereo_track : SampleTrack :=
  {| TrackList_Channels := [left; right] |}.
Definition mono_track : SampleTrack :=
  {| TrackList_Channels := [mono] |}.
Definition three_tracks : list (option SampleTrack) :=
  [Some stereo_track; Some {| TrackList_Channels := [right] |};
   Some mono_track].

Definition spec_for_two_tracks : MixerSpec :=
  {| GetNumChannels := 2; GetNumTracks := 2;
     mMap := [[true; false]; [false; true]] |}.

Definition no_warp : WarpOptions :=
  {| initialSpeed := double_of_Z 1; minSpeed := double_of_Z 1;
     maxSpeed := double_of_Z 1 |}.

Definition construct_three (interleaved : bool) (spec : option MixerSpec)
  : outcome Mixer :=
  Mixer_Mixer three_tracks false no_warp double_zero (double_of_Z 100)
    2 4 interleaved (double_of_Z 44100) floatSample false spec false.

(** The interleaved mixer that the constructor makes of the three tracks. *)
Definition three_interleaved : Mixer :=
  match construct_three true None with
  | Ok m => m
  | Fail _ => scripted_mixer 2 []
  end.

(** ** The vocabulary of the properties *)

(** [time] lies between the bounds [t0] and [t1], whichever way round they
    are: within [[min(t0,t1), max(t0,t1)]]. *)
Definition between (t0 t1 time : double) : bool :=
  (dle t0 time && dle time t1) || (dle t1 time && dle time t0).

Definition TimeInBounds (ts : TimesAndSpeed) : Prop :=
  between (mT0 ts) (mT1 ts) (mTime ts) = true.

(** The frame counts that the [Acquire] calls of a log returned. *)
Fixpoint acquired (log : list Call) : list N :=
  match log with
  | [] => []
  | AcquireCall _ (Some k) :: log' => k :: acquired log'
  | _ :: log' => acquired log'
  end.

(** The channels of the source at position [i] that a log shows
    accumulated, in the order of the calls. *)
Fixpoint mixedChannels (i : nat) (log : list Call) : list nat :=
  match log with
  | [] => []
  | MixBuffersCall i' j :: log' =>
      if bool_decide (i' = i) then j :: mixedChannels i log'
      else mixedChannels i log'
  | _ :: log' => mixedChannels i log'
  end.

Definition max_list (l : list N) : N := foldr N.max 0 l.

Section Properties.
Context `{Collaborators}.

(** *** What is asked of [Acquire]

    The frame count is at most the bound (spec: "produce
    [frameCount <= maxFrames] frames"); the working buffers keep their
    extent; the time left in [mTime] is a number when the time found there
    was one. *)
Definition AcquireWithinBound : Prop :=
  forall state data bound ts k,
    (MixerSource_Acquire state data bound ts).1.1.1 = Some k -> k <= bound.

Definition AcquireKeepsShape : Prop :=
  forall state data bound ts,
    map length (MixerSource_Acquire state data bound ts).1.2 = map length data.

Definition AcquireTimeOrdered : Prop :=
  forall state data bound ts,
    isnan (mTime ts) = false ->
    isnan (MixerSource_Acquire state data bound ts).2 = false.

(** *** Well-formed mixers

    What the constructor establishes and every operation keeps: at least one
    output channel; one accumulation buffer per output channel, of the block
    size; one output buffer, or one per channel; two working buffers that
    hold a block; and for every source that has a map, a row of at least
    [mNumChannels] flags for each channel that is mixed. *)
Definition mixLimit (source : MixerSource) (maxChannels : N) : N :=
  std_min N.ltb (Source_Channels source) maxChannels.

Definition source_ok (numChannels : N) (source : MixerSource) : Prop :=
  match mpMap source with
  | None => True
  | Some rows =>
      let limit := N.to_nat (mixLimit source 2) in
      (limit <= length rows)%nat /\
      Forall (fun row : list bool => (N.to_nat numChannels <= length row)%nat)
        (take limit rows)
  end.

Record WfMixer (m : Mixer) : Prop := {
  wf_channels : 1 <= mNumChannels m;
  wf_temp : length (mTemp m) = N.to_nat (mNumChannels m);
  wf_temp_rows :
    Forall (fun v : list float => length v = N.to_nat (mBufferSize m))
      (mTemp m);
  wf_buffer :
    length (mBuffer m) =
    N.to_nat (if mInterleaved m then 1 else mNumChannels m);
  wf_float : length (mFloatBuffers m) = 2%nat;
  wf_float_rows :
    Forall (fun v : list float => (N.to_nat (mBufferSize m) <= length v)%nat)
      (mFloatBuffers m);
  wf_sources : Forall (source_ok (mNumChannels m)) (mSources m)
}.

(** The same for the state of the loop over the sources. *)
Record PassOk (m : Mixer) (st : Pass) : Prop := {
  ok_gains : length (pGains st) = N.to_nat (mNumChannels m);
  ok_temp : length (pTemp st) = N.to_nat (mNumChannels m);
  ok_temp_rows :
    Forall (fun v : list float => length v = N.to_nat (mBufferSize m))
      (pTemp st);
  ok_float : length (pBuffers st) = 2%nat;
  ok_float_rows :
    Forall (fun v : list float => (N.to_nat (mBufferSize m) <= length v)%nat)
      (pBuffers st)
}.

(** *** The shape of a log

    [MixTrace maxChannels i sources completed log]: [log] is what the loop
    over [sources], the first of them at position [i], records when it runs
    to the end ([completed = true]) or leaves at an [Acquire] that returned
    nothing ([completed = false]). *)
Inductive MixTrace (maxChannels : N)
  : nat -> list MixerSource -> bool -> list Call -> Prop :=
| trace_end i :
    MixTrace maxChannels i [] true []
| trace_none i source rest :
    MixTrace maxChannels i (source :: rest) false [AcquireCall i None]
| trace_some i source rest result completed log :
    MixTrace maxChannels (S i) rest completed log ->
    MixTrace maxChannels i (source :: rest) completed
      (AcquireCall i (Some result) ::
       map (MixBuffersCall i)
         (seq 0 (N.to_nat (mixLimit source maxChannels))) ++ log).

End Properties.

(** *** Well-formed input of the constructor

    [Grouped inputTracks i]: from position [i] on, the list consists of
    leaders, each followed by the other tracks of its channel group, the
    groups not empty and fitting the list. *)
Inductive Grouped (inputTracks : list (option SampleTrack)) : nat -> Prop :=
| grouped_end i :
    (length inputTracks <= i)%nat -> Grouped inputTracks i
| grouped_leader i leader :
    inputTracks !! i = Some (Some leader) ->
    (1 <= length (TrackList_Channels leader))%nat ->
    (i + length (TrackList_Channels leader) <= length inputTracks)%nat ->
    Grouped inputTracks (i + length (TrackList_Channels leader)) ->
    Grouped inputTracks i.

(** A mix specification holds a row for each of its tracks, with a flag for
    each of its channels. *)
Definition SpecOk (spec : MixerSpec) : Prop :=
  length (mMap spec) = N.to_nat (GetNumTracks spec) /\
  Forall (fun row : list bool =>
            (N.to_nat (GetNumChannels spec) <= length row)%nat)
    (mMap spec).

(** ** Further vocabulary *)

(** The positions of the sources that a log shows asked to acquire, in the
    order of the calls. *)
Fixpoint acquireOrder (log : list Call) : list nat :=
  match log with
  | [] => []
  | AcquireCall i _ :: log' => i :: acquireOrder log'
  | _ :: log' => acquireOrder log'
  end.

(** A sample that is zero, of either sign. *)
Definition is_zero (x : float) : bool :=
  match x with S754_zero _ => true | _ => false end.

(** Every sample of the buffers from position [k] on is [+0]. *)
Definition TailZero (k : nat) (temp : list (list float)) : Prop :=
  forall c buffer x,
    temp !! c = Some buffer -> (k <= x < length buffer)%nat ->
    buffer !! x = Some float_zero.

(** What [MixBuffers] does to the buffer of output channel [c]: nothing
    when the channel is not flagged, and the inner loop with the gain of the
    channel when it is. *)
Definition Mixed (flags : list bool) (gains src : list float) (len : Z)
    (c : nat) (dest dest' : list float) : Prop :=
  (flags !! c = Some false /\ dest' = dest) \/
  (flags !! c = Some true /\
   exists gain, gains !! c = Some gain /\
                accumulate gain src dest len = Ok dest').

(** The body of the loop of [MixBuffers] over the output channels. *)
Definition mixStep (channelFlags : list bool) (gains src : list float)
    (len : Z) (dests : list (list float)) (c : nat)
  : outcome (list (list float)) :=
  do flag <- read channelFlags c;
  if negb flag then Ok dests
  else
    do dest <- read dests c;
    do gain <- read gains c;
    do dest' <- accumulate gain src dest len;
    Ok (<[c := dest']> dests).

Section FurtherProperties.
Context `{Collaborators}.

(** The mixer with other contents of the accumulation buffers. *)
Definition set_mTemp (m : Mixer) (temp : list (list float)) : Mixer :=
  {| mNumChannels := mNumChannels m; mBufferSize := mBufferSize m;
     mApplyTrackGains := mApplyTrackGains m;
     mHighQuality := mHighQuality m; mFormat := mFormat m;
     mInterleaved := mInterleaved m;
     mTimesAndSpeed := mTimesAndSpeed m;
     mFloatBuffers := mFloatBuffers m; mTemp := temp;
     mBuffer := mBuffer m; mSources := mSources m |}.

(** The sizes of the channel groups of the sources, and the position in
    [inputTracks] of the leader of the source at position [k]: the sizes of
    the groups before it, added up. *)
Definition groupSizes (sources : list MixerSource) : list nat :=
  map (fun source => length (TrackList_Channels (mpLeader source))) sources.

Definition leaderPosition (sources : list MixerSource) (k : nat) : nat :=
  sum_list (groupSizes (take k sources)).

(** The sources made so far cover the tracks before position [i]: the
    sizes of their groups add up to [i], and each was made for the leader
    at its position, with the rows of the map from that position on. *)
Definition Cover (inputTracks : list (option SampleTrack))
    (pMixerSpec : option MixerSpec) (acc : list MixerSource) (i : nat)
  : Prop :=
  sum_list (groupSizes acc) = i /\
  forall k source,
    acc !! k = Some source ->
    inputTracks !! leaderPosition acc k = Some (Some (mpLeader source)) /\
    (1 <= length (TrackList_Channels (mpLeader source)))%nat /\
    (leaderPosition acc k + length (TrackList_Channels (mpLeader source))
     <= length inputTracks)%nat /\
    mpMap source =
      match pMixerSpec with
      | Some spec => Some (drop (leaderPosition acc k) (mMap spec))
      | None => None
      end.

(** No channel of a source of the mixer is routed to output channel [c]:
    whatever flags [findChannelFlags] gives for a channel of a source, the
    flag of [c] is not set. *)
Definition Unrouted (m : Mixer) (c : nat) : Prop :=
  forall source j track map flags,
    source ∈ mSources m ->
    TrackList_Channels (mpLeader source) !! j = Some track ->
    Source_MixerSpec source j = Ok map ->
    findChannelFlags (mNumChannels m) map (Track_GetChannel track)
      = Ok flags ->
    flags !! c = Some false.

(** [Acquire] hands over silence: every sample it leaves in the working
    buffers is zero. *)
Definition AcquireSilent : Prop :=
  forall state data bound ts,
    Forall (Forall (fun x => is_zero x = true))
      (MixerSource_Acquire state data bound ts).1.2.

(** The gains of the channels of the sources are finite. *)
Definition GainsFinite (m : Mixer) : Prop :=
  Forall (fun source =>
            Forall (fun channel : Channel =>
                      forall c, isfinite (Track_GetChannelGain channel c) = true)
              (TrackList_Channels (mpLeader source)))
    (mSources m).

End FurtherProperties.

(** *** More concrete input *)

(** Collaborators whose sources hand over silence: the state of a source is
    the frame count it returns (capped by the bound), and every sample it
    leaves in the working buffers is [-0]. *)
Definition silent_sources : Collaborators := {|
  NDEBUG := false;
  SourceState := option N;
  SampleData := list float;
  MixerSource_new := fun _ _ _ _ _ _ => Some 0;
  MixerSource_Acquire := fun state data bound ts =>
    (match state with
     | Some k => Some (N.min k bound)
     | None => None
     end,
     state, map (map (fun _ => S754_zero true)) data, mTime ts);
  MixerSource_Reposition := fun state _ _ _ => state;
  Allocate := fun size _ => replicate (N.to_nat size) float_zero;
  SAMPLE_SIZE := fun _ => 4;
  CopySamples := script_CopySamples
|}.

(** A stereo source of silence into two output channels, with track gains
    applied; the accumulation buffers still hold the samples of a block
    before. *)
Definition silent_mixer : @Mixer silent_sources :=
  @Build_Mixer silent_sources
    2 4 true false floatSample false
    {| mT0 := double_zero; mT1 := double_of_Z 100;
       mSpeed := double_of_Z 1; mTime := double_zero |}
    (Buffers_new 2 4 1 1)
    (replicate 2 (replicate 4 (float_of_Z 3)))
    (initVector 2 (@SampleBuffer_Allocate silent_sources 4 floatSample))
    [@Build_MixerSource silent_sources stereo_track None (Some 4)].

(** The scripted collaborators in a build without assertions. *)
Definition release_build : Collaborators := {|
  NDEBUG := true;
  SourceState := Script;
  SampleData := list float;
  MixerSource_new := fun _ _ _ _ _ _ =>
    {| scFrames := Some 0; scTime := None; scSample := float_zero |};
  MixerSource_Acquire := script_Acquire;
  MixerSource_Reposition := fun s _ _ _ => s;
  Allocate := fun size _ => replicate (N.to_nat size) float_zero;
  SAMPLE_SIZE := fun _ => 4;
  CopySamples := script_CopySamples
|}.

(** Input that is not well formed: a mono track, a null leader and another
    mono track; and a stereo leader without its follower. *)
Definition null_in_the_middle : list (option SampleTrack) :=
  [Some mono_track; None; Some mono_track].
Definition lone_stereo_leader : list (option SampleTrack) :=
  [Some mono_track; Some stereo_track].

Definition construct (build : Collaborators)
    (inputTracks : list (option SampleTrack)) : outcome (@Mixer build) :=
  @Mixer_Mixer build inputTracks false no_warp double_zero (double_of_Z 100)
    2 4 false (double_of_Z 44100) floatSample false None false.


(** A source with a left channel only, into two output channels: nothing
    is routed to output channel 1. *)
Definition left_only : Mixer :=
  scripted_mixer 2 [scripted_source [left] (script (Some 4) (Some 3%Z) 2)].

(** A mix specification for the three tracks: the stereo pair goes to the
    outputs crosswise, the mono track to both. *)
Definition spec_for_three_tracks : MixerSpec :=
  {| GetNumChannels := 2; GetNumTracks := 3;
     mMap := [[false; true]; [true; false]; [true; true]] |}.

(** The mixer that plays backward after a flip by speed -1. *)
Definition flipped_backward : Mixer :=
  match SetSpeedForKeyboardScrubbing mono_and_stereo (double_of_Z (-1))
          (double_of_Z 50) with
  | Ok m => m
  | Fail _ => mono_and_stereo
  end.

(** Two accumulation buffers of four samples, and a source buffer. *)
Definition some_dests : list (list float) :=
  [replicate 4 (float_of_Z 1); replicate 4 (float_of_Z 2)].
Definition some_src : list float := replicate 5 (float_of_Z 3).

(** The planar mixer that the constructor makes of the three tracks with
    the mix specification for them. *)
Definition three_routed : Mixer :=
  match construct_three false (Some spec_for_three_tracks) with
  | Ok m => m
  | Fail _ => scripted_mixer 2 []
  end.

(** ** The mix, as the specification words it

    "For each source ... for each of its channels (bounded by ...):
    compute a channel-flag vector ...; accumulate
    [outputBuffer[c] += sample * gain] for every flagged output channel."
    [mixDown] is that description as a function of the channel bound, to be
    compared with what [Process] leaves in [mTemp]. *)

(** [buffer[x] += samples[x] * gain] for the first [frames] samples. *)
Definition addSamples (gain : float) (samples : list float) (frames : nat)
    (buffer : list float) : list float :=
  imap (fun x d =>
          if bool_decide (x < frames)%nat
          then match samples !! x with
               | Some s => fadd d (fmul s gain)
               | None => d
               end
          else d)
    buffer.

(** The samples of one input channel, added to the buffer of every output
    channel that is flagged, with the gain of that output channel. *)
Definition addChannel (numChannels : nat) (flags : list bool)
    (gains samples : list float) (frames : nat) (temp : list (list float))
  : list (list float) :=
  imap (fun c buffer =>
          if bool_decide (c < numChannels)%nat
          then match flags !! c, gains !! c with
               | Some true, Some gain => addSamples gain samples frames buffer
               | _, _ => buffer
               end
          else buffer)
    temp.

Section MixDown.
Context `{Collaborators}.

(** The state in which [Process] enters the loop over the sources: the
    working buffers and the time as the mixer has them, every gain 1 when
    track gains are not applied, the accumulation buffers cleared, nothing
    acquired and nothing called. *)
Definition Process_entry (m : Mixer) : Pass :=
  {| pBuffers := mFloatBuffers m; pTime := mTime (mTimesAndSpeed m);
     pGains :=
       replicate (N.to_nat (mNumChannels m))
         (if negb (mApplyTrackGains m) then float_one else float_zero);
     pTemp := Clear (mTemp m); pMaxOut := 0; pLog := [] |}.

(** The gains of the output channels for an input channel: those of its
    track when track gains are applied, 1 otherwise. *)
Definition channelGains (m : Mixer) (track : Channel) : list float :=
  if mApplyTrackGains m
  then map (fun c => Track_GetChannelGain track (N.of_nat c))
         (seq 0 (N.to_nat (mNumChannels m)))
  else replicate (N.to_nat (mNumChannels m)) float_one.

(** Channel [j] of a source accumulated into [temp]: its samples are those
    of working buffer [j], of which [frames] were acquired; its flags are
    those of [findChannelFlags] for its row of the map and its role. *)
Definition accumulateChannel (m : Mixer) (source : MixerSource)
    (data : Buffers) (frames : nat) (temp : list (list float)) (j : nat)
  : list (list float) :=
  match data !! j, TrackList_Channels (mpLeader source) !! j with
  | Some samples, Some track =>
      match Source_MixerSpec source j with
      | Ok map =>
          match findChannelFlags (mNumChannels m) map (Track_GetChannel track)
          with
          | Ok flags =>
              addChannel (N.to_nat (mNumChannels m)) flags
                (channelGains m track) samples frames temp
          | Fail _ => temp
          end
      | Fail _ => temp
      end
  | _, _ => temp
  end.

(** The sources in their order, each asked to acquire and then its first
    [limit] channels accumulated, up to a source that returns nothing.  The
    frame count is taken as the [int] that [MixBuffers] is given. *)
Fixpoint mixDown (limit : MixerSource -> nat) (m : Mixer) (maxToProcess : N)
    (sources : list MixerSource) (data : Buffers) (time : double)
    (temp : list (list float)) : list (list float) :=
  match sources with
  | [] => temp
  | source :: rest =>
      let '(oResult, source', data', time') :=
        Source_Acquire source data maxToProcess
          (set_mTime (mTimesAndSpeed m) time) in
      match oResult with
      | None => temp
      | Some frames =>
          mixDown limit m maxToProcess rest data' time'
            (foldl (accumulateChannel m source' data'
                      (Z.to_nat (to_int frames)))
               temp (seq 0 (limit source')))
      end
  end.

(** The channel bound of the specification, and that of the code. *)
Definition boundByOutputs (m : Mixer) (source : MixerSource) : nat :=
  N.to_nat (N.min (Source_Channels source) (mNumChannels m)).

Definition boundByTwo (source : MixerSource) : nat :=
  N.to_nat (N.min (Source_Channels source) 2).

(** In the state of the loop every gain is 1 when track gains are not
    applied. *)
Definition GainsOne (m : Mixer) (st : Pass) : Prop :=
  mApplyTrackGains m = false ->
  pGains st = replicate (N.to_nat (mNumChannels m)) float_one.

(** A source without what lies beyond its second channel. *)
Definition firstTwo (source : MixerSource) : MixerSource :=
  {| mpLeader :=
       {| TrackList_Channels :=
            take 2 (TrackList_Channels (mpLeader source)) |};
     mpMap := mpMap source;
     mSourceState := mSourceState source |}.

End MixDown.
Lemma compare_cont_Eq (m1 m2 : positive) :
  Pos.compare_cont Eq m1 m2 = Pos.compare m1 m2.
Proof. reflexivity. Qed.

Ltac order_cases :=
  repeat match goal with
    | |- context [Z.compare ?a ?b] =>
        destruct (Z.compare_spec a b); subst
    | |- context [Pos.compare ?a ?b] =>
        destruct (Pos.compare_spec a b); subst
    | s : bool |- _ => destruct s
    end;
  cbn; try lia; try (split; [discriminate | lia]); try (split; [reflexivity | lia]).

Lemma dlt_key (x y : double) :
  isnan x = false -> isnan y = false ->
  dlt x y = true <-> key_lt (dkey x) (dkey y).
Proof.
  unfold dlt, SFltb.
  destruct x as [sx|sx| |sx mx ex], y as [sy|sy| |sy my ey];
    cbn; try discriminate; intros _ _;
    rewrite ?compare_cont_Eq; order_cases;
    split; intros; try discriminate; try lia; try reflexivity.
Qed.

Lemma dle_key (x y : double) :
  isnan x = false -> isnan y = false ->
  dle x y = true <-> key_le (dkey x) (dkey y).
Proof.
  unfold dle, SFleb.
  destruct x as [sx|sx| |sx mx ex], y as [sy|sy| |sy my ey];
    cbn; try discriminate; intros _ _;
    rewrite ?compare_cont_Eq; order_cases;
    split; intros; try discriminate; try lia; try reflexivity.
Qed.

Lemma dlt_not_nan (x y : double) :
  dlt x y = true -> isnan x = false /\ isnan y = false.
Proof. destruct x, y; cbn; try discriminate; auto. Qed.

Lemma dle_not_nan (x y : double) :
  dle x y = true -> isnan x = false /\ isnan y = false.
Proof. destruct x, y; cbn; try discriminate; auto. Qed.

Lemma key_le_refl a : key_le a a.
Proof. destruct a as [[a1 a2] a3]; cbn; lia. Qed.

Lemma key_le_trans a b c : key_le a b -> key_le b c -> key_le a c.
Proof.
  destruct a as [[a1 a2] a3], b as [[b1 b2] b3], c as [[c1 c2] c3]; cbn; lia.
Qed.

Lemma key_lt_le a b : key_lt a b -> key_le a b.
Proof. destruct a as [[a1 a2] a3], b as [[b1 b2] b3]; cbn; lia. Qed.

Lemma key_not_lt_le a b : ~ key_lt a b -> key_le b a.
Proof. destruct a as [[a1 a2] a3], b as [[b1 b2] b3]; cbn; lia. Qed.

Lemma dle_refl (x : double) : isnan x = false -> dle x x = true.
Proof. intros Hx. apply dle_key; auto using key_le_refl. Qed.

Lemma dle_trans (x y z : double) :
  dle x y = true -> dle y z = true -> dle x z = true.
Proof.
  intros Hxy Hyz.
  destruct (dle_not_nan _ _ Hxy) as [Hx Hy].
  destruct (dle_not_nan _ _ Hyz) as [_ Hz].
  apply dle_key; auto.
  apply key_le_trans with (dkey y); apply dle_key; auto.
Qed.

Lemma dlt_dle (x y : double) : dlt x y = true -> dle x y = true.
Proof.
  intros H. destruct (dlt_not_nan _ _ H) as [Hx Hy].
  apply dle_key; auto. apply key_lt_le, dlt_key; auto.
Qed.

(** On numbers that are not NaN the order is total. *)
Lemma dlt_false_dle (x y : double) :
  isnan x = false -> isnan y = false -> dlt x y = false -> dle y x = true.
Proof.
  intros Hx Hy H. apply dle_key; auto. apply key_not_lt_le.
  intros Hlt. apply dlt_key in Hlt; auto. congruence.
Qed.

Lemma dle_dlt_false (x y : double) : dle x y = true -> dlt y x = false.
Proof.
  intros H. destruct (dle_not_nan _ _ H) as [Hx Hy].
  destruct (dlt y x) eqn:E; [|reflexivity].
  apply dlt_key in E; auto. apply dle_key in H; auto.
  destruct (dkey x) as [[a1 a2] a3], (dkey y) as [[b1 b2] b3]; cbn in *; lia.
Qed.


(** [std::clamp] on doubles: the result lies between the bounds, and a
    value already between them is returned as it is. *)
Lemma std_clamp_bounds (v lo hi : double) :
  isnan v = false -> dle lo hi = true ->
  dle lo (std_clamp dlt v lo hi) = true /\
  dle (std_clamp dlt v lo hi) hi = true.
Proof.
  intros Hv Hlh. destruct (dle_not_nan _ _ Hlh) as [Hlo Hhi].
  unfold std_clamp.
  destruct (dlt v lo) eqn:E1; [split; auto using dle_refl|].
  destruct (dlt hi v) eqn:E2; [split; auto using dle_refl|].
  split; apply dlt_false_dle; auto.
Qed.

Lemma std_clamp_inside (v lo hi : double) :
  dle lo v = true -> dle v hi = true -> std_clamp dlt v lo hi = v.
Proof.
  intros H1 H2. unfold std_clamp.
  rewrite (dle_dlt_false _ _ H1), (dle_dlt_false _ _ H2). reflexivity.
Qed.




(** [between] is membership in [[min(t0,t1), max(t0,t1)]]. *)
Lemma between_min_max (t0 t1 x : double) :
  isnan t0 = false -> isnan t1 = false ->
  between t0 t1 x = true <->
  dle (std_min dlt t0 t1) x = true /\ dle x (std_max dlt t0 t1) = true.
Proof.
  intros H0 H1. unfold between, std_min, std_max.
  rewrite orb_true_iff, !andb_true_iff.
  destruct (dlt t1 t0) eqn:E10.
  - pose proof (dlt_dle _ _ E10) as Hle.
    rewrite (dle_dlt_false _ _ Hle).
    split; [|tauto]. intros [[Ha Hb]|Hab]; [|exact Hab].
    pose proof (dle_trans _ _ _ Ha Hb) as Hc.
    apply dle_dlt_false in Hc. congruence.
  - pose proof (dlt_false_dle _ _ H1 H0 E10) as Hle.
    destruct (dlt t0 t1) eqn:E01.
    + split; [|tauto]. intros [Hab|[Ha Hb]]; [exact Hab|].
      pose proof (dle_trans _ _ _ Ha Hb) as Hc.
      apply dle_dlt_false in Hc. congruence.
    + pose proof (dlt_false_dle _ _ H0 H1 E01) as Hge.
      split.
      * intros [[Ha Hb]|[Ha Hb]]; split; eauto using dle_trans.
      * intros [Ha Hb]. left. split; eauto using dle_trans.
Qed.

(** * Verification *)

(** ** Bounds-checked accesses and loops *)

Ltac bind_inv :=
  repeat match goal with
    | E : bind ?c _ = Ok _ |- _ =>
        let a := fresh "a" in
        let Ea := fresh "Ea" in
        destruct c as [a|] eqn:Ea; cbn [bind] in E; [|discriminate E]
    end.

Lemma read_Ok {A} (v : list A) (i : nat) (x : A) :
  v !! i = Some x -> read v i = Ok x.
Proof. unfold read. intros ->. reflexivity. Qed.

Lemma read_lt {A} (v : list A) (i : nat) :
  (i < length v)%nat -> exists x, read v i = Ok x /\ v !! i = Some x.
Proof.
  intros Hi. destruct (lookup_lt_is_Some_2 v i Hi) as [x Hx].
  exists x. split; [apply read_Ok|]; exact Hx.
Qed.

Lemma store_lt {A} (v : list A) (i : nat) (x : A) :
  (i < length v)%nat -> store v i x = Ok (<[i := x]> v).
Proof. intros Hi. unfold store. rewrite bool_decide_eq_true_2; auto. Qed.

Lemma foldM_total {A B} (f : A -> B -> outcome A)
    (I : A -> Prop) (P : B -> Prop) (l : list B) :
  (forall a b, I a -> P b -> exists a', f a b = Ok a' /\ I a') ->
  Forall P l ->
  forall a, I a -> exists a', foldM f a l = Ok a' /\ I a'.
Proof.
  intros Hf Hl. induction Hl as [|b l Hb Hl IH]; intros a Ha; cbn.
  - eauto.
  - destruct (Hf a b Ha Hb) as (a1 & -> & Ha1). cbn. auto.
Qed.

Lemma foldM_Ok_inv {A B} (f : A -> B -> outcome A) (R : A -> A -> Prop) :
  (forall a, R a a) ->
  (forall a b c, R a b -> R b c -> R a c) ->
  (forall a b a', f a b = Ok a' -> R a a') ->
  forall l a a', foldM f a l = Ok a' -> R a a'.
Proof.
  intros Hrefl Htrans Hf. induction l as [|b l IH]; intros a a' E; cbn in E.
  - injection E as <-. apply Hrefl.
  - bind_inv. eauto.
Qed.

Lemma elem_of_map {A B} (f : A -> B) (l : list A) (y : B) :
  y ∈ map f l <-> exists x, y = f x /\ x ∈ l.
Proof. exact (list_elem_of_fmap f l y). Qed.

Lemma Forall_seq_lt (n : nat) : Forall (fun c => (c < n)%nat) (seq 0 n).
Proof. apply Forall_forall. intros c Hc. apply elem_of_seq in Hc. lia. Qed.

Lemma to_int_le (k : N) : (to_int k <= Z.of_N k)%Z.
Proof.
  unfold to_int.
  pose proof (Z.mod_le (Z.of_N k + 2 ^ 31) (2 ^ 32)) as Hle.
  lia.
Qed.

(** ** [findChannelFlags] and [MixBuffers] return *)

Section ProcessFacts.
Context `{Collaborators}.

Lemma findChannelFlags_total (numChannels : N) (map : option (list bool))
    (channel : ChannelType) :
  1 <= numChannels ->
  (forall row, map = Some row -> (N.to_nat numChannels <= length row)%nat) ->
  exists flags,
    findChannelFlags numChannels map channel = Ok flags /\
    length flags = N.to_nat numChannels.
Proof.
  intros Hn Hmap. unfold findChannelFlags.
  destruct map as [row|].
  - rewrite bool_decide_eq_true_2 by auto.
    eexists; split; [reflexivity|]. rewrite length_take. specialize (Hmap row eq_refl). lia.
  - destruct channel; try (eexists; split; [reflexivity|apply length_replicate]).
    + rewrite store_lt by (rewrite length_replicate; lia).
      eexists; split; [reflexivity|]. rewrite length_insert. apply length_replicate.
    + destruct (2 <=? numChannels) eqn:E.
      * apply N.leb_le in E.
        rewrite store_lt by (rewrite length_replicate; lia).
        eexists; split; [reflexivity|]. rewrite length_insert. apply length_replicate.
      * rewrite store_lt by (rewrite length_replicate; lia).
        eexists; split; [reflexivity|]. rewrite length_insert. apply length_replicate.
Qed.

Lemma accumulate_total (gain : float) (src dest : list float) (len : Z) :
  (Z.to_nat len <= length src)%nat -> (Z.to_nat len <= length dest)%nat ->
  exists dest',
    accumulate gain src dest len = Ok dest' /\ length dest' = length dest.
Proof.
  intros Hs Hd. unfold accumulate.
  rewrite !bool_decide_eq_true_2 by auto. cbn.
  eexists; split; [reflexivity|].
  rewrite length_app, length_zip_with, !length_take, length_drop. lia.
Qed.

Lemma MixBuffers_total (numChannels : N) (flags : list bool)
    (gains src : list float) (dests : list (list float)) (len : Z) (size : nat) :
  length flags = N.to_nat numChannels ->
  length gains = N.to_nat numChannels ->
  length dests = N.to_nat numChannels ->
  Forall (fun v : list float => length v = size) dests ->
  (Z.to_nat len <= size)%nat -> (Z.to_nat len <= length src)%nat ->
  exists dests',
    MixBuffers numChannels flags gains src dests len = Ok dests' /\
    length dests' = N.to_nat numChannels /\
    Forall (fun v : list float => length v = size) dests'.
Proof.
  intros Hf Hg Hd Hrows Hlen Hsrc. unfold MixBuffers.
  apply (foldM_total _
           (fun d => length d = N.to_nat numChannels /\
                     Forall (fun v : list float => length v = size) d)
           (fun c => (c < N.to_nat numChannels)%nat));
    [|apply Forall_seq_lt|auto].
  intros d c [Hd1 Hd2] Hc.
  destruct (read_lt flags c) as (flag & -> & _); [lia|]. cbn.
  destruct flag; cbn; [|eauto].
  destruct (read_lt d c) as (dest & -> & Hdest); [lia|]. cbn.
  destruct (read_lt gains c) as (gain & -> & _); [lia|]. cbn.
  assert (Hdl : length dest = size).
  { eapply (Forall_lookup_1 _ d c dest) in Hd2; eauto. }
  destruct (accumulate_total gain src dest len) as (dest' & -> & Hl); [lia..|].
  cbn. eexists; split; [reflexivity|]. split.
  - rewrite length_insert. exact Hd1.
  - apply Forall_insert; auto. congruence.
Qed.

(** ** One channel of one source *)

Lemma std_max_N (a b : N) : std_max N.ltb a b = N.max a b.
Proof. unfold std_max. destruct (N.ltb_spec a b); lia. Qed.

Lemma std_min_N (a b : N) : std_min N.ltb a b = N.min a b.
Proof. unfold std_min. destruct (N.ltb_spec b a); lia. Qed.

Lemma mixLimit_min (source : MixerSource) (maxChannels : N) :
  mixLimit source maxChannels = N.min (Source_Channels source) maxChannels.
Proof. apply std_min_N. Qed.

Lemma Source_Acquire_same (source : MixerSource) (data : Buffers) (bound : N)
    (ts : TimesAndSpeed) :
  mpLeader (Source_Acquire source data bound ts).1.1.2 = mpLeader source /\
  mpMap (Source_Acquire source data bound ts).1.1.2 = mpMap source.
Proof.
  unfold Source_Acquire.
  destruct (MixerSource_Acquire _ _ _ _) as [[[o s] d] t]. cbn. auto.
Qed.

Lemma mixChannel_total (m : Mixer) (i : nat) (source : MixerSource)
    (result : N) (st : Pass) (j : nat) :
  1 <= mNumChannels m ->
  source_ok (mNumChannels m) source ->
  result <= mBufferSize m ->
  PassOk m st ->
  (j < N.to_nat (mixLimit source 2))%nat ->
  exists st', mixChannel m i source result st j = Ok st' /\ PassOk m st'.
Proof.
  intros Hn Hsrc Hres [Hg Ht Htr Hf Hfr] Hj.
  rewrite mixLimit_min in Hj.
  unfold mixChannel, Buffers_GetReadPosition, Source_GetChannel.
  destruct (read_lt (pBuffers st) j) as (pFloat & -> & HpFloat); [lia|]. cbn.
  destruct (read_lt (TrackList_Channels (mpLeader source)) j)
    as (track & -> & _); [unfold Source_Channels in Hj; lia|]. cbn.
  set (gains := if mApplyTrackGains m then _ else _).
  assert (Hgains : length gains = N.to_nat (mNumChannels m)).
  { subst gains. destruct (mApplyTrackGains m); [|exact Hg].
    rewrite length_map, length_seq. reflexivity. }
  assert (Hspec : exists map,
             Source_MixerSpec source j = Ok map /\
             forall row, map = Some row ->
                         (N.to_nat (mNumChannels m) <= length row)%nat).
  { unfold Source_MixerSpec. unfold source_ok in Hsrc.
    destruct (mpMap source) as [rows|].
    - destruct Hsrc as [Hlen Hrows]. rewrite mixLimit_min in Hlen, Hrows.
      destruct (read_lt rows j) as (row & -> & Hrow); [lia|]. cbn.
      eexists; split; [reflexivity|]. intros row' [= <-].
      eapply (Forall_lookup_1 _ _ j row) in Hrows; [exact Hrows|].
      rewrite lookup_take_lt by lia. exact Hrow.
    - eexists; split; [reflexivity|]. discriminate. }
  destruct Hspec as (map & -> & Hmap). cbn.
  destruct (findChannelFlags_total (mNumChannels m) map
              (Track_GetChannel track) Hn Hmap) as (flags & -> & Hflags). cbn.
  pose proof (to_int_le result) as Hint.
  destruct (MixBuffers_total (mNumChannels m) flags gains pFloat (pTemp st)
              (to_int result) (N.to_nat (mBufferSize m)))
    as (temp & -> & Htemp & Htemprows); auto; try lia.
  { eapply (Forall_lookup_1 _ _ j pFloat) in Hfr; [|exact HpFloat]. cbn in Hfr. lia. }
  cbn. eexists; split; [reflexivity|]. constructor; cbn; auto.
Qed.

(** What a channel, and a loop over channels, leaves alone. *)
Lemma mixChannel_Ok (m : Mixer) (i : nat) (source : MixerSource)
    (result : N) (st st' : Pass) (j : nat) :
  mixChannel m i source result st j = Ok st' ->
  pBuffers st' = pBuffers st /\ pTime st' = pTime st /\
  pMaxOut st' = pMaxOut st /\ pLog st' = pLog st ++ [MixBuffersCall i j].
Proof.
  unfold mixChannel. intros E. bind_inv. injection E as <-. cbn. auto.
Qed.

Lemma mixChannels_Ok (m : Mixer) (i : nat) (source : MixerSource)
    (result : N) (l : list nat) :
  forall st st',
    foldM (mixChannel m i source result) st l = Ok st' ->
    pBuffers st' = pBuffers st /\ pTime st' = pTime st /\
    pMaxOut st' = pMaxOut st /\
    pLog st' = pLog st ++ map (MixBuffersCall i) l.
Proof.
  induction l as [|j l IH]; intros st st' E; cbn in E.
  - injection E as <-. cbn. rewrite app_nil_r. auto.
  - bind_inv. apply mixChannel_Ok in Ea as (Hb & Ht & Hm & Hl).
    apply IH in E as (Hb' & Ht' & Hm' & Hl').
    rewrite Hb', Ht', Hm', Hl', Hb, Ht, Hm, Hl. cbn.
    rewrite <- app_assoc. auto.
Qed.

Lemma mixChannels_total (m : Mixer) (i : nat) (source : MixerSource)
    (result : N) (st : Pass) :
  1 <= mNumChannels m ->
  source_ok (mNumChannels m) source ->
  result <= mBufferSize m ->
  PassOk m st ->
  exists st',
    foldM (mixChannel m i source result) st
      (seq 0 (N.to_nat (mixLimit source 2))) = Ok st' /\
    PassOk m st'.
Proof.
  intros Hn Hsrc Hres Hst.
  apply (foldM_total _ (PassOk m)
           (fun j => (j < N.to_nat (mixLimit source 2))%nat));
    [|apply Forall_seq_lt|exact Hst].
  intros a j Ha Hj. apply mixChannel_total; auto.
Qed.

(** ** The loop over the sources *)

Lemma same_shape_length {A} (a b : list (list A)) :
  map length a = map length b -> length a = length b.
Proof. intros E. rewrite <- (length_map length a), E. apply length_map. Qed.

Lemma same_shape_Forall {A} (P : nat -> Prop) (a b : list (list A)) :
  map length a = map length b ->
  Forall (fun v : list A => P (length v)) b ->
  Forall (fun v : list A => P (length v)) a.
Proof.
  intros E Hb.
  apply (List.Forall_map length P a). rewrite E.
  apply (List.Forall_map length P b). exact Hb.
Qed.

Lemma mixSources_total (m : Mixer) (maxToProcess : N) :
  1 <= mNumChannels m ->
  maxToProcess <= mBufferSize m ->
  AcquireWithinBound -> AcquireKeepsShape ->
  forall sources i st,
    Forall (source_ok (mNumChannels m)) sources ->
    PassOk m st ->
    exists completed sources' st',
      mixSources m maxToProcess 2 i sources st = Ok (completed, sources', st') /\
      PassOk m st' /\
      Forall (source_ok (mNumChannels m)) sources' /\
      pMaxOut st' <= N.max (pMaxOut st) maxToProcess.
Proof.
  intros Hn Hmax Hbound Hshape.
  induction sources as [|source rest IH]; intros i st Hsrcs Hst; cbn.
  - exists true, [], st. split; [reflexivity|]. split; [exact Hst|].
    split; [constructor|lia].
  - apply Forall_cons in Hsrcs as [Hsrc Hrest].
    pose proof (Source_Acquire_same source (pBuffers st) maxToProcess
                  (set_mTime (mTimesAndSpeed m) (pTime st))) as [Hleader Hmap].
    pose proof (Hbound (mSourceState source) (pBuffers st) maxToProcess
                  (set_mTime (mTimesAndSpeed m) (pTime st))) as Hk.
    pose proof (Hshape (mSourceState source) (pBuffers st) maxToProcess
                  (set_mTime (mTimesAndSpeed m) (pTime st))) as Hd.
    unfold Source_Acquire in *.
    destruct (MixerSource_Acquire _ _ _ _) as [[[oResult state] data] time].
    cbn in Hleader, Hmap, Hk, Hd.
    set (source' := {| mpLeader := mpLeader source; mpMap := mpMap source;
                       mSourceState := state |}).
    assert (Hsrc' : source_ok (mNumChannels m) source') by exact Hsrc.
    destruct Hst as [Hg Ht Htr Hf Hfr].
    assert (Hf' : length data = 2%nat)
      by (rewrite (same_shape_length _ _ Hd); exact Hf).
    assert (Hfr' : Forall (fun v : list float =>
                             (N.to_nat (mBufferSize m) <= length v)%nat) data)
      by (apply (same_shape_Forall
                   (fun n => (N.to_nat (mBufferSize m) <= n)%nat) _ _ Hd Hfr)).
    destruct oResult as [result|].
    + specialize (Hk result eq_refl).
      destruct (mixChannels_total m i source' result
                  {| pBuffers := data; pTime := time; pGains := pGains st;
                     pTemp := pTemp st;
                     pMaxOut := std_max N.ltb (pMaxOut st) result;
                     pLog := pLog st ++ [AcquireCall i (Some result)] |})
        as (st2 & E2 & Hst2); auto; [lia|constructor; auto|].
      change (mixLimit source' 2) with
        (std_min N.ltb (Source_Channels source') 2) in E2.
      rewrite E2. cbn.
      apply mixChannels_Ok in E2 as (_ & _ & Hm2 & _). cbn in Hm2.
      destruct (IH (S i) st2 Hrest Hst2)
        as (completed & rest' & st3 & -> & Hst3 & Hrest' & Hm3).
      cbn. exists completed, (source' :: rest'), st3.
      split; [reflexivity|]. split; [exact Hst3|].
      split; [constructor; auto|]. rewrite Hm2, std_max_N in Hm3. lia.
    + eexists false, (source' :: rest), _. split; [reflexivity|].
      split; [constructor; auto|]. split; [constructor; auto|]. cbn. lia.
Qed.

(** *** Logs of the shape [MixTrace] *)

Lemma trace_acquire_index (maxChannels : N) (i : nat)
    (sources : list MixerSource) (completed : bool) (log : list Call)
    (c : nat) (r : option N) :
  MixTrace maxChannels i sources completed log ->
  AcquireCall c r ∈ log -> (i <= c < i + length sources)%nat.
Proof.
  intros Ht. induction Ht as [i|i source rest|i source rest k b log Ht IH];
    intros Hin.
  - inversion Hin.
  - apply list_elem_of_singleton in Hin. injection Hin as -> _. cbn. lia.
  - apply elem_of_cons in Hin as [Hin|Hin];
      [injection Hin as -> _; cbn; lia|].
    apply elem_of_app in Hin as [Hin|Hin]; [|apply IH in Hin; cbn; lia].
    apply elem_of_map in Hin as (j & Hj & _). discriminate.
Qed.

Lemma trace_mix_index (maxChannels : N) (i : nat)
    (sources : list MixerSource) (completed : bool) (log : list Call)
    (c j : nat) :
  MixTrace maxChannels i sources completed log ->
  MixBuffersCall c j ∈ log -> (i <= c)%nat.
Proof.
  intros Ht. induction Ht as [i|i source rest|i source rest k b log Ht IH];
    intros Hin.
  - inversion Hin.
  - apply list_elem_of_singleton in Hin. discriminate.
  - apply elem_of_cons in Hin as [Hin|Hin]; [discriminate|].
    apply elem_of_app in Hin as [Hin|Hin]; [|apply IH in Hin; lia].
    apply elem_of_map in Hin as (j' & Hj & _). injection Hj as -> _. lia.
Qed.

(** An [Acquire] that returned nothing ends the log: the loop did not run to
    its end, and no source after that one was asked. *)
Lemma trace_none_last (maxChannels : N) (i : nat)
    (sources : list MixerSource) (completed : bool) (log : list Call)
    (c : nat) :
  MixTrace maxChannels i sources completed log ->
  AcquireCall c None ∈ log ->
  completed = false /\
  forall c' r, (c < c')%nat -> AcquireCall c' r ∉ log.
Proof.
  intros Ht. induction Ht as [i|i source rest|i source rest k b log Ht IH];
    intros Hin.
  - inversion Hin.
  - apply list_elem_of_singleton in Hin. injection Hin as ->.
    split; [reflexivity|]. intros c' r Hc Hin'.
    apply list_elem_of_singleton in Hin'. injection Hin' as -> _. lia.
  - apply elem_of_cons in Hin as [Hin|Hin]; [discriminate|].
    apply elem_of_app in Hin as [Hin|Hin].
    { apply elem_of_map in Hin as (j & Hj & _). discriminate. }
    pose proof (trace_acquire_index _ _ _ _ _ _ _ Ht Hin) as Hc.
    destruct (IH Hin) as [-> Hlater]. split; [reflexivity|].
    intros c' r Hc' Hin'.
    apply elem_of_cons in Hin' as [Hin'|Hin']; [injection Hin' as -> _; lia|].
    apply elem_of_app in Hin' as [Hin'|Hin']; [|exact (Hlater c' r Hc' Hin')].
    apply elem_of_map in Hin' as (j & Hj & _). discriminate.
Qed.

Lemma trace_none_mix (maxChannels : N) (i : nat)
    (sources : list MixerSource) (completed : bool) (log : list Call)
    (c : nat) :
  MixTrace maxChannels i sources completed log ->
  AcquireCall c None ∈ log ->
  forall c' j, (c <= c')%nat -> MixBuffersCall c' j ∉ log.
Proof.
  intros Ht. induction Ht as [i|i source rest|i source rest k b log Ht IH];
    intros Hin c' j Hc Hin'.
  - inversion Hin.
  - apply list_elem_of_singleton in Hin'. discriminate.
  - apply elem_of_cons in Hin as [Hin|Hin]; [discriminate|].
    apply elem_of_app in Hin as [Hin|Hin].
    { apply elem_of_map in Hin as (j' & Hj & _). discriminate. }
    pose proof (trace_acquire_index _ _ _ _ _ _ _ Ht Hin) as Hi.
    apply elem_of_cons in Hin' as [Hin'|Hin']; [discriminate|].
    apply elem_of_app in Hin' as [Hin'|Hin']; [|exact (IH Hin c' j Hc Hin')].
    apply elem_of_map in Hin' as (j' & Hj & _). injection Hj as -> _. lia.
Qed.

Lemma trace_not_completed (maxChannels : N) (i : nat)
    (sources : list MixerSource) (log : list Call) :
  MixTrace maxChannels i sources false log ->
  exists c, AcquireCall c None ∈ log.
Proof.
  intros Ht. remember false as b eqn:Eb.
  induction Ht as [i|i source rest|i source rest k b log Ht IH].
  - discriminate.
  - exists i. apply list_elem_of_singleton. reflexivity.
  - destruct (IH Eb) as [c Hc]. exists c.
    apply elem_of_cons. right. apply elem_of_app. right. exact Hc.
Qed.

Lemma mixedChannels_app (c : nat) (l1 l2 : list Call) :
  mixedChannels c (l1 ++ l2) = mixedChannels c l1 ++ mixedChannels c l2.
Proof.
  induction l1 as [|[i r|i j] l1 IH]; cbn; auto.
  destruct (bool_decide (i = c)); cbn; rewrite IH; reflexivity.
Qed.

Lemma mixedChannels_same (i : nat) (js : list nat) :
  mixedChannels i (map (MixBuffersCall i) js) = js.
Proof.
  induction js as [|j js IH]; cbn; auto.
  rewrite bool_decide_eq_true_2 by reflexivity. rewrite IH. reflexivity.
Qed.

Lemma mixedChannels_other (c i : nat) (js : list nat) :
  c <> i -> mixedChannels c (map (MixBuffersCall i) js) = [].
Proof.
  intros Hne. induction js as [|j js IH]; cbn; auto.
  rewrite bool_decide_eq_false_2 by congruence. exact IH.
Qed.

Lemma mixedChannels_none (c : nat) (log : list Call) :
  (forall j, MixBuffersCall c j ∉ log) -> mixedChannels c log = [].
Proof.
  induction log as [|[i r|i j] log IH]; intros Hnot; cbn; auto.
  - apply IH. intros j Hj. apply (Hnot j). apply elem_of_cons. auto.
  - destruct (bool_decide_reflect (i = c)) as [->|Hne].
    + exfalso. apply (Hnot j). apply elem_of_cons. auto.
    + apply IH. intros j' Hj. apply (Hnot j'). apply elem_of_cons. auto.
Qed.

(** The channels of a source that acquired are mixed from channel 0 up to
    the limit, once each. *)
Lemma trace_mixed (maxChannels : N) (i : nat)
    (sources : list MixerSource) (completed : bool) (log : list Call) :
  MixTrace maxChannels i sources completed log ->
  forall k source r,
    sources !! k = Some source ->
    AcquireCall (i + k) (Some r) ∈ log ->
    mixedChannels (i + k) log
      = seq 0 (N.to_nat (mixLimit source maxChannels)).
Proof.
  intros Ht. induction Ht as [i|i src rest|i src rest res b log Ht IH];
    intros k source r Hk Hin.
  - discriminate.
  - apply list_elem_of_singleton in Hin. discriminate.
  - cbn [mixedChannels]. rewrite mixedChannels_app.
    destruct k as [|k].
    + injection Hk as <-. rewrite Nat.add_0_r.
      rewrite mixedChannels_same, (mixedChannels_none i log), app_nil_r; auto.
      intros j Hj. apply (trace_mix_index _ _ _ _ _ _ _ Ht) in Hj. lia.
    + cbn in Hk. rewrite mixedChannels_other by lia. cbn [app].
      rewrite <- Nat.add_succ_comm. apply (IH k source r Hk).
      apply elem_of_cons in Hin as [Hin|Hin];
        [injection Hin as Hin _; lia|].
      apply elem_of_app in Hin as [Hin|Hin].
      * apply elem_of_map in Hin as (j & Hj & _). discriminate.
      * rewrite <- Nat.add_succ_comm in Hin. exact Hin.
Qed.

(** The log of the loop, the frame count it arrives at, and the sources it
    has not come to. *)
Lemma acquired_app (l1 l2 : list Call) :
  acquired (l1 ++ l2) = acquired l1 ++ acquired l2.
Proof.
  induction l1 as [|[i [k|]|i j] l1 IH]; cbn; auto. rewrite IH. reflexivity.
Qed.

Lemma acquired_mix (i : nat) (l : list nat) :
  acquired (map (MixBuffersCall i) l) = [].
Proof. induction l; cbn; auto. Qed.

Lemma mixSources_Ok (m : Mixer) (maxToProcess maxChannels : N) :
  forall sources i st completed sources' st',
    mixSources m maxToProcess maxChannels i sources st
      = Ok (completed, sources', st') ->
    exists log,
      pLog st' = pLog st ++ log /\
      MixTrace maxChannels i sources completed log /\
      pMaxOut st' = N.max (pMaxOut st) (max_list (acquired log)) /\
      length sources' = length sources /\
      forall k, AcquireCall (i + k) None ∈ log ->
                drop (S k) sources' = drop (S k) sources.
Proof.
  induction sources as [|source rest IH];
    intros i st completed sources' st' E; cbn in E.
  - injection E as <- <- <-. exists []. rewrite app_nil_r.
    split; [reflexivity|]. split; [constructor|]. split; [cbn; lia|].
    split; [reflexivity|]. intros k Hk. inversion Hk.
  - pose proof (Source_Acquire_same source (pBuffers st) maxToProcess
                  (set_mTime (mTimesAndSpeed m) (pTime st))) as [Hleader _].
    destruct (Source_Acquire _ _ _ _) as [[[oResult source1] data] time].
    cbn in Hleader.
    destruct oResult as [result|].
    + bind_inv. destruct a0 as [[completed1 rest1] st3].
      injection E as <- <- <-.
      apply mixChannels_Ok in Ea as (_ & _ & Hm2 & Hl2). cbn in Hm2, Hl2.
      apply IH in Ea0 as (log & Hl3 & Htr & Hm3 & Hlen & Hdrop).
      exists (AcquireCall i (Some result) ::
              map (MixBuffersCall i)
                (seq 0 (N.to_nat (mixLimit source maxChannels))) ++ log).
      assert (Hlim : mixLimit source maxChannels
                     = std_min N.ltb (Source_Channels source1) maxChannels).
      { unfold mixLimit, Source_Channels. rewrite Hleader. reflexivity. }
      split; [|split; [|split; [|split]]].
      * rewrite Hl3, Hl2, Hlim, <- !app_assoc. reflexivity.
      * constructor. exact Htr.
      * cbn [acquired]. rewrite acquired_app, acquired_mix. cbn [app].
        change (max_list (result :: acquired log))
          with (N.max result (max_list (acquired log))).
        rewrite Hm3, Hm2, std_max_N. lia.
      * cbn. congruence.
      * intros k Hk. apply elem_of_cons in Hk as [Hk|Hk]; [discriminate|].
        apply elem_of_app in Hk as [Hk|Hk].
        { apply elem_of_map in Hk as (j & Hj & _). discriminate. }
        destruct k as [|k].
        -- exfalso. rewrite Nat.add_0_r in Hk.
           apply (trace_acquire_index _ _ _ _ _ _ _ Htr) in Hk. lia.
        -- cbn. rewrite <- Nat.add_succ_comm in Hk. apply (Hdrop k Hk).
    + injection E as <- <- <-. exists [AcquireCall i None]. cbn.
      split; [reflexivity|]. split; [constructor|]. split; [lia|].
      split; [reflexivity|]. intros k Hk. apply list_elem_of_singleton in Hk.
      injection Hk as Hk. assert (k = 0%nat) as -> by lia. reflexivity.
Qed.

Lemma mixSources_time (m : Mixer) (maxToProcess maxChannels : N) :
  AcquireTimeOrdered ->
  forall sources i st completed sources' st',
    isnan (pTime st) = false ->
    mixSources m maxToProcess maxChannels i sources st
      = Ok (completed, sources', st') ->
    isnan (pTime st') = false.
Proof.
  intros Hordered.
  induction sources as [|source rest IH];
    intros i st completed sources' st' Hst E; cbn in E.
  - injection E as <- <- <-. exact Hst.
  - pose proof (Hordered (mSourceState source) (pBuffers st) maxToProcess
                  (set_mTime (mTimesAndSpeed m) (pTime st)) Hst) as Ht.
    unfold Source_Acquire in E.
    destruct (MixerSource_Acquire _ _ _ _) as [[[oResult state] data] time].
    cbn in Ht. destruct oResult as [result|].
    + bind_inv. destruct a0 as [[completed1 rest1] st3].
      injection E as <- <- <-.
      apply mixChannels_Ok in Ea as (_ & Ht2 & _ & _). cbn in Ht2.
      apply (IH _ _ _ _ _) in Ea0; [exact Ea0|]. congruence.
    + injection E as <- <- <-. exact Ht.
Qed.

(** ** [Process] *)

(** The state in which [Process] enters the loop over the sources. *)
Lemma Process_start_ok (m : Mixer) :
  WfMixer m ->
  PassOk m
    {| pBuffers := mFloatBuffers m; pTime := mTime (mTimesAndSpeed m);
       pGains :=
         replicate (N.to_nat (mNumChannels m))
           (if negb (mApplyTrackGains m) then float_one else float_zero);
       pTemp := Clear (mTemp m); pMaxOut := 0; pLog := [] |}.
Proof.
  intros [Hn Ht Htr Hb Hf Hfr Hs]. constructor; cbn; auto.
  - apply length_replicate.
  - unfold Clear. rewrite length_map. exact Ht.
  - unfold Clear. apply List.Forall_map.
    eapply Forall_impl; [exact Htr|].
    cbn. intros v Hv. rewrite length_replicate. exact Hv.
Qed.

Lemma copyChannels_total (m : Mixer) (temp : list (list float)) (maxOut : N) :
  length temp = N.to_nat (mNumChannels m) ->
  length (mBuffer m) =
    N.to_nat (if mInterleaved m then 1 else mNumChannels m) ->
  exists buffers,
    foldM (copyChannel m temp maxOut) (mBuffer m)
      (seq 0 (N.to_nat (mNumChannels m))) = Ok buffers /\
    length buffers = length (mBuffer m).
Proof.
  intros Ht Hb.
  apply (foldM_total _ (fun b => length b = length (mBuffer m))
           (fun c => (c < N.to_nat (mNumChannels m))%nat));
    [|apply Forall_seq_lt|reflexivity].
  intros b c Hlen Hc. unfold copyChannel.
  destruct (read_lt temp c) as (src & -> & _); [lia|]. cbn.
  destruct (read_lt b (if mInterleaved m then 0%nat else c))
    as (dst & -> & _); [destruct (mInterleaved m); lia|]. cbn.
  eexists; split; [reflexivity|]. rewrite length_insert. exact Hlen.
Qed.

(** A call on a well-formed mixer returns, and leaves a well-formed mixer. *)
Lemma Process_returns (m : Mixer) (maxToProcess : N) :
  WfMixer m -> AcquireWithinBound -> AcquireKeepsShape ->
  maxToProcess <= BufferSize m ->
  exists r m' log, Process m maxToProcess = Ok (r, m', log) /\ WfMixer m'.
Proof.
  intros Hwf Hbound Hshape Hmax.
  pose proof (Process_start_ok m Hwf) as Hst0.
  destruct Hwf as [Hn Ht Htr Hb Hf Hfr Hs].
  unfold Process.
  unfold BufferSize in *. rewrite (proj2 (N.leb_le _ _) Hmax). cbn [assert bind].
  unfold Buffers_Channels. rewrite Hf. change (N.of_nat 2) with 2.
  destruct (mixSources_total m maxToProcess Hn Hmax Hbound Hshape
              (mSources m) 0%nat _ Hs Hst0)
    as (completed & sources & st & -> & [Hg' Ht' Htr' Hf' Hfr'] & Hs' & Hm').
  cbn [bind pMaxOut] in *. destruct completed; cbn [negb].
  - destruct (copyChannels_total m (pTemp st) (pMaxOut st) Ht' Hb)
      as (buffers & -> & Hlen).
    cbn [bind].
    rewrite (proj2 (N.leb_le (pMaxOut st) maxToProcess)) by lia.
    cbn [assert bind]. do 3 eexists. split; [reflexivity|].
    constructor; cbn; auto. congruence.
  - do 3 eexists. split; [reflexivity|]. constructor; cbn; auto.
Qed.

(** What a call that returned has done. *)
Lemma Process_Ok (m : Mixer) (maxToProcess : N) (r : N) (m' : Mixer)
    (log : list Call) :
  Process m maxToProcess = Ok (r, m', log) ->
  let ts := mTimesAndSpeed m in
  exists completed st,
    mixSources m maxToProcess (Buffers_Channels (mFloatBuffers m)) 0
      (mSources m)
      {| pBuffers := mFloatBuffers m; pTime := mTime ts;
         pGains :=
           replicate (N.to_nat (mNumChannels m))
             (if negb (mApplyTrackGains m) then float_one else float_zero);
         pTemp := Clear (mTemp m); pMaxOut := 0; pLog := [] |}
      = Ok (completed, mSources m', st) /\
    log = pLog st /\
    r = (if completed then pMaxOut st else 0) /\
    r <= maxToProcess /\
    mTimesAndSpeed m' =
      set_mTime ts
        (if completed then
           if dlt (mT1 ts) (mT0 ts)
           then std_clamp dlt (pTime st) (mT1 ts) (mTime ts)
           else std_clamp dlt (pTime st) (mTime ts) (mT1 ts)
         else pTime st).
Proof.
  unfold Process. intros E. bind_inv.
  destruct a0 as [[completed sources] st]. exists completed, st.
  destruct completed; cbn [negb] in E.
  - bind_inv. injection E as <- <- <-. cbn.
    unfold assert in Ea2. destruct (N.leb_spec (pMaxOut st) maxToProcess);
      [|discriminate]. auto.
  - injection E as <- <- <-. cbn. repeat split; auto. lia.
Qed.

End ProcessFacts.

(** ** The constructor *)

Section ConstructorFacts.
Context `{Collaborators}.

(** Where the loop is left after [assert(false)], the build is one without
    assertions and the result is what had been made. *)
Lemma assert_false_break_Ok {A} (soFar result : A) :
  assert_false_break soFar = Ok result -> NDEBUG = true /\ soFar = result.
Proof.
  unfold assert_false_break. destruct NDEBUG; [|discriminate].
  intros [= <-]. auto.
Qed.

Lemma makeSources_Forall (P : MixerSource -> Prop)
    (inputTracks : list (option SampleTrack)) (bufferSize : N)
    (outRate : double) (warpOptions : WarpOptions)
    (highQuality mayThrow : bool) (pMixerSpec : option MixerSpec) :
  (forall i leader,
     inputTracks !! i = Some (Some leader) ->
     (i + length (TrackList_Channels leader) <= length inputTracks)%nat ->
     P {| mpLeader := leader;
          mpMap := match pMixerSpec with
                   | Some spec => Some (drop i (mMap spec))
                   | None => None
                   end;
          mSourceState :=
            MixerSource_new leader bufferSize outRate warpOptions
              highQuality mayThrow |}) ->
  forall fuel i acc sources,
    Forall P acc ->
    makeSources fuel inputTracks bufferSize outRate warpOptions highQuality
      mayThrow pMixerSpec i acc = Ok sources ->
    Forall P sources.
Proof.
  intros Hnew. induction fuel as [|fuel IH]; intros i acc sources Hacc E;
    cbn in E;
    (destruct (bool_decide (i < length inputTracks)%nat);
     [|injection E as <-; exact Hacc]);
    (destruct (inputTracks !! i) as [[leader|]|] eqn:Ei;
     try (apply assert_false_break_Ok in E as [_ <-]; exact Hacc));
    (destruct (bool_decide_reflect
                 (length inputTracks
                  < i + length (TrackList_Channels leader))%nat)
       as [Hgt|Hle];
     [apply assert_false_break_Ok in E as [_ <-]; exact Hacc|]);
    (destruct (length (TrackList_Channels leader)) as [|n] eqn:En;
     [discriminate|]); try discriminate.
  apply (IH _ _ _) in E; [exact E|].
  apply Forall_app. split; [exact Hacc|].
  apply Forall_singleton. apply Hnew; [exact Ei|]. lia.
Qed.

Lemma makeSources_total
    (inputTracks : list (option SampleTrack)) (bufferSize : N)
    (outRate : double) (warpOptions : WarpOptions)
    (highQuality mayThrow : bool) (pMixerSpec : option MixerSpec) (i : nat) :
  Grouped inputTracks i ->
  forall fuel acc,
    (length inputTracks <= i + fuel)%nat ->
    exists sources,
      makeSources fuel inputTracks bufferSize outRate warpOptions highQuality
        mayThrow pMixerSpec i acc = Ok sources.
Proof.
  intros Hg. induction Hg as [i Hi|i leader Hl Hn Hfit Hg IH];
    intros fuel acc Hfuel.
  - destruct fuel; cbn; rewrite bool_decide_eq_false_2 by lia; eauto.
  - assert (Hlt : (i < length inputTracks)%nat) by lia.
    destruct fuel as [|fuel]; [lia|].
    cbn. rewrite bool_decide_eq_true_2 by exact Hlt. rewrite Hl.
    rewrite bool_decide_eq_false_2 by lia.
    destruct (length (TrackList_Channels leader)) as [|n] eqn:En; [lia|].
    apply IH. lia.
Qed.

(** The constructor makes well-formed mixers. *)
Lemma Mixer_Mixer_wf (inputTracks : list (option SampleTrack))
    (mayThrow : bool) (warpOptions : WarpOptions)
    (startTime stopTime : double) (numOutChannels outBufferSize : N)
    (outInterleaved : bool) (outRate : double) (outFormat : sampleFormat)
    (highQuality : bool) (mixerSpec : option MixerSpec)
    (applyTrackGains : bool) (m : Mixer) :
  1 <= numOutChannels ->
  (forall spec, mixerSpec = Some spec -> SpecOk spec) ->
  Mixer_Mixer inputTracks mayThrow warpOptions startTime stopTime
    numOutChannels outBufferSize outInterleaved outRate outFormat
    highQuality mixerSpec applyTrackGains = Ok m ->
  WfMixer m.
Proof.
  intros Hn Hspec E. unfold Mixer_Mixer in E. bind_inv.
  injection E as <-. rename a into sources, Ea into E.
  constructor; cbn.
  - exact Hn.
  - unfold initVector2, initVector. apply length_replicate.
  - unfold initVector2, initVector. apply Forall_replicate.
    apply length_replicate.
  - unfold initVector. apply length_replicate.
  - unfold Buffers_new. apply length_replicate.
  - unfold Buffers_new. apply Forall_replicate.
    rewrite length_replicate. lia.
  - revert E. apply makeSources_Forall; [|constructor].
    intros i leader Hi Hfit. unfold source_ok. cbn.
    destruct mixerSpec as [spec|]; [|exact I].
    destruct (N.eqb_spec (GetNumChannels spec) numOutChannels) as [Hc|];
      [|exact I].
    destruct (N.eqb_spec (GetNumTracks spec) (N.of_nat (length inputTracks)))
      as [Ht|]; [|exact I].
    cbn. destruct (Hspec spec eq_refl) as [Hrows Hrow].
    rewrite mixLimit_min. unfold Source_Channels. cbn.
    split.
    + rewrite length_drop. lia.
    + apply Forall_take, Forall_drop. rewrite <- Hc. exact Hrow.
Qed.

End ConstructorFacts.

(** ** Properties of [Process] *)

Section ProcessTheorems.
Context `{Collaborators}.

(** The time that a call which ran to its end leaves: clamped between the
    time at entry and [mT1], in the direction of play. *)
Lemma Process_time_clamped (ts : TimesAndSpeed) (time : double) :
  TimeInBounds ts -> isnan time = false ->
  let time' :=
    if dlt (mT1 ts) (mT0 ts)
    then std_clamp dlt time (mT1 ts) (mTime ts)
    else std_clamp dlt time (mTime ts) (mT1 ts) in
  if dlt (mT1 ts) (mT0 ts)
  then dle (mT1 ts) time' = true /\ dle time' (mTime ts) = true /\
       dle (mTime ts) (mT0 ts) = true
  else dle (mT0 ts) (mTime ts) = true /\ dle (mTime ts) time' = true /\
       dle time' (mT1 ts) = true.
Proof.
  unfold TimeInBounds, between. intros Hin Hnan.
  apply orb_true_iff in Hin.
  destruct (dlt (mT1 ts) (mT0 ts)) eqn:Eb; cbn zeta.
  - assert (Hb : dle (mT1 ts) (mTime ts) = true /\
                 dle (mTime ts) (mT0 ts) = true).
    { destruct Hin as [Hin|Hin]; apply andb_true_iff in Hin as [H1 H2]; auto.
      pose proof (dle_trans _ _ _ H1 H2) as H01.
      apply dle_dlt_false in H01. congruence. }
    destruct Hb as [H1 H2].
    destruct (std_clamp_bounds time (mT1 ts) (mTime ts) Hnan H1). auto.
  - assert (Hb : dle (mT0 ts) (mTime ts) = true /\
                 dle (mTime ts) (mT1 ts) = true).
    { destruct Hin as [Hin|Hin]; apply andb_true_iff in Hin as [H1 H2]; auto.
      destruct (dle_not_nan _ _ H1) as [Hn1 _].
      destruct (dle_not_nan _ _ H2) as [_ Hn0].
      pose proof (dlt_false_dle _ _ Hn1 Hn0 Eb) as H01.
      split; eauto using dle_trans. }
    destruct Hb as [H1 H2].
    destruct (std_clamp_bounds time (mTime ts) (mT1 ts) Hnan H2). auto.
Qed.

(** The state in which a call that returned left the loop. *)
Lemma Process_log (m : Mixer) (maxToProcess : N) (r : N) (m' : Mixer)
    (log : list Call) :
  Process m maxToProcess = Ok (r, m', log) ->
  exists completed,
    MixTrace (Buffers_Channels (mFloatBuffers m)) 0 (mSources m) completed log /\
    r = (if completed then max_list (acquired log) else 0) /\
    (forall k, AcquireCall k None ∈ log ->
               drop (S k) (mSources m') = drop (S k) (mSources m)).
Proof.
  intros E. apply Process_Ok in E as (completed & st & E & -> & -> & _ & _).
  apply mixSources_Ok in E as (log & Hlog & Htr & Hmax & _ & Hdrop).
  cbn in Hlog, Hmax. rewrite Hlog. exists completed.
  split; [exact Htr|]. split; [|exact Hdrop].
  destruct completed; [|reflexivity]. rewrite Hmax. lia.
Qed.

(** C1.  A call [Process(maxToProcess)] with [maxToProcess] at most the
    buffer size returns, and the frame count it returns is at most
    [maxToProcess]; when every source acquired, it is the maximum of the
    frame counts that the sources returned. *)
Theorem Process_frames_bound (m : Mixer) (maxToProcess : N) :
  WfMixer m -> AcquireWithinBound -> AcquireKeepsShape ->
  maxToProcess <= BufferSize m ->
  exists r m' log,
    Process m maxToProcess = Ok (r, m', log) /\
    r <= maxToProcess /\
    ((forall i, AcquireCall i None ∉ log) -> r = max_list (acquired log)).
Proof.
  intros Hwf Hbound Hshape Hmax.
  destruct (Process_returns m maxToProcess Hwf Hbound Hshape Hmax)
    as (r & m' & log & E & _).
  exists r, m', log. split; [exact E|].
  pose proof (Process_Ok _ _ _ _ _ E) as (_ & _ & _ & _ & _ & Hle & _).
  split; [exact Hle|]. intros Hnone.
  apply Process_log in E as (completed & Htr & -> & _).
  destruct completed; [reflexivity|].
  apply trace_not_completed in Htr as [c Hc]. destruct (Hnone c Hc).
Qed.

(** What a call that ran to its end did to the times: the bounds and the
    speed are as they were, the time is the clamped time. *)
Lemma Process_completed_time (m : Mixer) (maxToProcess : N) (r : N)
    (m' : Mixer) (log : list Call) :
  AcquireTimeOrdered ->
  TimeInBounds (mTimesAndSpeed m) ->
  Process m maxToProcess = Ok (r, m', log) ->
  (forall i, AcquireCall i None ∉ log) ->
  let ts := mTimesAndSpeed m in
  let ts' := mTimesAndSpeed m' in
  mT0 ts' = mT0 ts /\ mT1 ts' = mT1 ts /\
  if dlt (mT1 ts) (mT0 ts)
  then dle (mT1 ts) (mTime ts') = true /\
       dle (mTime ts') (mTime ts) = true /\
       dle (mTime ts) (mT0 ts) = true
  else dle (mT0 ts) (mTime ts) = true /\
       dle (mTime ts) (mTime ts') = true /\
       dle (mTime ts') (mT1 ts) = true.
Proof.
  intros Hordered Hin E Hnone.
  pose proof (Process_log _ _ _ _ _ E) as (completed' & Htr & _ & _).
  apply Process_Ok in E as (completed & st & E & -> & _ & _ & Hts).
  assert (Hnan : isnan (pTime st) = false).
  { apply (mixSources_time _ _ _ Hordered _ _ _ _ _ _) in E; [exact E|].
    cbn. unfold TimeInBounds, between in Hin.
    apply orb_true_iff in Hin as [Hin|Hin];
      apply andb_true_iff in Hin as [H1 H2];
      apply dle_not_nan in H1; tauto. }
  apply mixSources_Ok in E as (log & Hlog & Htr' & _).
  cbn in Hlog. rewrite Hlog in Hnone.
  destruct completed.
  - cbn zeta. rewrite Hts. cbn [set_mTime mT0 mT1 mTime].
    split; [reflexivity|]. split; [reflexivity|].
    apply (Process_time_clamped (mTimesAndSpeed m) (pTime st) Hin Hnan).
  - apply trace_not_completed in Htr' as [c Hc]. destruct (Hnone c Hc).
Qed.

(** C3 (as amended).  On a mixer whose current time lies between the bounds
    at entry, a call to [Process] in which every source acquires leaves the
    current time between the bounds: the time is clamped in the direction of
    play and does not run past [mT1]. *)
Theorem Process_keeps_time_in_bounds (m : Mixer) (maxToProcess : N) :
  WfMixer m -> AcquireWithinBound -> AcquireKeepsShape ->
  AcquireTimeOrdered ->
  maxToProcess <= BufferSize m ->
  TimeInBounds (mTimesAndSpeed m) ->
  exists r m' log,
    Process m maxToProcess = Ok (r, m', log) /\
    ((forall i, AcquireCall i None ∉ log) ->
     TimeInBounds (mTimesAndSpeed m') /\
     (if dlt (mT1 (mTimesAndSpeed m)) (mT0 (mTimesAndSpeed m))
      then dle (mT1 (mTimesAndSpeed m)) (mTime (mTimesAndSpeed m')) = true
      else dle (mTime (mTimesAndSpeed m')) (mT1 (mTimesAndSpeed m)) = true)).
Proof.
  intros Hwf Hbound Hshape Hordered Hmax Hin.
  destruct (Process_returns m maxToProcess Hwf Hbound Hshape Hmax)
    as (r & m' & log & E & _).
  exists r, m', log. split; [exact E|]. intros Hnone.
  pose proof (Process_completed_time _ _ _ _ _ Hordered Hin E Hnone)
    as (H0 & H1 & Hclamp).
  unfold TimeInBounds, between. rewrite H0, H1.
  destruct (dlt (mT1 (mTimesAndSpeed m)) (mT0 (mTimesAndSpeed m))).
  - destruct Hclamp as (Ha & Hb & Hc). split; [|exact Ha].
    apply orb_true_iff. right. rewrite Ha. cbn.
    exact (dle_trans _ _ _ Hb Hc).
  - destruct Hclamp as (Ha & Hb & Hc). split; [|exact Hc].
    apply orb_true_iff. left. rewrite Hc, (dle_trans _ _ _ Ha Hb).
    reflexivity.
Qed.

(** C9.  A call to [Process] that runs to its end does not move the current
    time against the direction of play: playing forward ([mT0 <= mT1]) from
    a time between the bounds, the time after the call is at least the time
    at entry; playing backward ([mT0 > mT1]) it is at most the time at
    entry. *)
Theorem Process_time_monotone (m : Mixer) (maxToProcess : N) :
  WfMixer m -> AcquireWithinBound -> AcquireKeepsShape ->
  AcquireTimeOrdered ->
  maxToProcess <= BufferSize m ->
  TimeInBounds (mTimesAndSpeed m) ->
  exists r m' log,
    Process m maxToProcess = Ok (r, m', log) /\
    ((forall i, AcquireCall i None ∉ log) ->
     (dle (mT0 (mTimesAndSpeed m)) (mT1 (mTimesAndSpeed m)) = true ->
      dle (mTime (mTimesAndSpeed m)) (mTime (mTimesAndSpeed m')) = true) /\
     (dlt (mT1 (mTimesAndSpeed m)) (mT0 (mTimesAndSpeed m)) = true ->
      dle (mTime (mTimesAndSpeed m')) (mTime (mTimesAndSpeed m)) = true)).
Proof.
  intros Hwf Hbound Hshape Hordered Hmax Hin.
  destruct (Process_returns m maxToProcess Hwf Hbound Hshape Hmax)
    as (r & m' & log & E & _).
  exists r, m', log. split; [exact E|]. intros Hnone.
  pose proof (Process_completed_time _ _ _ _ _ Hordered Hin E Hnone)
    as (_ & _ & Hclamp).
  split.
  - intros Hfwd. rewrite (dle_dlt_false _ _ Hfwd) in Hclamp. tauto.
  - intros Hbwd. rewrite Hbwd in Hclamp. tauto.
Qed.

End ProcessTheorems.

(** ** Properties of the constructor and of [GetBuffer] *)

Section ConstructorTheorems.
Context `{Collaborators}.

(** C6.  A mix specification whose number of channels differs from the
    number of output channels, or whose number of tracks differs from the
    number of input tracks, is treated as absent: the mixer is constructed
    exactly as without one, no source is given a map, so that every channel
    is routed by its role, and construction succeeds for every well-formed
    list of input tracks. *)
Theorem Mixer_mismatched_spec_ignored
    (inputTracks : list (option SampleTrack))
    (mayThrow : bool) (warpOptions : WarpOptions)
    (startTime stopTime : double) (numOutChannels outBufferSize : N)
    (outInterleaved : bool) (outRate : double) (outFormat : sampleFormat)
    (highQuality : bool) (spec : MixerSpec) (applyTrackGains : bool) :
  GetNumChannels spec <> numOutChannels \/
  GetNumTracks spec <> N.of_nat (length inputTracks) ->
  let construct := Mixer_Mixer inputTracks mayThrow warpOptions startTime
    stopTime numOutChannels outBufferSize outInterleaved outRate outFormat
    highQuality in
  construct (Some spec) applyTrackGains = construct None applyTrackGains /\
  (forall m,
     construct (Some spec) applyTrackGains = Ok m ->
     forall source j,
       source ∈ mSources m -> Source_MixerSpec source j = Ok None) /\
  (Grouped inputTracks 0 ->
   exists m, construct (Some spec) applyTrackGains = Ok m).
Proof.
  intros Hmis construct.
  assert (Hsame : construct (Some spec) applyTrackGains
                  = construct None applyTrackGains).
  { unfold construct, Mixer_Mixer.
    destruct (N.eqb_spec (GetNumChannels spec) numOutChannels) as [Hc|Hc];
      [|reflexivity].
    destruct (N.eqb_spec (GetNumTracks spec) (N.of_nat (length inputTracks)))
      as [Ht|Ht]; [|reflexivity].
    tauto. }
  split; [exact Hsame|]. rewrite Hsame. split.
  - intros m E source j Hin. unfold construct, Mixer_Mixer in E. bind_inv.
    injection E as <-. cbn in Hin.
    assert (Hall : Forall (fun s => mpMap s = None) a).
    { revert Ea. apply makeSources_Forall; [|constructor]. reflexivity. }
    rewrite Forall_forall in Hall. unfold Source_MixerSpec.
    rewrite (Hall source Hin). reflexivity.
  - intros Hg. unfold construct, Mixer_Mixer.
    destruct (makeSources_total inputTracks outBufferSize outRate warpOptions
                highQuality mayThrow None 0 Hg (length inputTracks) [])
      as [sources ->]; [lia|].
    cbn. eauto.
Qed.

(** C10.  An interleaved mixer is constructed with exactly one output
    buffer, of [outBufferSize * numOutChannels] samples, and
    [GetBuffer(channel)] is an access outside [mBuffer] for every channel
    other than 0, in particular for every channel from 1 on; a planar mixer
    has a buffer of [outBufferSize] samples for each channel below
    [numOutChannels], and no other. *)
Theorem Mixer_output_buffers
    (inputTracks : list (option SampleTrack))
    (mayThrow : bool) (warpOptions : WarpOptions)
    (startTime stopTime : double) (numOutChannels outBufferSize : N)
    (outInterleaved : bool) (outRate : double) (outFormat : sampleFormat)
    (highQuality : bool) (mixerSpec : option MixerSpec)
    (applyTrackGains : bool) (m : Mixer) :
  Mixer_Mixer inputTracks mayThrow warpOptions startTime stopTime
    numOutChannels outBufferSize outInterleaved outRate outFormat
    highQuality mixerSpec applyTrackGains = Ok m ->
  if outInterleaved then
    mBuffer m =
      [SampleBuffer_Allocate (wrap64 (outBufferSize * numOutChannels))
         outFormat] /\
    (outBufferSize * numOutChannels < 2 ^ 64 ->
     wrap64 (outBufferSize * numOutChannels)
     = outBufferSize * numOutChannels) /\
    (forall channel, (1 <= channel)%Z ->
                     GetBuffer m channel = Fail OutOfBounds) /\
    (forall channel, (exists b, GetBuffer m channel = Ok b) <-> channel = 0%Z)
  else
    length (mBuffer m) = N.to_nat numOutChannels /\
    (forall channel,
       (0 <= channel < Z.of_N numOutChannels)%Z ->
       GetBuffer m channel
       = Ok (SampleBuffer_Allocate (wrap64 (outBufferSize * 1)) outFormat)) /\
    (forall channel,
       (exists b, GetBuffer m channel = Ok b) <->
       (0 <= channel < Z.of_N numOutChannels)%Z).
Proof.
  intros E. unfold Mixer_Mixer in E. bind_inv. injection E as <-.
  unfold GetBuffer, read, initVector. cbn [mBuffer].
  destruct outInterleaved.
  - change (replicate (N.to_nat 1) ?x) with [x].
    split; [reflexivity|].
    split; [intros Hlt; unfold wrap64; apply N.mod_small; exact Hlt|].
    split.
    + intros channel Hc. destruct (Z.ltb_spec channel 0); [reflexivity|].
      destruct (Z.to_nat channel) as [|n] eqn:En; [lia|]. reflexivity.
    + intros channel. destruct (Z.ltb_spec channel 0).
      * split; [intros [b Hb]; discriminate|lia].
      * destruct (Z.to_nat channel) as [|n] eqn:En; cbn.
        -- split; [lia|eauto].
        -- split; [intros [b Hb]; discriminate|lia].
  - split; [apply length_replicate|]. split.
    + intros channel Hc. destruct (Z.ltb_spec channel 0); [lia|].
      rewrite lookup_replicate_2 by lia. reflexivity.
    + intros channel. destruct (Z.ltb_spec channel 0).
      * split; [intros [b Hb]; discriminate|lia].
      * destruct (decide (Z.to_nat channel < N.to_nat numOutChannels)%nat)
          as [Hlt|Hge].
        -- rewrite lookup_replicate_2 by exact Hlt. split; [lia|eauto].
        -- rewrite (proj1 (lookup_replicate_None _ _ _)) by lia.
           split; [intros [b Hb]; discriminate|lia].
Qed.

End ConstructorTheorems.

(** ** The routing policy *)

(** C4.  [findChannelFlags] is a function of the map and the role: a row of
    the map is copied as it is, whatever the role; without a map, role Mono
    and every value that is none of the three roles flag all output
    channels, role Left flags output channel 0 only, role Right flags output
    channel 1 only when there are at least two output channels and output
    channel 0 otherwise. *)
Theorem findChannelFlags_policy (numChannels : N) :
  1 <= numChannels ->
  let n := N.to_nat numChannels in
  (forall row channel,
     (n <= length row)%nat ->
     findChannelFlags numChannels (Some row) channel = Ok (take n row)) /\
  (forall row channel,
     length row = n ->
     findChannelFlags numChannels (Some row) channel = Ok row) /\
  findChannelFlags numChannels None MonoChannel = Ok (replicate n true) /\
  findChannelFlags numChannels None OtherChannel = Ok (replicate n true) /\
  (exists flags,
     findChannelFlags numChannels None LeftChannel = Ok flags /\
     length flags = n /\
     forall c, (c < n)%nat -> flags !! c = Some (bool_decide (c = 0%nat))) /\
  (exists flags,
     findChannelFlags numChannels None RightChannel = Ok flags /\
     length flags = n /\
     forall c, (c < n)%nat ->
       flags !! c
       = Some (bool_decide (c = if 2 <=? numChannels then 1%nat else 0%nat))).
Proof.
  intros Hn n. unfold findChannelFlags. fold n.
  assert (Hflags : forall i : nat,
             (i < n)%nat ->
             exists flags,
               store (replicate n false) i true = Ok flags /\
               length flags = n /\
               forall c, (c < n)%nat ->
                         flags !! c = Some (bool_decide (c = i))).
  { intros i Hi. rewrite store_lt by (rewrite length_replicate; exact Hi).
    eexists; split; [reflexivity|].
    split; [rewrite length_insert; apply length_replicate|].
    intros c Hc. destruct (bool_decide_reflect (c = i)) as [->|Hne].
    - apply list_lookup_insert_eq. rewrite length_replicate. exact Hi.
    - rewrite list_lookup_insert_ne by congruence.
      apply lookup_replicate_2. exact Hc. }
  split; [|split; [|split; [|split; [|split]]]].
  - intros row channel Hrow. rewrite bool_decide_eq_true_2 by exact Hrow.
    reflexivity.
  - intros row channel Hrow. rewrite bool_decide_eq_true_2 by lia.
    rewrite take_ge by lia. reflexivity.
  - reflexivity.
  - reflexivity.
  - apply Hflags. lia.
  - destruct (N.leb_spec 2 numChannels); apply Hflags; lia.
Qed.

(** ** Repositioning *)

Section RepositionTheorems.
Context `{Collaborators}.

(** The operations on the times keep a mixer well formed, and repositioning
    leaves the current time between the bounds. *)
Lemma with_times_wf (m : Mixer) (ts : TimesAndSpeed)
    (f : MixerSource -> MixerSource) :
  (forall source, mpLeader (f source) = mpLeader source /\
                  mpMap (f source) = mpMap source) ->
  WfMixer m -> WfMixer (with_times m ts (map f (mSources m))).
Proof.
  intros Hf [Hn Ht Htr Hb Hfl Hfr Hs]. constructor; cbn; auto.
  apply List.Forall_map. eapply Forall_impl; [exact Hs|].
  intros source. unfold source_ok, mixLimit, Source_Channels.
  destruct (Hf source) as [-> ->]. auto.
Qed.

Lemma Reposition_wf (m : Mixer) (t : double) (bSkipping : bool) :
  WfMixer m -> WfMixer (Reposition m t bSkipping).
Proof. intros Hwf. apply with_times_wf; [|exact Hwf]. intros source. auto. Qed.

Lemma Reposition_time_in_bounds (m : Mixer) (t : double) (bSkipping : bool) :
  isnan (mT0 (mTimesAndSpeed m)) = false ->
  isnan (mT1 (mTimesAndSpeed m)) = false ->
  isnan t = false ->
  TimeInBounds (mTimesAndSpeed (Reposition m t bSkipping)).
Proof.
  intros H0 H1 Ht. unfold TimeInBounds, between, Reposition. cbn.
  destruct (dlt (mT1 (mTimesAndSpeed m)) (mT0 (mTimesAndSpeed m))) eqn:Eb.
  - destruct (std_clamp_bounds t _ _ Ht (dlt_dle _ _ Eb)) as [-> ->].
    apply orb_true_r.
  - destruct (std_clamp_bounds t _ _ Ht (dlt_false_dle _ _ H1 H0 Eb))
      as [-> ->].
    reflexivity.
Qed.


(** C7.  [SetSpeedForKeyboardScrubbing] with a finite speed returns.  When
    the speed is positive and the mixer plays backward, the bounds become 0
    and the greatest double; when the speed is negative and the mixer plays
    forward, they become the greatest double and 0; in both cases the mixer
    is then repositioned to [startTime].  Otherwise bounds, time and sources
    stay as they are.  In every case the speed stored is [|speed|]. *)
Theorem SetSpeedForKeyboardScrubbing_flips (m : Mixer)
    (speed startTime : double) :
  isfinite speed = true ->
  let ts := mTimesAndSpeed m in
  let forward := dlt double_zero speed && dlt (mT1 ts) (mT0 ts) in
  let backward := dlt speed double_zero && dlt (mT0 ts) (mT1 ts) in
  exists m',
    SetSpeedForKeyboardScrubbing m speed startTime = Ok m' /\
    mSpeed (mTimesAndSpeed m') = fabs speed /\
    (forward = true ->
     mT0 (mTimesAndSpeed m') = double_zero /\
     mT1 (mTimesAndSpeed m') = double_max /\
     m' = set_mSpeed
            (Reposition (set_bounds m double_zero double_max) startTime true)
            (fabs speed)) /\
    (backward = true ->
     mT0 (mTimesAndSpeed m') = double_max /\
     mT1 (mTimesAndSpeed m') = double_zero /\
     m' = set_mSpeed
            (Reposition (set_bounds m double_max double_zero) startTime true)
            (fabs speed)) /\
    (forward || backward = true ->
     mTime (mTimesAndSpeed m')
       = std_clamp dlt startTime double_zero double_max /\
     (dle double_zero startTime = true ->
      dle startTime double_max = true ->
      mTime (mTimesAndSpeed m') = startTime) /\
     mSources m' =
       map (Source_Reposition
              {| mT0 := mT0 (mTimesAndSpeed m');
                 mT1 := mT1 (mTimesAndSpeed m');
                 mSpeed := mSpeed ts;
                 mTime := mTime (mTimesAndSpeed m') |}
              (mTime (mTimesAndSpeed m')) true)
         (mSources m)) /\
    (forward || backward = false ->
     mT0 (mTimesAndSpeed m') = mT0 ts /\
     mT1 (mTimesAndSpeed m') = mT1 ts /\
     mTime (mTimesAndSpeed m') = mTime ts /\
     mSources m' = mSources m).
Proof.
  intros Hfin ts forward backward.
  unfold SetSpeedForKeyboardScrubbing. rewrite Hfin. cbn [assert bind].
  fold ts. fold forward. fold backward.
  eexists. split; [reflexivity|].
  assert (Hexcl : forward = true -> backward = true -> False).
  { unfold forward, backward. intros Hf Hb.
    apply andb_true_iff in Hf as [Hf _]. apply andb_true_iff in Hb as [Hb _].
    apply dlt_dle, dle_dlt_false in Hf. congruence. }
  destruct forward eqn:Ef, backward eqn:Eb; try (exfalso; auto; fail);
    cbn [orb]; (split; [reflexivity|]).
  - split; [intros _; auto|]. split; [discriminate|].
    split; [|discriminate]. intros _. split; [reflexivity|].
    split; [|reflexivity]. intros Hlo Hhi. cbn.
    apply std_clamp_inside; assumption.
  - split; [discriminate|]. split; [intros _; auto|].
    split; [|discriminate]. intros _. split; [reflexivity|].
    split; [|reflexivity]. intros Hlo Hhi. cbn.
    apply std_clamp_inside; assumption.
  - split; [discriminate|]. split; [discriminate|].
    split; [discriminate|]. intros _. auto.
Qed.

End RepositionTheorems.

(** ** Concrete runs *)

Lemma scripted_within_bound : AcquireWithinBound.
Proof.
  intros state data bound ts k. cbn. unfold script_Acquire.
  destruct (scFrames state) as [n|]; cbn; intros [= <-]. lia.
Qed.

Lemma scripted_keeps_shape : AcquireKeepsShape.
Proof.
  intros state data bound ts. cbn. rewrite List.map_map.
  apply List.map_ext. intros v. apply length_map.
Qed.

Lemma scripted_time_ordered : AcquireTimeOrdered.
Proof.
  intros state data bound ts Hts. cbn.
  destruct (scTime state) as [t|]; [|exact Hts].
  destruct (isnan t) eqn:Et; [exact Hts|exact Et].
Qed.

Lemma scripted_mixer_wf (numChannels : N) (sources : list MixerSource) :
  1 <= numChannels ->
  Forall (fun source => mpMap source = None) sources ->
  WfMixer (scripted_mixer numChannels sources).
Proof.
  intros Hn Hsources. constructor; cbn.
  - exact Hn.
  - unfold initVector2, initVector. apply length_replicate.
  - unfold initVector2, initVector. apply Forall_replicate. reflexivity.
  - unfold initVector. apply length_replicate.
  - reflexivity.
  - repeat constructor.
  - eapply Forall_impl; [exact Hsources|].
    intros source Hmap. unfold source_ok. rewrite Hmap. exact I.
Qed.

(** The scenario of the specification: a mono source of constant amplitude
    0.5 and no mix specification, two output channels, no track gains, block
    size 512.  [Process(512)] returns 512, and both accumulation buffers
    hold 512 samples equal to 0.5. *)
Example Process_half_amplitude :
  match Process half_amplitude 512 with
  | Ok (r, m', log) =>
      r = 512 /\ mTemp m' = replicate 2 (replicate 512 float_half)
  | Fail _ => False
  end.
Proof. vm_compute. split; reflexivity. Qed.

(** The bound on the frame count, for the mono and the stereo source and
    four frames. *)
Lemma Process_frames_bound_witness :
  WfMixer mono_and_stereo /\ 4 <= BufferSize mono_and_stereo /\
  exists r m' log,
    Process mono_and_stereo 4 = Ok (r, m', log) /\
    r <= 4 /\
    ((forall i, AcquireCall i None ∉ log) -> r = max_list (acquired log)).
Proof.
  assert (Hwf : WfMixer mono_and_stereo)
    by (apply scripted_mixer_wf; [lia|repeat constructor]).
  assert (Hmax : 4 <= BufferSize mono_and_stereo) by (cbn; lia).
  split; [exact Hwf|]. split; [exact Hmax|].
  exact (Process_frames_bound mono_and_stereo 4 Hwf
           scripted_within_bound scripted_keeps_shape Hmax).
Defined.

(** That call does meet an [Acquire] that returns nothing: the second
    source is exhausted, and the third is not asked. *)
Example Process_second_exhausted_log :
  match Process second_exhausted 4 with
  | Ok (r, _, log) =>
      r = 0 /\
      log = [AcquireCall 0 (Some 4); MixBuffersCall 0 0; AcquireCall 1 None]
  | Fail _ => False
  end.
Proof. vm_compute. split; reflexivity. Qed.

(** C3 as stated fails.  The time at entry, 0, lies between the bounds 0 and
    100.  The first source acquires and leaves the shared time at 150, the
    second returns nothing: [Process] returns 0 before it clamps, and the
    current time is left at 150, outside the bounds. *)
Lemma Process_abort_leaves_time_unclamped :
  WfMixer second_exhausted /\
  TimeInBounds (mTimesAndSpeed second_exhausted) /\
  match Process second_exhausted 4 with
  | Ok (r, m', log) =>
      r = 0 /\
      AcquireCall 1 None ∈ log /\
      mT0 (mTimesAndSpeed m') = double_zero /\
      mT1 (mTimesAndSpeed m') = double_of_Z 100 /\
      mTime (mTimesAndSpeed m') = double_of_Z 150 /\
      ~ TimeInBounds (mTimesAndSpeed m')
  | Fail _ => False
  end.
Proof.
  split; [apply scripted_mixer_wf; [lia|repeat constructor]|].
  split; [reflexivity|].
  vm_compute. repeat split; try reflexivity.
  - apply list_elem_of_In. cbn. auto.
  - discriminate.
Qed.

(** The time stays between the bounds, for the mono and the stereo source. *)
Lemma Process_keeps_time_in_bounds_witness :
  WfMixer mono_and_stereo /\ 4 <= BufferSize mono_and_stereo /\
  TimeInBounds (mTimesAndSpeed mono_and_stereo) /\
  exists r m' log,
    Process mono_and_stereo 4 = Ok (r, m', log) /\
    ((forall i, AcquireCall i None ∉ log) ->
     TimeInBounds (mTimesAndSpeed m') /\
     (if dlt (mT1 (mTimesAndSpeed mono_and_stereo))
           (mT0 (mTimesAndSpeed mono_and_stereo))
      then dle (mT1 (mTimesAndSpeed mono_and_stereo))
             (mTime (mTimesAndSpeed m')) = true
      else dle (mTime (mTimesAndSpeed m'))
             (mT1 (mTimesAndSpeed mono_and_stereo)) = true)).
Proof.
  assert (Hwf : WfMixer mono_and_stereo)
    by (apply scripted_mixer_wf; [lia|repeat constructor]).
  assert (Hmax : 4 <= BufferSize mono_and_stereo) by (cbn; lia).
  assert (Hin : TimeInBounds (mTimesAndSpeed mono_and_stereo))
    by reflexivity.
  split; [exact Hwf|]. split; [exact Hmax|]. split; [exact Hin|].
  exact (Process_keeps_time_in_bounds mono_and_stereo 4 Hwf
           scripted_within_bound scripted_keeps_shape scripted_time_ordered
           Hmax Hin).
Defined.

(** The time does not move backward, for the mono and the stereo source
    playing forward from 0. *)
Lemma Process_time_monotone_witness :
  WfMixer mono_and_stereo /\ 4 <= BufferSize mono_and_stereo /\
  TimeInBounds (mTimesAndSpeed mono_and_stereo) /\
  exists r m' log,
    Process mono_and_stereo 4 = Ok (r, m', log) /\
    ((forall i, AcquireCall i None ∉ log) ->
     (dle (mT0 (mTimesAndSpeed mono_and_stereo))
        (mT1 (mTimesAndSpeed mono_and_stereo)) = true ->
      dle (mTime (mTimesAndSpeed mono_and_stereo))
        (mTime (mTimesAndSpeed m')) = true) /\
     (dlt (mT1 (mTimesAndSpeed mono_and_stereo))
        (mT0 (mTimesAndSpeed mono_and_stereo)) = true ->
      dle (mTime (mTimesAndSpeed m'))
        (mTime (mTimesAndSpeed mono_and_stereo)) = true)).
Proof.
  assert (Hwf : WfMixer mono_and_stereo)
    by (apply scripted_mixer_wf; [lia|repeat constructor]).
  assert (Hmax : 4 <= BufferSize mono_and_stereo) by (cbn; lia).
  assert (Hin : TimeInBounds (mTimesAndSpeed mono_and_stereo))
    by reflexivity.
  split; [exact Hwf|]. split; [exact Hmax|]. split; [exact Hin|].
  exact (Process_time_monotone mono_and_stereo 4 Hwf
           scripted_within_bound scripted_keeps_shape scripted_time_ordered
           Hmax Hin).
Defined.

(** C5 as stated fails.  With one output channel and a stereo source,
    [min(sourceChannels, outputChannels)] is 1, but both channels of the
    source are accumulated: the left and the right sample, 1 each, add up to
    2 in the one accumulation buffer, where the mix of one channel of the
    source would leave 1. *)
Lemma Process_stereo_into_mono_mixes_both :
  WfMixer stereo_into_mono /\
  match Process stereo_into_mono 4, mSources stereo_into_mono !! 0%nat with
  | Ok (r, m', log), Some source =>
      AcquireCall 0 (Some 4) ∈ log /\
      N.min (Source_Channels source) (mNumChannels stereo_into_mono) = 1 /\
      mixedChannels 0 log = [0; 1]%nat /\
      mTemp m' = [replicate 4 (float_of_Z 2)] /\
      mixDown (boundByOutputs stereo_into_mono) stereo_into_mono 4
        (mSources stereo_into_mono) (mFloatBuffers stereo_into_mono)
        (mTime (mTimesAndSpeed stereo_into_mono))
        (Clear (mTemp stereo_into_mono))
      = [replicate 4 (float_of_Z 1)]
  | _, _ => False
  end.
Proof.
  split; [apply scripted_mixer_wf; [lia|repeat constructor]|].
  vm_compute. repeat split; try reflexivity.
  apply list_elem_of_In. cbn. auto.
Qed.

(** The routing policy for two output channels. *)
Lemma findChannelFlags_policy_witness :
  1 <= 2 /\
  (forall row channel,
     (2 <= length row)%nat ->
     findChannelFlags 2 (Some row) channel = Ok (take 2 row)) /\
  (forall row channel,
     length row = 2%nat ->
     findChannelFlags 2 (Some row) channel = Ok row) /\
  findChannelFlags 2 None MonoChannel = Ok (replicate 2 true) /\
  findChannelFlags 2 None OtherChannel = Ok (replicate 2 true) /\
  (exists flags,
     findChannelFlags 2 None LeftChannel = Ok flags /\
     length flags = 2%nat /\
     forall c, (c < 2)%nat -> flags !! c = Some (bool_decide (c = 0%nat))) /\
  (exists flags,
     findChannelFlags 2 None RightChannel = Ok flags /\
     length flags = 2%nat /\
     forall c, (c < 2)%nat -> flags !! c = Some (bool_decide (c = 1%nat))).
Proof.
  assert (Hn : 1 <= 2) by lia.
  split; [exact Hn|]. exact (findChannelFlags_policy 2 Hn).
Defined.

(** The flags for one and for two output channels. *)
Example findChannelFlags_examples :
  findChannelFlags 2 None LeftChannel = Ok [true; false] /\
  findChannelFlags 2 None RightChannel = Ok [false; true] /\
  findChannelFlags 1 None RightChannel = Ok [true] /\
  findChannelFlags 2 None MonoChannel = Ok [true; true] /\
  findChannelFlags 2 None OtherChannel = Ok [true; true] /\
  findChannelFlags 2 (Some [false; true]) LeftChannel = Ok [false; true] /\
  findChannelFlags 0 None LeftChannel = Fail OutOfBounds.
Proof. repeat split. Qed.

(** Construction from three input tracks with a mix specification for two. *)
Lemma Mixer_mismatched_spec_ignored_witness :
  (GetNumChannels spec_for_two_tracks <> 2 \/
   GetNumTracks spec_for_two_tracks <> N.of_nat (length three_tracks)) /\
  construct_three false (Some spec_for_two_tracks)
    = construct_three false None /\
  (forall m,
     construct_three false (Some spec_for_two_tracks) = Ok m ->
     forall source j,
       source ∈ mSources m -> Source_MixerSpec source j = Ok None) /\
  (Grouped three_tracks 0 ->
   exists m, construct_three false (Some spec_for_two_tracks) = Ok m).
Proof.
  assert (Hmis : GetNumChannels spec_for_two_tracks <> 2 \/
                 GetNumTracks spec_for_two_tracks
                 <> N.of_nat (length three_tracks))
    by (right; cbn; lia).
  split; [exact Hmis|].
  exact (Mixer_mismatched_spec_ignored three_tracks false no_warp
           double_zero (double_of_Z 100) 2 4 false (double_of_Z 44100)
           floatSample false spec_for_two_tracks false Hmis).
Defined.

(** The three tracks are a stereo group and a mono group, and the
    constructor makes two sources of them. *)
Example three_tracks_grouped : Grouped three_tracks 0.
Proof.
  apply (grouped_leader _ 0 stereo_track); [reflexivity|cbn; lia..|].
  apply (grouped_leader _ 2 mono_track); [reflexivity|cbn; lia..|].
  apply grouped_end. cbn. lia.
Qed.

Example construct_three_sources :
  match construct_three false (Some spec_for_two_tracks) with
  | Ok m => map mpLeader (mSources m) = [stereo_track; mono_track] /\
            map mpMap (mSources m) = [None; None]
  | Fail _ => False
  end.
Proof. vm_compute. split; reflexivity. Qed.

(** The output buffer of the interleaved mixer of the three tracks. *)
Lemma Mixer_output_buffers_witness :
  construct_three true None = Ok three_interleaved /\
  mBuffer three_interleaved = [SampleBuffer_Allocate (wrap64 (4 * 2)) floatSample] /\
  (4 * 2 < 2 ^ 64 -> wrap64 (4 * 2) = 4 * 2) /\
  (forall channel, (1 <= channel)%Z ->
                   GetBuffer three_interleaved channel = Fail OutOfBounds) /\
  (forall channel,
     (exists b, GetBuffer three_interleaved channel = Ok b) <-> channel = 0%Z).
Proof.
  assert (E : construct_three true None = Ok three_interleaved)
    by reflexivity.
  split; [exact E|].
  exact (Mixer_output_buffers three_tracks false no_warp
           double_zero (double_of_Z 100) 2 4 true (double_of_Z 44100)
           floatSample false None false three_interleaved E).
Defined.


(** Repositioning to 250, to -5 and to 42 between the bounds 0 and 100. *)
Example Reposition_examples :
  MixGetCurrentTime (Reposition mono_and_stereo (double_of_Z 250) false)
    = double_of_Z 100 /\
  MixGetCurrentTime (Reposition mono_and_stereo (double_of_Z (-5)) false)
    = double_zero /\
  MixGetCurrentTime (Reposition mono_and_stereo (double_of_Z 42) true)
    = double_of_Z 42.
Proof. repeat split. Qed.

(** The scenario of the specification: with [mT0 = 0], [mT1 = 100] and
    speed [+1], the call with speed [-1] and start time 50 returns, turns
    the bounds into the greatest double and 0, and repositions to 50. *)
Example SetSpeedForKeyboardScrubbing_flip_backward :
  match SetSpeedForKeyboardScrubbing mono_and_stereo (double_of_Z (-1))
          (double_of_Z 50) with
  | Ok m' =>
      mTimesAndSpeed m' =
        {| mT0 := double_max; mT1 := double_zero;
           mSpeed := double_of_Z 1; mTime := double_of_Z 50 |}
  | Fail _ => False
  end.
Proof. reflexivity. Qed.

(** Speed -1 on a mixer that plays forward. *)
Lemma SetSpeedForKeyboardScrubbing_flips_witness :
  isfinite (double_of_Z (-1)) = true /\
  let m := mono_and_stereo in
  let speed := double_of_Z (-1) in
  let startTime := double_of_Z 50 in
  let ts := mTimesAndSpeed m in
  let forward := dlt double_zero speed && dlt (mT1 ts) (mT0 ts) in
  let backward := dlt speed double_zero && dlt (mT0 ts) (mT1 ts) in
  exists m',
    SetSpeedForKeyboardScrubbing m speed startTime = Ok m' /\
    mSpeed (mTimesAndSpeed m') = fabs speed /\
    (forward = true ->
     mT0 (mTimesAndSpeed m') = double_zero /\
     mT1 (mTimesAndSpeed m') = double_max /\
     m' = set_mSpeed
            (Reposition (set_bounds m double_zero double_max) startTime true)
            (fabs speed)) /\
    (backward = true ->
     mT0 (mTimesAndSpeed m') = double_max /\
     mT1 (mTimesAndSpeed m') = double_zero /\
     m' = set_mSpeed
            (Reposition (set_bounds m double_max double_zero) startTime true)
            (fabs speed)) /\
    (forward || backward = true ->
     mTime (mTimesAndSpeed m')
       = std_clamp dlt startTime double_zero double_max /\
     (dle double_zero startTime = true ->
      dle startTime double_max = true ->
      mTime (mTimesAndSpeed m') = startTime) /\
     mSources m' =
       map (Source_Reposition
              {| mT0 := mT0 (mTimesAndSpeed m');
                 mT1 := mT1 (mTimesAndSpeed m');
                 mSpeed := mSpeed ts;
                 mTime := mTime (mTimesAndSpeed m') |}
              (mTime (mTimesAndSpeed m')) true)
         (mSources m)) /\
    (forward || backward = false ->
     mT0 (mTimesAndSpeed m') = mT0 ts /\
     mT1 (mTimesAndSpeed m') = mT1 ts /\
     mTime (mTimesAndSpeed m') = mTime ts /\
     mSources m' = mSources m).
Proof.
  assert (Hfin : isfinite (double_of_Z (-1)) = true) by reflexivity.
  split; [exact Hfin|].
  exact (SetSpeedForKeyboardScrubbing_flips mono_and_stereo
           (double_of_Z (-1)) (double_of_Z 50) Hfin).
Defined.

(** * Further properties *)

(** ** Times and speed *)


Lemma dlt_asym (x y : double) : dlt x y = true -> dlt y x = false.
Proof. intros E. apply dle_dlt_false, dlt_dle, E. Qed.



Section TimeExtras.
Context `{Collaborators}.

Lemma with_times_same_sources_wf (m : Mixer) (ts : TimesAndSpeed) :
  WfMixer m -> WfMixer (with_times m ts (mSources m)).
Proof. intros [Hn Ht Htr Hb Hfl Hfr Hs]. constructor; cbn; auto. Qed.


(** X2.  A second call of [SetSpeedForKeyboardScrubbing] with the same
    speed changes nothing, whatever start time it is given: the direction
    was settled by the first call, so there is no flip and no reposition. *)
Theorem SetSpeedForKeyboardScrubbing_repeat (m m1 : Mixer)
    (speed startTime startTime' : double) :
  SetSpeedForKeyboardScrubbing m speed startTime = Ok m1 ->
  SetSpeedForKeyboardScrubbing m1 speed startTime' = Ok m1.
Proof.
  unfold SetSpeedForKeyboardScrubbing. intros E.
  destruct (isfinite speed); [|discriminate]. cbn [assert bind] in *.
  injection E as <-.
  destruct (dlt double_zero speed) eqn:Epos;
    destruct (dlt speed double_zero) eqn:Eneg;
    try (apply dlt_asym in Epos; congruence);
    destruct (dlt (mT1 (mTimesAndSpeed m)) (mT0 (mTimesAndSpeed m))) eqn:Eb;
    destruct (dlt (mT0 (mTimesAndSpeed m)) (mT1 (mTimesAndSpeed m))) eqn:Ef;
    try (apply dlt_asym in Eb; congruence);
    cbn; rewrite ?Epos, ?Eneg, ?Eb, ?Ef; cbn; reflexivity.
Qed.

(** X3.  [SetSpeedForKeyboardScrubbing] keeps the current time between the
    bounds and the mixer well formed: after a flip the start time is
    clamped between 0 and the greatest double, without one the times are as
    they were. *)
Theorem SetSpeedForKeyboardScrubbing_keeps_invariants (m : Mixer)
    (speed startTime : double) :
  isfinite speed = true -> isnan startTime = false ->
  WfMixer m -> TimeInBounds (mTimesAndSpeed m) ->
  exists m',
    SetSpeedForKeyboardScrubbing m speed startTime = Ok m' /\
    WfMixer m' /\ TimeInBounds (mTimesAndSpeed m').
Proof.
  intros Hfin Hstart Hwf Hin.
  unfold SetSpeedForKeyboardScrubbing. rewrite Hfin. cbn [assert bind].
  eexists. split; [reflexivity|].
  destruct (_ || _).
  - assert (Hr : forall t0 t1,
               isnan t0 = false -> isnan t1 = false ->
               WfMixer (Reposition (set_bounds m t0 t1) startTime true) /\
               TimeInBounds
                 (mTimesAndSpeed (Reposition (set_bounds m t0 t1)
                                    startTime true))).
    { intros t0 t1 H0 H1. split.
      - apply Reposition_wf, with_times_same_sources_wf, Hwf.
      - apply Reposition_time_in_bounds; assumption. }
    destruct (dlt double_zero speed && _);
      [destruct (Hr double_zero double_max eq_refl eq_refl) as [Hw Ht]
      |destruct (Hr double_max double_zero eq_refl eq_refl) as [Hw Ht]];
      (split; [apply with_times_same_sources_wf, Hw|exact Ht]).
  - split; [apply with_times_same_sources_wf, Hwf|exact Hin].
Qed.

End TimeExtras.

(** ** [MixBuffers] *)

(** A sample of silence, with a finite gain, adds nothing to [+0]. *)
Lemma silent_sample (s gain : float) :
  is_zero s = true -> isfinite gain = true ->
  fadd float_zero (fmul s gain) = float_zero.
Proof.
  destruct s as [ss| | |]; try discriminate.
  destruct gain as [sg| | |sg mg eg]; try discriminate; intros _ _;
    destruct ss, sg; reflexivity.
Qed.

Lemma read_Ok_lookup {A} (v : list A) (i : nat) (x : A) :
  read v i = Ok x -> v !! i = Some x.
Proof. unfold read. destruct (v !! i); [intros [= ->]; reflexivity|discriminate]. Qed.

Lemma accumulate_Ok (gain : float) (src dest dest' : list float) (len : Z) :
  accumulate gain src dest len = Ok dest' ->
  length dest' = length dest /\
  (forall x, (Z.to_nat len <= x)%nat -> dest' !! x = dest !! x) /\
  (forall x d s,
     (x < Z.to_nat len)%nat -> dest !! x = Some d -> src !! x = Some s ->
     dest' !! x = Some (fadd d (fmul s gain))).
Proof.
  unfold accumulate. set (n := Z.to_nat len).
  destruct (bool_decide_reflect (n <= length src)%nat) as [Hs|]; [|discriminate].
  destruct (bool_decide_reflect (n <= length dest)%nat) as [Hd|]; [|discriminate].
  cbn. intros [= <-].
  assert (Hz : length (zip_with (fun d s => fadd d (fmul s gain))
                         (take n dest) (take n src)) = n)
    by (rewrite length_zip_with, !length_take; lia).
  split; [rewrite length_app, Hz, length_drop; lia|]. split.
  - intros x Hx. rewrite lookup_app_r by lia. rewrite Hz, lookup_drop.
    f_equal. lia.
  - intros x d s Hx Hdx Hsx. rewrite lookup_app_l by lia.
    rewrite lookup_zip_with, !lookup_take_lt by lia.
    rewrite Hdx, Hsx. reflexivity.
Qed.

Lemma MixBuffers_mixStep (numChannels : N) (flags : list bool)
    (gains src : list float) (dests : list (list float)) (len : Z) :
  MixBuffers numChannels flags gains src dests len
  = foldM (mixStep flags gains src len) dests (seq 0 (N.to_nat numChannels)).
Proof. reflexivity. Qed.

Lemma mixStep_Ok (flags : list bool) (gains src : list float) (len : Z)
    (d d1 : list (list float)) (c0 : nat) :
  mixStep flags gains src len d c0 = Ok d1 ->
  length d1 = length d /\
  (forall c, c <> c0 -> d1 !! c = d !! c) /\
  (forall dest, d !! c0 = Some dest ->
                exists dest', d1 !! c0 = Some dest' /\
                              Mixed flags gains src len c0 dest dest').
Proof.
  unfold mixStep. intros E.
  destruct (read flags c0) as [flag|] eqn:Eflag; [|discriminate].
  apply read_Ok_lookup in Eflag. cbn [bind] in E.
  destruct flag; cbn [negb] in E.
  - destruct (read d c0) as [dest0|] eqn:Edest; [|discriminate].
    destruct (read gains c0) as [gain|] eqn:Egain; [|discriminate].
    cbn [bind] in E.
    destruct (accumulate gain src dest0 len) as [dest0'|] eqn:Eacc;
      [|discriminate].
    cbn [bind] in E. injection E as <-.
    apply read_Ok_lookup in Edest, Egain.
    pose proof (lookup_lt_Some _ _ _ Edest) as Hlt.
    split; [apply length_insert|]. split.
    + intros c Hc. apply list_lookup_insert_ne. congruence.
    + intros dest Hdest. exists dest0'. split.
      * apply list_lookup_insert_eq. exact Hlt.
      * right. split; [exact Eflag|]. exists gain.
        split; [exact Egain|]. congruence.
  - injection E as <-. split; [reflexivity|]. split; [reflexivity|].
    intros dest Hdest. exists dest. split; [exact Hdest|]. left. auto.
Qed.

Lemma mixSteps_Ok (flags : list bool) (gains src : list float) (len : Z)
    (cs : list nat) :
  NoDup cs ->
  forall d d',
    foldM (mixStep flags gains src len) d cs = Ok d' ->
    length d' = length d /\
    (forall c, c ∉ cs -> d' !! c = d !! c) /\
    (forall c dest, c ∈ cs -> d !! c = Some dest ->
                    exists dest', d' !! c = Some dest' /\
                                  Mixed flags gains src len c dest dest').
Proof.
  induction 1 as [|c0 cs Hc0 Hnd IH]; intros d d' E; cbn in E.
  - injection E as <-. split; [reflexivity|]. split; [reflexivity|].
    intros c dest Hc. inversion Hc.
  - bind_inv. apply mixStep_Ok in Ea as (Hlen1 & Hother1 & Hat1).
    apply IH in E as (Hlen & Hother & Hin).
    split; [congruence|]. split.
    + intros c Hc. apply not_elem_of_cons in Hc as [Hne Hc].
      rewrite (Hother c Hc). apply Hother1. exact Hne.
    + intros c dest Hc Hdest. apply elem_of_cons in Hc as [->|Hc].
      * destruct (Hat1 dest Hdest) as (dest' & Hd1 & Hmixed).
        exists dest'. split; [|exact Hmixed]. rewrite (Hother c0 Hc0). exact Hd1.
      * apply Hin; [exact Hc|]. rewrite Hother1; [exact Hdest|].
        intros ->. contradiction.
Qed.

(** Every buffer that [MixBuffers] leaves is a buffer it found, kept or
    mixed. *)
Lemma MixBuffers_Ok (numChannels : N) (flags : list bool)
    (gains src : list float) (dests dests' : list (list float)) (len : Z) :
  MixBuffers numChannels flags gains src dests len = Ok dests' ->
  length dests' = length dests /\
  forall c dest,
    dests !! c = Some dest ->
    exists dest',
      dests' !! c = Some dest' /\
      (dest' = dest \/ Mixed flags gains src len c dest dest').
Proof.
  rewrite MixBuffers_mixStep. intros E.
  apply mixSteps_Ok in E as (Hlen & Hother & Hin); [|apply NoDup_seq].
  split; [exact Hlen|]. intros c dest Hdest.
  destruct (decide (c ∈ seq 0 (N.to_nat numChannels))) as [Hc|Hc].
  - destruct (Hin c dest Hc Hdest) as (dest' & Hd & Hm). eauto.
  - exists dest. rewrite (Hother c Hc). auto.
Qed.

(** X4.  [MixBuffers] on buffers of the right extents returns, and keeps the
    output channels apart: the buffer of a channel that is not flagged is
    left as it is; in the buffer of a flagged channel the first [len]
    samples become [dest + src * gain] with the gain of that channel, and
    the samples from [len] on are left as they are. *)
Theorem MixBuffers_keeps_channels_apart (numChannels : N)
    (flags : list bool) (gains src : list float)
    (dests : list (list float)) (len : Z) (size : nat) :
  length flags = N.to_nat numChannels ->
  length gains = N.to_nat numChannels ->
  length dests = N.to_nat numChannels ->
  Forall (fun v : list float => length v = size) dests ->
  (Z.to_nat len <= size)%nat -> (Z.to_nat len <= length src)%nat ->
  exists dests',
    MixBuffers numChannels flags gains src dests len = Ok dests' /\
    length dests' = length dests /\
    forall c dest,
      dests !! c = Some dest ->
      exists dest',
        dests' !! c = Some dest' /\
        length dest' = length dest /\
        (flags !! c = Some false -> dest' = dest) /\
        (forall x, (Z.to_nat len <= x)%nat -> dest' !! x = dest !! x) /\
        (flags !! c = Some true ->
         forall gain x d s,
           gains !! c = Some gain -> (x < Z.to_nat len)%nat ->
           dest !! x = Some d -> src !! x = Some s ->
           dest' !! x = Some (fadd d (fmul s gain))).
Proof.
  intros Hf Hg Hd Hrows Hlen Hsrc.
  destruct (MixBuffers_total numChannels flags gains src dests len size
              Hf Hg Hd Hrows Hlen Hsrc) as (dests' & E & _ & _).
  exists dests'. split; [exact E|].
  rewrite MixBuffers_mixStep in E.
  apply mixSteps_Ok in E as (Hlen' & Hother & Hin); [|apply NoDup_seq].
  split; [exact Hlen'|]. intros c dest Hdest.
  assert (Hc : c ∈ seq 0 (N.to_nat numChannels)).
  { apply elem_of_seq. apply lookup_lt_Some in Hdest. lia. }
  destruct (Hin c dest Hc Hdest) as (dest' & Hd' & [[Hflag ->]|Hmixed]).
  - exists dest. split; [exact Hd'|]. split; [reflexivity|].
    split; [reflexivity|]. split; [reflexivity|]. congruence.
  - destruct Hmixed as (Hflag & gain & Hgain & Hacc).
    apply accumulate_Ok in Hacc as (Hl & Htail & Hhead).
    exists dest'. split; [exact Hd'|]. split; [exact Hl|].
    split; [congruence|]. split; [exact Htail|].
    intros _ gain' x d s Hgain' Hx Hdx Hsx.
    assert (gain' = gain) as -> by congruence. eauto.
Qed.

Lemma accumulate_silent (gain : float) (src dest dest' : list float)
    (len : Z) :
  accumulate gain src dest len = Ok dest' ->
  Forall (fun x => x = float_zero) dest ->
  Forall (fun x => is_zero x = true) src ->
  isfinite gain = true ->
  Forall (fun x => x = float_zero) dest'.
Proof.
  intros E Hd Hs Hg.
  assert (Hlen : (Z.to_nat len <= length src)%nat /\
                 (Z.to_nat len <= length dest)%nat).
  { unfold accumulate in E.
    destruct (bool_decide_reflect (Z.to_nat len <= length src)%nat);
      [|discriminate].
    destruct (bool_decide_reflect (Z.to_nat len <= length dest)%nat);
      [|discriminate].
    auto. }
  apply accumulate_Ok in E as (_ & Htail & Hhead).
  apply Forall_lookup_2. intros x y Hy.
  destruct (decide (x < Z.to_nat len)%nat) as [Hx|Hx].
  - destruct (lookup_lt_is_Some_2 dest x) as [d Hdx]; [lia|].
    destruct (lookup_lt_is_Some_2 src x) as [s Hsx]; [lia|].
    rewrite (Hhead x d s Hx Hdx Hsx) in Hy. injection Hy as <-.
    rewrite (Forall_lookup_1 _ _ _ _ Hd Hdx).
    apply silent_sample; [|exact Hg].
    exact (Forall_lookup_1 _ _ _ _ Hs Hsx).
  - rewrite Htail in Hy by lia. exact (Forall_lookup_1 _ _ _ _ Hd Hy).
Qed.

Lemma MixBuffers_silent (numChannels : N) (flags : list bool)
    (gains src : list float) (dests dests' : list (list float)) (len : Z) :
  MixBuffers numChannels flags gains src dests len = Ok dests' ->
  Forall (Forall (fun x => x = float_zero)) dests ->
  Forall (fun x => is_zero x = true) src ->
  Forall (fun gain => isfinite gain = true) gains ->
  Forall (Forall (fun x => x = float_zero)) dests'.
Proof.
  intros E Hd Hs Hg. apply MixBuffers_Ok in E as [Hl Hall].
  apply Forall_lookup_2. intros c buffer Hc.
  destruct (lookup_lt_is_Some_2 dests c) as [dest Hdest].
  { rewrite <- Hl. eapply lookup_lt_Some, Hc. }
  pose proof (Forall_lookup_1 _ _ _ _ Hd Hdest) as Hzero.
  destruct (Hall c dest Hdest) as (dest' & Hd' & Hrel).
  assert (dest' = buffer) as -> by congruence.
  destruct Hrel as [->|[[_ ->]|(_ & gain & Hgain & Hacc)]]; auto.
  apply (accumulate_silent _ _ _ _ _ Hacc Hzero Hs).
  exact (Forall_lookup_1 _ _ _ _ Hg Hgain).
Qed.

(** X18.  With nothing to mix ([len <= 0], as for a source that acquired
    zero frames) [MixBuffers] returns the buffers as they are. *)
Theorem MixBuffers_nothing_to_mix (numChannels : N) (flags : list bool)
    (gains src : list float) (dests : list (list float)) (len : Z) :
  length flags = N.to_nat numChannels ->
  length gains = N.to_nat numChannels ->
  length dests = N.to_nat numChannels ->
  (len <= 0)%Z ->
  MixBuffers numChannels flags gains src dests len = Ok dests.
Proof.
  intros Hf Hg Hd Hlen. rewrite MixBuffers_mixStep.
  assert (Hstep : forall c, (c < N.to_nat numChannels)%nat ->
                            mixStep flags gains src len dests c = Ok dests).
  { intros c Hc. unfold mixStep.
    destruct (read_lt flags c) as (flag & -> & _); [lia|]. cbn [bind].
    destruct flag; cbn [negb]; [|reflexivity].
    destruct (read_lt dests c) as (dest & -> & Hdest); [lia|]. cbn [bind].
    destruct (read_lt gains c) as (gain & -> & _); [lia|]. cbn [bind].
    unfold accumulate. replace (Z.to_nat len) with 0%nat by lia.
    rewrite !bool_decide_eq_true_2 by lia.
    cbn [andb take zip_with drop app bind].
    rewrite list_insert_id by exact Hdest. reflexivity. }
  pose proof (Forall_seq_lt (N.to_nat numChannels)) as Hcs.
  induction Hcs as [|c cs Hc Hcs IH]; cbn; [reflexivity|].
  rewrite (Hstep c Hc). cbn. exact IH.
Qed.

Lemma MixBuffers_unflagged (numChannels : N) (flags : list bool)
    (gains src : list float) (dests dests' : list (list float)) (len : Z)
    (c : nat) :
  MixBuffers numChannels flags gains src dests len = Ok dests' ->
  flags !! c = Some false -> dests' !! c = dests !! c.
Proof.
  intros E Hflag. apply MixBuffers_Ok in E as [Hl Hall].
  destruct (dests !! c) as [dest|] eqn:Hdest.
  - destruct (Hall c dest Hdest) as (dest' & Hd' & [->|[[_ ->]|(Ht & _)]]);
      try exact Hd'. congruence.
  - apply lookup_ge_None in Hdest. apply lookup_ge_None. lia.
Qed.

(** ** More about [Process] *)

Lemma foldM_preserves {A B} (f : A -> B -> outcome A) (I : A -> Prop) :
  (forall a b a', I a -> f a b = Ok a' -> I a') ->
  forall l a a', I a -> foldM f a l = Ok a' -> I a'.
Proof.
  intros Hf. induction l as [|b l IH]; intros a a' Ha E; cbn in E.
  - injection E as <-. exact Ha.
  - bind_inv. eauto.
Qed.

Lemma map_insert_same {A B} (f : A -> B) (l : list A) (i : nat) (x y : A) :
  l !! i = Some y -> f x = f y -> map f (<[i := x]> l) = map f l.
Proof.
  intros Hy Hf. change (f <$> <[i := x]> l = f <$> l).
  rewrite list_fmap_insert, Hf. apply list_insert_id.
  rewrite list_lookup_fmap, Hy. reflexivity.
Qed.

Lemma Clear_shape (temp temp' : list (list float)) :
  map length temp' = map length temp -> Clear temp' = Clear temp.
Proof.
  intros E. unfold Clear.
  rewrite <- (List.map_map length (fun n => replicate n float_zero) temp').
  rewrite <- (List.map_map length (fun n => replicate n float_zero) temp).
  rewrite E. reflexivity.
Qed.

Lemma Clear_zero (temp : list (list float)) :
  Forall (Forall (fun x => x = float_zero)) (Clear temp).
Proof.
  unfold Clear. apply List.Forall_map. apply Forall_forall.
  intros buffer _. apply Forall_replicate. reflexivity.
Qed.

Section ProcessExtras.
Context `{Collaborators}.

(** *** More about a call that returned *)

Lemma copyChannels_Ok (m : Mixer) (temp : list (list float)) (maxOut : N)
    (l : list nat) :
  forall buffers buffers',
    foldM (copyChannel m temp maxOut) buffers l = Ok buffers' ->
    map sbSize buffers' = map sbSize buffers /\
    map sbFormat buffers' = map sbFormat buffers.
Proof.
  apply (foldM_Ok_inv _
           (fun b b' => map sbSize b' = map sbSize b /\
                        map sbFormat b' = map sbFormat b)).
  - auto.
  - intros a b c [H1 H2] [H3 H4]. split; congruence.
  - intros b c b' E. unfold copyChannel in E. bind_inv.
    injection E as <-. apply read_Ok_lookup in Ea0.
    split; eapply map_insert_same; eauto.
Qed.

Lemma Process_Ok_full (m : Mixer) (maxToProcess : N) (r : N) (m' : Mixer)
    (log : list Call) :
  Process m maxToProcess = Ok (r, m', log) ->
  exists completed st,
    mixSources m maxToProcess (Buffers_Channels (mFloatBuffers m)) 0
      (mSources m)
      {| pBuffers := mFloatBuffers m; pTime := mTime (mTimesAndSpeed m);
         pGains :=
           replicate (N.to_nat (mNumChannels m))
             (if negb (mApplyTrackGains m) then float_one else float_zero);
         pTemp := Clear (mTemp m); pMaxOut := 0; pLog := [] |}
      = Ok (completed, mSources m', st) /\
    log = pLog st /\
    mTemp m' = pTemp st /\
    mFloatBuffers m' = pBuffers st /\
    (if completed
     then foldM (copyChannel m (pTemp st) (pMaxOut st)) (mBuffer m)
            (seq 0 (N.to_nat (mNumChannels m))) = Ok (mBuffer m')
     else mBuffer m' = mBuffer m) /\
    mNumChannels m' = mNumChannels m /\
    mBufferSize m' = mBufferSize m /\
    mApplyTrackGains m' = mApplyTrackGains m /\
    mHighQuality m' = mHighQuality m /\
    mFormat m' = mFormat m /\
    mInterleaved m' = mInterleaved m /\
    mT0 (mTimesAndSpeed m') = mT0 (mTimesAndSpeed m) /\
    mT1 (mTimesAndSpeed m') = mT1 (mTimesAndSpeed m) /\
    mSpeed (mTimesAndSpeed m') = mSpeed (mTimesAndSpeed m).
Proof.
  unfold Process. intros E. bind_inv.
  destruct a0 as [[completed sources] st]. exists completed, st.
  destruct completed; cbn [negb] in E.
  - bind_inv. injection E as <- <- <-. cbn. repeat split; auto.
  - injection E as <- <- <-. cbn. repeat split; auto.
Qed.

Lemma mixSources_same_tracks (m : Mixer) (maxToProcess maxChannels : N) :
  forall sources i st completed sources' st',
    mixSources m maxToProcess maxChannels i sources st
      = Ok (completed, sources', st') ->
    map mpLeader sources' = map mpLeader sources /\
    map mpMap sources' = map mpMap sources.
Proof.
  induction sources as [|source rest IH];
    intros i st completed sources' st' E; cbn in E.
  - injection E as <- <- <-. auto.
  - pose proof (Source_Acquire_same source (pBuffers st) maxToProcess
                  (set_mTime (mTimesAndSpeed m) (pTime st))) as [Hl Hm].
    destruct (Source_Acquire _ _ _ _) as [[[oResult source1] data] time].
    cbn in Hl, Hm. destruct oResult as [result|].
    + bind_inv. destruct a0 as [[completed1 rest1] st3].
      injection E as <- <- <-. apply IH in Ea0 as [H1 H2].
      cbn. split; congruence.
    + injection E as <- <- <-. cbn. split; congruence.
Qed.


(** X6.  When the [Acquire] of a source returns nothing, [Process] leaves
    the output buffers as it found them: [GetBuffer] after a call that
    returned 0 for this reason shows what the call before left there. *)
Theorem Process_abort_keeps_output (m : Mixer) (maxToProcess : N) :
  WfMixer m -> AcquireWithinBound -> AcquireKeepsShape ->
  maxToProcess <= BufferSize m ->
  exists r m' log,
    Process m maxToProcess = Ok (r, m', log) /\
    forall i,
      AcquireCall i None ∈ log ->
      mBuffer m' = mBuffer m /\
      forall channel, GetBuffer m' channel = GetBuffer m channel.
Proof.
  intros Hwf Hbound Hshape Hmax.
  destruct (Process_returns m maxToProcess Hwf Hbound Hshape Hmax)
    as (r & m' & log & E & _).
  exists r, m', log. split; [exact E|]. intros i Hi.
  apply Process_Ok_full in E as (completed & st & E & -> & _ & _ & Hbuf & _).
  apply mixSources_Ok in E as (log & Hlog & Htr & _).
  cbn in Hlog. rewrite Hlog in Hi.
  destruct (trace_none_last _ _ _ _ _ _ Htr Hi) as [-> _].
  split; [exact Hbuf|]. intros channel. unfold GetBuffer. rewrite Hbuf.
  reflexivity.
Qed.

(** *** The order of the calls *)

Lemma acquireOrder_app (l1 l2 : list Call) :
  acquireOrder (l1 ++ l2) = acquireOrder l1 ++ acquireOrder l2.
Proof.
  induction l1 as [|[i r|i j] l1 IH]; cbn; auto. rewrite IH. reflexivity.
Qed.

Lemma acquireOrder_mix (i : nat) (l : list nat) :
  acquireOrder (map (MixBuffersCall i) l) = [].
Proof. induction l; cbn; auto. Qed.

Lemma trace_order (maxChannels : N) (i : nat) (sources : list MixerSource)
    (completed : bool) (log : list Call) :
  MixTrace maxChannels i sources completed log ->
  exists k,
    acquireOrder log = seq i k /\ (k <= length sources)%nat /\
    (completed = true -> k = length sources) /\
    (completed = false -> (1 <= k)%nat /\
                          AcquireCall (i + k - 1) None ∈ log).
Proof.
  intros Ht. induction Ht as [i|i source rest|i source rest k b log Ht IH].
  - exists 0%nat. cbn. repeat split; auto; discriminate.
  - exists 1%nat. cbn. repeat split; try lia; try discriminate.
    replace (i + 1 - 1)%nat with i by lia.
    apply list_elem_of_singleton. reflexivity.
  - destruct IH as (n & Hord & Hle & Hc & Hnc).
    exists (S n). cbn [acquireOrder length seq].
    rewrite acquireOrder_app, acquireOrder_mix, Hord. cbn [app].
    split; [reflexivity|]. split; [lia|]. split; [intros Hb; f_equal; auto|].
    intros Hb. destruct (Hnc Hb) as [Hn Hin]. split; [lia|].
    apply elem_of_cons. right. apply elem_of_app. right.
    replace (i + S n - 1)%nat with (S i + n - 1)%nat by lia. exact Hin.
Qed.

(** X7.  [Process] asks the sources to acquire in the order of [mSources],
    from the first on, each at most once; it asks all of them unless one
    returns nothing, and then that one is the last it asks. *)
Theorem Process_acquires_in_order (m : Mixer) (maxToProcess : N) :
  WfMixer m -> AcquireWithinBound -> AcquireKeepsShape ->
  maxToProcess <= BufferSize m ->
  exists r m' log k,
    Process m maxToProcess = Ok (r, m', log) /\
    acquireOrder log = seq 0 k /\
    (k <= length (mSources m))%nat /\
    ((forall i, AcquireCall i None ∉ log) -> k = length (mSources m)) /\
    (forall i, AcquireCall i None ∈ log -> k = S i).
Proof.
  intros Hwf Hbound Hshape Hmax.
  destruct (Process_returns m maxToProcess Hwf Hbound Hshape Hmax)
    as (r & m' & log & E & _).
  apply Process_log in E as Hlog. destruct Hlog as (completed & Htr & _ & _).
  destruct (trace_order _ _ _ _ _ Htr) as (k & Hord & Hle & Hc & Hnc).
  exists r, m', log, k. split; [exact E|]. split; [exact Hord|].
  split; [exact Hle|]. split.
  - intros Hnone. destruct completed; [auto|].
    destruct (Hnc eq_refl) as [_ Hin]. destruct (Hnone _ Hin).
  - intros i Hi. destruct (trace_none_last _ _ _ _ _ _ Htr Hi) as [-> Hlast].
    destruct (Hnc eq_refl) as [Hk Hin]. cbn in Hin.
    destruct (Nat.lt_trichotomy i (k - 1)) as [Hlt|[Heq|Hgt]]; [|lia|].
    + destruct (Hlast _ _ Hlt Hin).
    + destruct (trace_none_last _ _ _ _ _ _ Htr Hin) as [_ Hlast'].
      destruct (Hlast' _ _ Hgt Hi).
Qed.

(** *** The samples in the accumulation buffers *)

Lemma mixChannel_Ok_mix (m : Mixer) (i : nat) (source : MixerSource)
    (result : N) (st st' : Pass) (j : nat) :
  mixChannel m i source result st j = Ok st' ->
  exists pFloat track flags,
    pBuffers st !! j = Some pFloat /\
    TrackList_Channels (mpLeader source) !! j = Some track /\
    pGains st' =
      (if mApplyTrackGains m
       then map (fun c => Track_GetChannelGain track (N.of_nat c))
              (seq 0 (N.to_nat (mNumChannels m)))
       else pGains st) /\
    MixBuffers (mNumChannels m) flags (pGains st') pFloat (pTemp st)
      (to_int result) = Ok (pTemp st').
Proof.
  unfold mixChannel, Buffers_GetReadPosition, Source_GetChannel.
  intros E.
  destruct (read (pBuffers st) j) as [pFloat|] eqn:Ep; [|discriminate].
  destruct (read _ j) as [track|] eqn:Et in E; [|discriminate].
  cbn [bind] in E. bind_inv. injection E as <-. cbn.
  apply read_Ok_lookup in Ep, Et. eauto 10.
Qed.

Lemma TailZero_mono (k k' : nat) (temp : list (list float)) :
  (k <= k')%nat -> TailZero k temp -> TailZero k' temp.
Proof. intros Hk Ht c buffer x Hc Hx. apply (Ht c buffer x Hc). lia. Qed.

Lemma MixBuffers_tail (numChannels : N) (flags : list bool)
    (gains src : list float) (dests dests' : list (list float)) (len : Z)
    (k : nat) :
  MixBuffers numChannels flags gains src dests len = Ok dests' ->
  (Z.to_nat len <= k)%nat -> TailZero k dests -> TailZero k dests'.
Proof.
  intros E Hlen Ht c buffer x Hc Hx.
  apply MixBuffers_Ok in E as [Hl Hall].
  destruct (lookup_lt_is_Some_2 dests c) as [dest Hdest].
  { rewrite <- Hl. eapply lookup_lt_Some, Hc. }
  destruct (Hall c dest Hdest) as (dest' & Hd' & Hrel).
  assert (dest' = buffer) as -> by congruence.
  destruct Hrel as [->|[[_ ->]|(_ & gain & _ & Hacc)]];
    try (apply (Ht c dest x Hdest Hx)).
  apply accumulate_Ok in Hacc as (Hlb & Htail & _).
  rewrite Htail by lia. apply (Ht c dest x Hdest). lia.
Qed.

Lemma to_int_to_nat (k : N) : (Z.to_nat (to_int k) <= N.to_nat k)%nat.
Proof. pose proof (to_int_le k). lia. Qed.

Lemma mixSources_tail (m : Mixer) (maxToProcess maxChannels : N) :
  forall sources i st completed sources' st',
    mixSources m maxToProcess maxChannels i sources st
      = Ok (completed, sources', st') ->
    TailZero (N.to_nat (pMaxOut st)) (pTemp st) ->
    TailZero (N.to_nat (pMaxOut st')) (pTemp st').
Proof.
  induction sources as [|source rest IH];
    intros i st completed sources' st' E Ht; cbn in E.
  - injection E as <- <- <-. exact Ht.
  - destruct (Source_Acquire _ _ _ _) as [[[oResult source1] data] time].
    destruct oResult as [result|].
    + bind_inv. destruct a0 as [[completed1 rest1] st3].
      injection E as <- <- <-.
      apply (IH _ _ _ _ _ Ea0). revert Ea.
      apply (foldM_preserves _
               (fun s => result <= pMaxOut s /\
                         TailZero (N.to_nat (pMaxOut s)) (pTemp s))).
      * intros s j s' [Hr Hs] Es.
        pose proof (mixChannel_Ok _ _ _ _ _ _ _ Es) as (_ & _ & Hm & _).
        apply mixChannel_Ok_mix in Es as (pFloat & track & flags & _ & _ & _ & Emix).
        rewrite Hm. split; [exact Hr|].
        apply (MixBuffers_tail _ _ _ _ _ _ _ _ Emix); [|exact Hs].
        pose proof (to_int_to_nat result). lia.
      * cbn. rewrite std_max_N. split; [lia|].
        apply (TailZero_mono (N.to_nat (pMaxOut st))); [lia|exact Ht].
    + injection E as <- <- <-. exact Ht.
Qed.

(** X8.  After [Process], the accumulation buffers hold [+0] from the
    greatest frame count that a source returned on -- for a call in which
    every source acquired, from the frame count that [Process] returns on:
    what lies behind the frames produced is silence, not the rest of the
    block before. *)
Theorem Process_tail_is_silent (m : Mixer) (maxToProcess : N) :
  WfMixer m -> AcquireWithinBound -> AcquireKeepsShape ->
  maxToProcess <= BufferSize m ->
  exists r m' log,
    Process m maxToProcess = Ok (r, m', log) /\
    TailZero (N.to_nat (max_list (acquired log))) (mTemp m') /\
    ((forall i, AcquireCall i None ∉ log) ->
     TailZero (N.to_nat r) (mTemp m')).
Proof.
  intros Hwf Hbound Hshape Hmax.
  destruct (Process_returns m maxToProcess Hwf Hbound Hshape Hmax)
    as (r & m' & log & E & _).
  exists r, m', log. split; [exact E|].
  pose proof (Process_log _ _ _ _ _ E) as (completed & Htr & Hr & _).
  apply Process_Ok_full in E as (completed' & st & E & Hlog & Htemp & _).
  assert (Htail : TailZero (N.to_nat (max_list (acquired log))) (mTemp m')).
  { pose proof (mixSources_tail _ _ _ _ _ _ _ _ _ E) as Ht.
    apply mixSources_Ok in E as (log' & Hlog' & _ & Hm & _).
    cbn in Hlog', Hm, Ht. rewrite Htemp, Hlog, Hlog'.
    rewrite Hm, N.max_0_l in Ht. apply Ht.
    intros c buffer x Hc Hx.
    pose proof (Forall_lookup_1 _ _ _ _ (Clear_zero (mTemp m)) Hc) as Hz.
    destruct (lookup_lt_is_Some_2 buffer x) as [y Hy]; [lia|].
    rewrite Hy. f_equal. exact (Forall_lookup_1 _ _ _ _ Hz Hy). }
  split; [exact Htail|]. intros Hnone.
  destruct completed; [rewrite Hr; exact Htail|].
  apply trace_not_completed in Htr as [c Hc]. destruct (Hnone c Hc).
Qed.

Lemma mixSources_silent (m : Mixer) (maxToProcess maxChannels : N) :
  AcquireSilent ->
  forall sources i st completed sources' st',
    mixSources m maxToProcess maxChannels i sources st
      = Ok (completed, sources', st') ->
    Forall (fun source =>
              Forall (fun channel : Channel =>
                        forall c,
                          isfinite (Track_GetChannelGain channel c) = true)
                (TrackList_Channels (mpLeader source))) sources ->
    Forall (fun gain => isfinite gain = true) (pGains st) ->
    Forall (Forall (fun x => x = float_zero)) (pTemp st) ->
    Forall (Forall (fun x => x = float_zero)) (pTemp st').
Proof.
  intros Hsilent.
  induction sources as [|source rest IH];
    intros i st completed sources' st' E Hfin Hg Ht; cbn in E.
  - injection E as <- <- <-. exact Ht.
  - apply Forall_cons in Hfin as [Hsrc Hrest].
    pose proof (Hsilent (mSourceState source) (pBuffers st) maxToProcess
                  (set_mTime (mTimesAndSpeed m) (pTime st))) as Hdata.
    unfold Source_Acquire in E.
    destruct (MixerSource_Acquire _ _ _ _) as [[[oResult state] data] time].
    cbn in Hdata. destruct oResult as [result|].
    + bind_inv. destruct a0 as [[completed1 rest1] st3].
      injection E as <- <- <-.
      assert (Hinv : Forall (fun gain => isfinite gain = true) (pGains a) /\
                     Forall (Forall (fun x => x = float_zero)) (pTemp a) /\
                     pBuffers a = data).
      { revert Ea.
        apply (foldM_preserves _
                 (fun s => Forall (fun gain => isfinite gain = true)
                             (pGains s) /\
                           Forall (Forall (fun x => x = float_zero))
                             (pTemp s) /\
                           pBuffers s = data)); [|cbn; auto].
        intros s j s' (Hgs & Hts & Hbs) Es.
        pose proof (mixChannel_Ok _ _ _ _ _ _ _ Es) as (Hb & _).
        apply mixChannel_Ok_mix in Es
          as (pFloat & track & flags & Hp & Htrack & Hgains & Emix).
        cbn in Htrack.
        assert (Hgs' : Forall (fun gain => isfinite gain = true) (pGains s')).
        { rewrite Hgains. destruct (mApplyTrackGains m); [|exact Hgs].
          apply List.Forall_map. apply Forall_forall. intros c _.
          exact (Forall_lookup_1 _ _ _ _ Hsrc Htrack (N.of_nat c)). }
        split; [exact Hgs'|]. split; [|congruence].
        apply (MixBuffers_silent _ _ _ _ _ _ _ Emix Hts); [|exact Hgs'].
        rewrite Hbs in Hp. exact (Forall_lookup_1 _ _ _ _ Hdata Hp). }
      destruct Hinv as (Hga & Hta & _).
      exact (IH _ _ _ _ _ Ea0 Hrest Hga Hta).
    + injection E as <- <- <-. exact Ht.
Qed.

(** X9.  Silence in, silence out: when every source hands over samples
    that are zero and the gains of the channels are finite, every sample in
    the accumulation buffers after [Process] is [+0]. *)
Theorem Process_of_silence (m : Mixer) (maxToProcess : N) :
  WfMixer m -> AcquireWithinBound -> AcquireKeepsShape ->
  maxToProcess <= BufferSize m ->
  AcquireSilent -> GainsFinite m ->
  exists r m' log,
    Process m maxToProcess = Ok (r, m', log) /\
    Forall (Forall (fun x => x = float_zero)) (mTemp m').
Proof.
  intros Hwf Hbound Hshape Hmax Hsilent Hfin.
  destruct (Process_returns m maxToProcess Hwf Hbound Hshape Hmax)
    as (r & m' & log & E & _).
  exists r, m', log. split; [exact E|].
  apply Process_Ok_full in E as (completed & st & E & _ & -> & _).
  apply (mixSources_silent _ _ _ Hsilent _ _ _ _ _ _ E Hfin).
  - cbn. apply Forall_replicate. destruct (mApplyTrackGains m); reflexivity.
  - apply Clear_zero.
Qed.

Lemma mixChannel_set_mTemp (m : Mixer) (temp : list (list float)) (i : nat)
    (source : MixerSource) (result : N) (st : Pass) (j : nat) :
  mixChannel (set_mTemp m temp) i source result st j
  = mixChannel m i source result st j.
Proof. reflexivity. Qed.

Lemma foldM_ext {A B} (f g : A -> B -> outcome A) (l : list B) :
  (forall a b, f a b = g a b) -> forall a, foldM f a l = foldM g a l.
Proof.
  intros Hfg. induction l as [|b l IH]; intros a; cbn; [reflexivity|].
  rewrite Hfg. destruct (g a b); cbn; auto.
Qed.

Lemma mixSources_set_mTemp (m : Mixer) (temp : list (list float))
    (maxToProcess maxChannels : N) :
  forall sources i st,
    mixSources (set_mTemp m temp) maxToProcess maxChannels i sources st
    = mixSources m maxToProcess maxChannels i sources st.
Proof.
  induction sources as [|source rest IH]; intros i st; cbn; [reflexivity|].
  destruct (Source_Acquire _ _ _ _) as [[[oResult source1] data] time].
  destruct oResult as [result|]; [|reflexivity].
  rewrite (foldM_ext _ (mixChannel m i source1 result))
    by (intros; apply mixChannel_set_mTemp).
  destruct (foldM _ _ _) as [st2|]; cbn; [|reflexivity].
  rewrite IH. reflexivity.
Qed.

(** X10.  What the accumulation buffers held before the call does not
    matter: [Process] clears them first, so that two mixers that differ in
    the samples of [mTemp] only give the same result, the same mixer and
    the same calls. *)
Theorem Process_ignores_stale_samples (m : Mixer) (temp : list (list float))
    (maxToProcess : N) :
  map length temp = map length (mTemp m) ->
  Process (set_mTemp m temp) maxToProcess = Process m maxToProcess.
Proof.
  intros Hshape. unfold Process.
  rewrite mixSources_set_mTemp.
  change (mTemp (set_mTemp m temp)) with temp.
  rewrite (Clear_shape _ _ Hshape).
  destruct (assert _); cbn [bind]; [|reflexivity].
  destruct (mixSources _ _ _ _ _ _) as [[[completed sources] st]|];
    cbn [bind]; [|reflexivity].
  destruct completed; cbn [negb]; [|reflexivity].
  rewrite (foldM_ext (copyChannel (set_mTemp m temp) (pTemp st) (pMaxOut st))
             (copyChannel m (pTemp st) (pMaxOut st)))
    by reflexivity.
  reflexivity.
Qed.


(** *** Routing *)

Lemma mixChannel_Ok_flags (m : Mixer) (i : nat) (source : MixerSource)
    (result : N) (st st' : Pass) (j : nat) :
  mixChannel m i source result st j = Ok st' ->
  exists pFloat track map flags gains,
    TrackList_Channels (mpLeader source) !! j = Some track /\
    Source_MixerSpec source j = Ok map /\
    findChannelFlags (mNumChannels m) map (Track_GetChannel track)
      = Ok flags /\
    MixBuffers (mNumChannels m) flags gains pFloat (pTemp st)
      (to_int result) = Ok (pTemp st').
Proof.
  unfold mixChannel, Buffers_GetReadPosition, Source_GetChannel.
  intros E.
  destruct (read (pBuffers st) j) as [pFloat|] eqn:Ep; [|discriminate].
  destruct (read _ j) as [track|] eqn:Et in E; [|discriminate].
  cbn [bind] in E.
  destruct (Source_MixerSpec source j) as [map|] eqn:Em; [|discriminate].
  cbn [bind] in E.
  destruct (findChannelFlags _ _ _) as [flags|] eqn:Ef; [|discriminate].
  cbn [bind] in E. bind_inv. injection E as <-. cbn.
  apply read_Ok_lookup in Et. eauto 10.
Qed.

Lemma mixSources_unrouted (m : Mixer) (maxToProcess maxChannels : N)
    (c : nat) :
  forall sources i st completed sources' st',
    mixSources m maxToProcess maxChannels i sources st
      = Ok (completed, sources', st') ->
    (forall source j track map flags,
       source ∈ sources ->
       TrackList_Channels (mpLeader source) !! j = Some track ->
       Source_MixerSpec source j = Ok map ->
       findChannelFlags (mNumChannels m) map (Track_GetChannel track)
         = Ok flags ->
       flags !! c = Some false) ->
    pTemp st' !! c = pTemp st !! c.
Proof.
  induction sources as [|source rest IH];
    intros i st completed sources' st' E Hun; cbn in E.
  - injection E as <- <- <-. reflexivity.
  - pose proof (Source_Acquire_same source (pBuffers st) maxToProcess
                  (set_mTime (mTimesAndSpeed m) (pTime st))) as [Hl Hm].
    destruct (Source_Acquire _ _ _ _) as [[[oResult source1] data] time].
    cbn in Hl, Hm. destruct oResult as [result|].
    + bind_inv. destruct a0 as [[completed1 rest1] st3].
      injection E as <- <- <-.
      rewrite (IH _ _ _ _ _ Ea0).
      * apply (foldM_Ok_inv _ (fun s s' => pTemp s' !! c = pTemp s !! c))
          in Ea; [exact Ea|reflexivity|intros s1 s2 s3 H1 H2; congruence|].
        intros s j s' Es.
        apply mixChannel_Ok_flags in Es
          as (pFloat & track & map & flags & gains & Ht & Hs & Hf & Emix).
        apply (MixBuffers_unflagged _ _ _ _ _ _ _ _ Emix).
        apply (Hun source j track map flags); auto.
        -- apply elem_of_cons. auto.
        -- rewrite <- Hl. exact Ht.
        -- unfold Source_MixerSpec in *. rewrite <- Hm. exact Hs.
      * intros s j track map flags Hs. apply Hun. apply elem_of_cons. auto.
    + injection E as <- <- <-. reflexivity.
Qed.

(** X19.  No leakage between output channels: when no channel of any
    source is routed to output channel [c], the accumulation buffer of [c]
    is all [+0] after [Process]. *)
Theorem Process_unrouted_output_is_silent (m : Mixer) (maxToProcess : N)
    (c : nat) :
  WfMixer m -> AcquireWithinBound -> AcquireKeepsShape ->
  maxToProcess <= BufferSize m ->
  Unrouted m c ->
  exists r m' log,
    Process m maxToProcess = Ok (r, m', log) /\
    forall buffer,
      mTemp m' !! c = Some buffer ->
      Forall (fun x => x = float_zero) buffer.
Proof.
  intros Hwf Hbound Hshape Hmax Hun.
  destruct (Process_returns m maxToProcess Hwf Hbound Hshape Hmax)
    as (r & m' & log & E & _).
  exists r, m', log. split; [exact E|]. intros buffer Hb.
  apply Process_Ok_full in E as (completed & st & E & _ & Htemp & _).
  apply (mixSources_unrouted _ _ _ c) in E; [|exact Hun].
  cbn in E. rewrite Htemp, E in Hb.
  exact (Forall_lookup_1 _ _ _ _ (Clear_zero (mTemp m)) Hb).
Qed.

End ProcessExtras.

(** ** What [Process] leaves in the accumulation buffers *)

Lemma accumulate_addSamples (gain : float) (src dest dest' : list float)
    (len : Z) :
  accumulate gain src dest len = Ok dest' ->
  dest' = addSamples gain src (Z.to_nat len) dest.
Proof.
  intros E.
  assert (Hlen : (Z.to_nat len <= length src)%nat /\
                 (Z.to_nat len <= length dest)%nat).
  { unfold accumulate in E.
    destruct (bool_decide_reflect (Z.to_nat len <= length src)%nat);
      [|discriminate].
    destruct (bool_decide_reflect (Z.to_nat len <= length dest)%nat);
      [|discriminate].
    auto. }
  destruct Hlen as [Hs Hd].
  apply accumulate_Ok in E as (Hl & Htail & Hhead).
  apply list_eq. intros x. unfold addSamples. rewrite list_lookup_imap.
  destruct (dest !! x) as [d|] eqn:Hdx; cbn.
  - destruct (bool_decide_reflect (x < Z.to_nat len)%nat) as [Hx|Hx].
    + destruct (lookup_lt_is_Some_2 src x) as [s Hsx]; [lia|].
      rewrite Hsx. exact (Hhead x d s Hx Hdx Hsx).
    + rewrite Htail by lia. exact Hdx.
  - apply lookup_ge_None. apply lookup_ge_None in Hdx. lia.
Qed.

Lemma MixBuffers_addChannel (numChannels : N) (flags : list bool)
    (gains src : list float) (dests dests' : list (list float)) (len : Z) :
  MixBuffers numChannels flags gains src dests len = Ok dests' ->
  dests' = addChannel (N.to_nat numChannels) flags gains src (Z.to_nat len)
             dests.
Proof.
  rewrite MixBuffers_mixStep. intros E.
  apply mixSteps_Ok in E as (Hlen & Hother & Hin); [|apply NoDup_seq].
  apply list_eq. intros c. unfold addChannel. rewrite list_lookup_imap.
  destruct (dests !! c) as [dest|] eqn:Hdest; cbn.
  - destruct (bool_decide_reflect (c < N.to_nat numChannels)%nat) as [Hc|Hc].
    + destruct (Hin c dest) as (dest' & -> & Hmixed);
        [apply elem_of_seq; lia|exact Hdest|].
      f_equal.
      destruct Hmixed as [[-> ->]|(-> & gain & -> & Hacc)]; [reflexivity|].
      exact (accumulate_addSamples _ _ _ _ _ Hacc).
    + rewrite Hother; [exact Hdest|]. intros Hc'. apply elem_of_seq in Hc'.
      lia.
  - apply lookup_ge_None. apply lookup_ge_None in Hdest. lia.
Qed.

Lemma foldl_ext_in {A B} (f g : A -> B -> A) (l : list B) :
  (forall a b, b ∈ l -> f a b = g a b) ->
  forall a, foldl f a l = foldl g a l.
Proof.
  induction l as [|b l IH]; intros Hfg a; cbn; [reflexivity|].
  rewrite Hfg by (apply elem_of_cons; auto).
  apply IH. intros a' b' Hb'. apply Hfg. apply elem_of_cons. auto.
Qed.

Section ProcessClaims.
Context `{Collaborators}.

Lemma mixChannel_accumulateChannel (m : Mixer) (i : nat)
    (source : MixerSource) (result : N) (st st' : Pass) (j : nat) :
  mixChannel m i source result st j = Ok st' ->
  GainsOne m st ->
  pTemp st' =
    accumulateChannel m source (pBuffers st) (Z.to_nat (to_int result))
      (pTemp st) j /\
  GainsOne m st'.
Proof.
  unfold mixChannel, Buffers_GetReadPosition, Source_GetChannel, GainsOne.
  intros E Hg.
  destruct (read (pBuffers st) j) as [pFloat|] eqn:Ep; [|discriminate].
  destruct (read _ j) as [track|] eqn:Et in E; [|discriminate].
  cbn [bind] in E.
  destruct (Source_MixerSpec source j) as [map|] eqn:Em; [|discriminate].
  cbn [bind] in E.
  destruct (findChannelFlags _ _ _) as [flags|] eqn:Ef; [|discriminate].
  cbn [bind] in E.
  destruct (MixBuffers _ _ _ _ _ _) as [temp|] eqn:Emix; [|discriminate].
  cbn [bind] in E. injection E as <-. cbn [pTemp pGains].
  apply read_Ok_lookup in Ep, Et. apply MixBuffers_addChannel in Emix.
  unfold accumulateChannel, channelGains, Buffers in *.
  rewrite Ep, Et, Em, Ef, Emix.
  destruct (mApplyTrackGains m); [split; [reflexivity|discriminate]|].
  rewrite (Hg eq_refl). auto.
Qed.

Lemma mixChannels_accumulate (m : Mixer) (i : nat) (source : MixerSource)
    (result : N) (l : list nat) :
  forall st st',
    foldM (mixChannel m i source result) st l = Ok st' ->
    GainsOne m st ->
    pTemp st' =
      foldl (accumulateChannel m source (pBuffers st)
               (Z.to_nat (to_int result)))
        (pTemp st) l /\
    GainsOne m st'.
Proof.
  induction l as [|j l IH]; intros st st' E Hg; cbn in E.
  - injection E as <-. auto.
  - bind_inv.
    pose proof (mixChannel_Ok _ _ _ _ _ _ _ Ea) as (Hb & _).
    apply mixChannel_accumulateChannel in Ea as [Ht Hg']; [|exact Hg].
    apply IH in E as [Ht' Hg'']; [|exact Hg'].
    split; [|exact Hg'']. cbn [foldl]. rewrite Ht', Hb, Ht. reflexivity.
Qed.

Lemma mixSources_mixDown (m : Mixer) (maxToProcess maxChannels : N) :
  forall sources i st completed sources' st',
    mixSources m maxToProcess maxChannels i sources st
      = Ok (completed, sources', st') ->
    GainsOne m st ->
    pTemp st' =
      mixDown (fun source =>
                 N.to_nat (N.min (Source_Channels source) maxChannels))
        m maxToProcess sources (pBuffers st) (pTime st) (pTemp st).
Proof.
  induction sources as [|source rest IH];
    intros i st completed sources' st' E Hg; cbn [mixSources mixDown] in *.
  - injection E as <- <- <-. reflexivity.
  - destruct (Source_Acquire _ _ _ _) as [[[oResult source1] data] time].
    destruct oResult as [result|].
    + bind_inv. destruct a0 as [[completed1 rest1] st3].
      injection E as <- <- <-.
      pose proof (mixChannels_Ok _ _ _ _ _ _ _ Ea) as (Hb & Ht & _ & _).
      apply mixChannels_accumulate in Ea as [Htemp Hg']; [|exact Hg].
      apply IH in Ea0; [|exact Hg'].
      cbn [pBuffers pTime pTemp] in *.
      rewrite Ea0, Hb, Ht, Htemp, std_min_N. reflexivity.
    + injection E as <- <- <-. reflexivity.
Qed.

(** *** The mix does not look beyond the second channel of a source *)

Lemma boundByTwo_firstTwo (source : MixerSource) :
  boundByTwo (firstTwo source) = boundByTwo source.
Proof.
  unfold boundByTwo, Source_Channels. cbn. rewrite length_take. lia.
Qed.

Lemma accumulateChannel_firstTwo (m m2 : Mixer) (source : MixerSource)
    (data : Buffers) (frames : nat) (temp : list (list float)) (j : nat) :
  mNumChannels m2 = mNumChannels m ->
  mApplyTrackGains m2 = mApplyTrackGains m ->
  (j < 2)%nat ->
  accumulateChannel m2 (firstTwo source) data frames temp j
  = accumulateChannel m source data frames temp j.
Proof.
  intros Hn Hg Hj. unfold accumulateChannel, channelGains, Source_MixerSpec.
  cbn. rewrite Hn, Hg, lookup_take_lt by exact Hj. reflexivity.
Qed.

Lemma mixDown_firstTwo (m m2 : Mixer) (maxToProcess : N) :
  mTimesAndSpeed m2 = mTimesAndSpeed m ->
  mNumChannels m2 = mNumChannels m ->
  mApplyTrackGains m2 = mApplyTrackGains m ->
  forall sources data time temp,
    mixDown boundByTwo m2 maxToProcess (map firstTwo sources) data time temp
    = mixDown boundByTwo m maxToProcess sources data time temp.
Proof.
  intros Hts Hn Hg.
  induction sources as [|source rest IH]; intros data time temp;
    cbn [map mixDown]; [reflexivity|].
  unfold Source_Acquire. cbn [firstTwo mSourceState mpLeader mpMap].
  rewrite Hts.
  destruct (MixerSource_Acquire _ _ _ _) as [[[oResult state] data'] time'].
  destruct oResult as [frames|]; [|reflexivity].
  rewrite IH.
  change {| mpLeader := {| TrackList_Channels :=
                             take 2 (TrackList_Channels (mpLeader source)) |};
            mpMap := mpMap source; mSourceState := state |}
    with (firstTwo {| mpLeader := mpLeader source; mpMap := mpMap source;
                      mSourceState := state |}).
  rewrite boundByTwo_firstTwo. f_equal.
  apply foldl_ext_in. intros a j Hj.
  apply accumulateChannel_firstTwo; [exact Hn|exact Hg|].
  apply elem_of_seq in Hj. unfold boundByTwo in Hj. lia.
Qed.

Lemma firstTwo_ok (numChannels : N) (source : MixerSource) :
  source_ok numChannels source -> source_ok numChannels (firstTwo source).
Proof.
  unfold source_ok. cbn [firstTwo mpMap].
  replace (mixLimit (firstTwo source) 2) with (mixLimit source 2);
    [auto|].
  rewrite !mixLimit_min.
  pose proof (boundByTwo_firstTwo source) as Hb. unfold boundByTwo in Hb.
  lia.
Qed.

(** *** The loop over a list of sources in two parts *)

Lemma mixSources_app (m : Mixer) (maxToProcess maxChannels : N)
    (later : list MixerSource) :
  forall earlier i st earlier' st1,
    mixSources m maxToProcess maxChannels i earlier st
      = Ok (true, earlier', st1) ->
    mixSources m maxToProcess maxChannels i (earlier ++ later) st
    = do r <- mixSources m maxToProcess maxChannels (i + length earlier)
                later st1;
      let '(completed, later', st2) := r in
      Ok (completed, earlier' ++ later', st2).
Proof.
  induction earlier as [|source rest IH]; intros i st earlier' st1 E;
    cbn [mixSources app length] in *.
  - injection E as <- <-. rewrite Nat.add_0_r.
    destruct (mixSources _ _ _ _ later st) as [[[c l] s]|]; reflexivity.
  - destruct (Source_Acquire _ _ _ _) as [[[oResult source1] data] time].
    destruct oResult as [result|]; [|discriminate].
    bind_inv. cbn [bind].
    destruct a0 as [[completed1 rest1] st3].
    injection E as -> <- <-.
    rewrite (IH _ _ _ _ Ea0). rewrite Nat.add_succ_r. cbn [Nat.add].
    destruct (mixSources _ _ _ _ later st3) as [[[c l] s]|]; reflexivity.
Qed.

(** The loop is left at the first source whose [Acquire] returns nothing. *)
Lemma mixSources_abort_at (m : Mixer) (maxToProcess maxChannels : N)
    (sources : list MixerSource) (i : nat) (source : MixerSource)
    (st0 : Pass) (earlier : list MixerSource) (st : Pass) :
  sources !! i = Some source ->
  mixSources m maxToProcess maxChannels 0 (take i sources) st0
    = Ok (true, earlier, st) ->
  (MixerSource_Acquire (mSourceState source) (pBuffers st) maxToProcess
     (set_mTime (mTimesAndSpeed m) (pTime st))).1.1.1 = None ->
  exists sources' st',
    mixSources m maxToProcess maxChannels 0 sources st0
      = Ok (false, sources', st') /\
    pLog st' = pLog st ++ [AcquireCall i None].
Proof.
  intros Hi E Hnone.
  pose proof (take_drop_middle sources i source Hi) as Hsplit.
  pose proof (mixSources_app m maxToProcess maxChannels
                (source :: drop (S i) sources) _ _ _ _ _ E) as Happ.
  rewrite Hsplit in Happ. rewrite Happ.
  rewrite length_take, Nat.min_l
    by (apply lookup_lt_Some in Hi; lia).
  cbn [Nat.add mixSources]. unfold Source_Acquire.
  destruct (MixerSource_Acquire _ _ _ _) as [[[oResult state] data] time].
  cbn in Hnone. subst oResult. cbn [bind]. do 2 eexists.
  split; reflexivity.
Qed.

(** What the log says of an [Acquire] is what [MixerSource::Acquire]
    returned: the sources before that one all acquired, and the result
    logged is the result of the call in the state they left. *)
Lemma mixSources_log_faithful (m : Mixer) (maxToProcess maxChannels : N) :
  forall sources i0 st0 completed sources' st' log,
    mixSources m maxToProcess maxChannels i0 sources st0
      = Ok (completed, sources', st') ->
    pLog st' = pLog st0 ++ log ->
    forall k res,
      AcquireCall (i0 + k) res ∈ log ->
      exists source earlier st,
        sources !! k = Some source /\
        mixSources m maxToProcess maxChannels i0 (take k sources) st0
          = Ok (true, earlier, st) /\
        (MixerSource_Acquire (mSourceState source) (pBuffers st)
           maxToProcess (set_mTime (mTimesAndSpeed m) (pTime st))).1.1.1
          = res.
Proof.
  induction sources as [|source rest IH];
    intros i0 st0 completed sources' st' log E Hlog k res Hin.
  - cbn in E. injection E as <- <- <-.
    rewrite <- (app_nil_r (pLog st0)) in Hlog at 1.
    apply app_inv_head in Hlog. subst log. inversion Hin.
  - destruct k as [|k]; cbn [take lookup list_lookup];
      cbn [mixSources] in E |- *; unfold Source_Acquire in E |- *;
      destruct (MixerSource_Acquire (mSourceState source) (pBuffers st0)
                  maxToProcess (set_mTime (mTimesAndSpeed m) (pTime st0)))
        as [[[oResult state] data] time] eqn:Eacq;
      destruct oResult as [result|].
    + exists source, [], st0. split; [reflexivity|]. split; [reflexivity|].
      rewrite Eacq. cbn.
      bind_inv. destruct a0 as [[completed1 rest1] st3].
      injection E as <- <- <-.
      apply mixChannels_Ok in Ea as (_ & _ & _ & Hl2). cbn in Hl2.
      apply mixSources_Ok in Ea0 as (log3 & Hl3 & Htr & _).
      rewrite Hl3, Hl2, <- !app_assoc in Hlog.
      apply app_inv_head in Hlog. subst log. cbn [app] in Hin.
      apply elem_of_cons in Hin as [Hin|Hin]; [congruence|].
      apply elem_of_app in Hin as [Hin|Hin].
      * apply elem_of_map in Hin as (j & Hj & _). discriminate.
      * apply (trace_acquire_index _ _ _ _ _ _ _ Htr) in Hin. lia.
    + exists source, [], st0. split; [reflexivity|]. split; [reflexivity|].
      rewrite Eacq. cbn.
      injection E as <- <- <-. cbn in Hlog.
      apply app_inv_head in Hlog. subst log.
      apply list_elem_of_singleton in Hin. congruence.
    + bind_inv. destruct a0 as [[completed1 rest1] st3].
      injection E as <- <- <-.
      pose proof (mixChannels_Ok _ _ _ _ _ _ _ Ea) as (_ & _ & _ & Hl2).
      cbn in Hl2.
      pose proof (mixSources_Ok _ _ _ _ _ _ _ _ _ Ea0)
        as (log3 & Hl3 & Htr & _).
      rewrite Hl3, Hl2, <- !app_assoc in Hlog.
      apply app_inv_head in Hlog. subst log. cbn [app] in Hin.
      apply elem_of_cons in Hin as [Hin|Hin];
        [injection Hin as Hin _; lia|].
      apply elem_of_app in Hin as [Hin|Hin].
      { apply elem_of_map in Hin as (j & Hj & _). discriminate. }
      rewrite <- Nat.add_succ_comm in Hin.
      destruct (IH _ _ _ _ _ _ Ea0 Hl3 k res Hin)
        as (source' & earlier & st & Hk & Erun & Hres).
      exists source', ({| mpLeader := mpLeader source;
                          mpMap := mpMap source;
                          mSourceState := state |} :: earlier), st.
      split; [exact Hk|]. split; [|exact Hres].
      cbn [bind]. rewrite Erun. reflexivity.
    + exfalso. injection E as <- <- <-. cbn in Hlog.
      apply app_inv_head in Hlog. subst log.
      apply list_elem_of_singleton in Hin. injection Hin as Hin _. lia.
Qed.

(** C2.  When the [Acquire] of a source returns nothing, [Process] returns
    0, no source after that one is asked to acquire in the call, and the
    sources after it are as they were.  The source is the one at position
    [i]: the sources before it all acquire -- the loop over them runs to
    its end, and leaves the working buffers and the time as [st] has them
    -- and [MixerSource::Acquire], called on the source at position [i]
    with these, returns nothing.  Then the call returns 0, that [Acquire]
    is in its log, no [Acquire] of a later source and no [MixBuffers] for
    that source or a later one is, and the later sources are unchanged. *)
Theorem Process_source_exhausted (m : Mixer) (maxToProcess : N) (i : nat)
    (source : MixerSource) (earlier : list MixerSource) (st : Pass) :
  maxToProcess <= BufferSize m ->
  mSources m !! i = Some source ->
  mixSources m maxToProcess (Buffers_Channels (mFloatBuffers m)) 0
    (take i (mSources m)) (Process_entry m) = Ok (true, earlier, st) ->
  (MixerSource_Acquire (mSourceState source) (pBuffers st) maxToProcess
     (set_mTime (mTimesAndSpeed m) (pTime st))).1.1.1 = None ->
  exists m' log,
    Process m maxToProcess = Ok (0, m', log) /\
    AcquireCall i None ∈ log /\
    (forall i' res, (i < i')%nat -> AcquireCall i' res ∉ log) /\
    (forall i' j, (i <= i')%nat -> MixBuffersCall i' j ∉ log) /\
    drop (S i) (mSources m') = drop (S i) (mSources m).
Proof.
  intros Hmax Hi E Hnone.
  destruct (mixSources_abort_at _ _ _ _ _ _ _ _ _ Hi E Hnone)
    as (sources' & st' & E' & Hlog').
  pose proof (mixSources_Ok _ _ _ _ _ _ _ _ _ E')
    as (log & Hlog & Htr & _ & _ & Hdrop).
  cbn [Process_entry pLog app] in Hlog.
  assert (Hin : AcquireCall i None ∈ log).
  { rewrite <- Hlog, Hlog'. apply elem_of_app. right.
    apply list_elem_of_singleton. reflexivity. }
  unfold Process. unfold BufferSize in *.
  rewrite (proj2 (N.leb_le _ _) Hmax). cbn [assert bind].
  unfold Process_entry in E'. rewrite E'. cbn [bind negb].
  do 2 eexists. split; [reflexivity|]. cbn [mSources]. rewrite Hlog.
  split; [exact Hin|].
  split; [exact (proj2 (trace_none_last _ _ _ _ _ _ Htr Hin))|].
  split; [exact (trace_none_mix _ _ _ _ _ _ Htr Hin)|].
  exact (Hdrop i Hin).
Qed.

(** C5 (as amended).  For every source that acquires in a call to
    [Process], the channels accumulated into the output buffers are the
    first [min(sourceChannels, 2)] channels of the source, once each -- 2
    being the number of channels of the working buffers, whatever the number
    of output channels; the channels beyond contribute nothing.  The
    accumulation buffers hold after the call what the mix of the first
    [min(sourceChannels, 2)] channels of each source leaves in cleared
    buffers; a call on the mixer whose sources are cut down to their first
    two channels leaves the same samples there; and [MixBuffers] is called
    for those channels of the source, in their order, and for no other. *)
Theorem Process_mixes_two_channels (m : Mixer) (maxToProcess : N) :
  WfMixer m -> AcquireWithinBound -> AcquireKeepsShape ->
  maxToProcess <= BufferSize m ->
  exists r m' log,
    Process m maxToProcess = Ok (r, m', log) /\
    mTemp m' =
      mixDown boundByTwo m maxToProcess (mSources m) (mFloatBuffers m)
        (mTime (mTimesAndSpeed m)) (Clear (mTemp m)) /\
    (exists r2 m2 log2,
       Process (with_times m (mTimesAndSpeed m) (map firstTwo (mSources m)))
         maxToProcess = Ok (r2, m2, log2) /\
       mTemp m2 = mTemp m') /\
    forall i source k,
      mSources m !! i = Some source ->
      AcquireCall i (Some k) ∈ log ->
      mixedChannels i log = seq 0 (boundByTwo source).
Proof.
  intros Hwf Hbound Hshape Hmax.
  assert (Hmix : forall (m0 : Mixer) r0 m0' log0,
             WfMixer m0 ->
             Process m0 maxToProcess = Ok (r0, m0', log0) ->
             mTemp m0' =
               mixDown boundByTwo m0 maxToProcess (mSources m0)
                 (mFloatBuffers m0) (mTime (mTimesAndSpeed m0))
                 (Clear (mTemp m0))).
  { intros m0 r0 m0' log0 Hwf0 E0.
    apply Process_Ok_full in E0 as (completed & st & E0 & _ & -> & _).
    unfold Buffers_Channels in E0. rewrite (wf_float m0 Hwf0) in E0.
    change (N.of_nat 2) with 2 in E0.
    apply mixSources_mixDown in E0; [exact E0|].
    intros Hgains. cbn [pGains]. rewrite Hgains. reflexivity. }
  destruct (Process_returns m maxToProcess Hwf Hbound Hshape Hmax)
    as (r & m' & log & E & _).
  exists r, m', log. split; [exact E|].
  pose proof (Hmix m r m' log Hwf E) as Htemp.
  split; [exact Htemp|]. split.
  - set (m2 := with_times m (mTimesAndSpeed m) (map firstTwo (mSources m))).
    assert (Hwf2 : WfMixer m2).
    { destruct Hwf as [Hn Ht Htr Hb Hf Hfr Hs].
      constructor; cbn; auto.
      apply List.Forall_map. eapply Forall_impl; [exact Hs|].
      intros source. apply firstTwo_ok. }
    destruct (Process_returns m2 maxToProcess Hwf2 Hbound Hshape Hmax)
      as (r2 & m2' & log2 & E2 & _).
    exists r2, m2', log2. split; [exact E2|].
    rewrite (Hmix m2 r2 m2' log2 Hwf2 E2), Htemp. subst m2.
    cbn [with_times mSources mFloatBuffers mTimesAndSpeed mTemp].
    apply mixDown_firstTwo; reflexivity.
  - intros i source k Hi Hk.
    apply Process_log in E as (completed & Htr & _ & _).
    unfold Buffers_Channels in Htr. rewrite (wf_float m Hwf) in Htr.
    change (N.of_nat 2) with 2 in Htr.
    unfold boundByTwo. rewrite <- mixLimit_min.
    exact (trace_mixed _ _ _ _ _ Htr i source k Hi Hk).
Qed.

(** X20.  The log of a call is faithful to [MixerSource::Acquire]: for
    every result of an [Acquire] that the log of [Process] records for the
    source at position [i], the sources before it all acquired -- the
    loop over them ran to its end -- and the result is what
    [MixerSource::Acquire] returned on that source, called with the working
    buffers and the time that they left. *)
Theorem Process_log_is_faithful (m : Mixer) (maxToProcess : N) :
  WfMixer m -> AcquireWithinBound -> AcquireKeepsShape ->
  maxToProcess <= BufferSize m ->
  exists r m' log,
    Process m maxToProcess = Ok (r, m', log) /\
    (r = 0 \/ forall i, AcquireCall i None ∉ log) /\
    forall i res,
      AcquireCall i res ∈ log ->
      exists source earlier st,
        mSources m !! i = Some source /\
        mixSources m maxToProcess (Buffers_Channels (mFloatBuffers m)) 0
          (take i (mSources m)) (Process_entry m) = Ok (true, earlier, st) /\
        (MixerSource_Acquire (mSourceState source) (pBuffers st)
           maxToProcess (set_mTime (mTimesAndSpeed m) (pTime st))).1.1.1
          = res.
Proof.
  intros Hwf Hbound Hshape Hmax.
  destruct (Process_returns m maxToProcess Hwf Hbound Hshape Hmax)
    as (r & m' & log & E & _).
  exists r, m', log. split; [exact E|]. split.
  - pose proof (Process_log _ _ _ _ _ E) as (completed & Htr & Hr & _).
    destruct completed; [right|left; exact Hr].
    intros i Hi. destruct (trace_none_last _ _ _ _ _ _ Htr Hi). discriminate.
  - intros i res Hin.
    apply Process_Ok_full in E as (completed & st & E & -> & _).
    exact (mixSources_log_faithful _ _ _ _ _ _ _ _ _ _ E eq_refl i res Hin).
Qed.

End ProcessClaims.

(** ** More about the constructor, [GetBuffer] and the routing *)

Section ConstructorExtras.
Context `{Collaborators}.

Lemma Grouped_leader_inv (inputTracks : list (option SampleTrack)) (i : nat)
    (leader : SampleTrack) :
  inputTracks !! i = Some (Some leader) ->
  Grouped inputTracks i ->
  (1 <= length (TrackList_Channels leader))%nat /\
  (i + length (TrackList_Channels leader) <= length inputTracks)%nat /\
  Grouped inputTracks (i + length (TrackList_Channels leader)).
Proof.
  intros Hi Hg. inversion Hg as [i' Hlen|i' leader' Hl Hn Hfit Hg']; subst.
  - apply lookup_lt_Some in Hi. lia.
  - rewrite Hi in Hl. injection Hl as <-. auto.
Qed.

Lemma Grouped_no_leader (inputTracks : list (option SampleTrack)) (i : nat) :
  (i < length inputTracks)%nat ->
  (forall leader, inputTracks !! i <> Some (Some leader)) ->
  ~ Grouped inputTracks i.
Proof.
  intros Hi Hno Hg. inversion Hg as [i' Hlen|i' leader' Hl Hn Hfit Hg']; subst.
  - lia.
  - exact (Hno leader' Hl).
Qed.






Lemma Cover_snoc (inputTracks : list (option SampleTrack))
    (pMixerSpec : option MixerSpec) (acc : list MixerSource) (i : nat)
    (source : MixerSource) :
  Cover inputTracks pMixerSpec acc i ->
  inputTracks !! i = Some (Some (mpLeader source)) ->
  (1 <= length (TrackList_Channels (mpLeader source)))%nat ->
  (i + length (TrackList_Channels (mpLeader source))
   <= length inputTracks)%nat ->
  mpMap source =
    match pMixerSpec with
    | Some spec => Some (drop i (mMap spec))
    | None => None
    end ->
  Cover inputTracks pMixerSpec (acc ++ [source])
    (i + length (TrackList_Channels (mpLeader source))).
Proof.
  intros [Hsum Hall] Hi Hn Hfit Hmap. split.
  - unfold groupSizes. rewrite List.map_app, sum_list_with_app. cbn.
    fold (groupSizes acc). rewrite Hsum. lia.
  - intros k s Hk. unfold leaderPosition.
    destruct (decide (k < length acc)%nat) as [Hlt|Hge].
    + rewrite lookup_app_l in Hk by exact Hlt.
      rewrite take_app_le by lia. exact (Hall k s Hk).
    + rewrite lookup_app_r in Hk by lia.
      destruct (k - length acc)%nat as [|d] eqn:Ed; [|discriminate].
      injection Hk as <-.
      assert (k = length acc) as -> by lia.
      rewrite take_app_length. rewrite Hsum. auto.
Qed.

Lemma makeSources_cover
    (inputTracks : list (option SampleTrack)) (bufferSize : N)
    (outRate : double) (warpOptions : WarpOptions)
    (highQuality mayThrow : bool) (pMixerSpec : option MixerSpec) :
  forall fuel i acc sources,
    Grouped inputTracks i ->
    (i <= length inputTracks)%nat ->
    Cover inputTracks pMixerSpec acc i ->
    makeSources fuel inputTracks bufferSize outRate warpOptions highQuality
      mayThrow pMixerSpec i acc = Ok sources ->
    Cover inputTracks pMixerSpec sources (length inputTracks).
Proof.
  induction fuel as [|fuel IH]; intros i acc sources Hg Hi Hc E; cbn in E;
    (destruct (bool_decide_reflect (i < length inputTracks)%nat) as [Hlt|Hge];
     [|injection E as <-; assert (i = length inputTracks) as <- by lia;
       exact Hc]);
    (destruct (inputTracks !! i) as [[leader|]|] eqn:Ei;
     [|exfalso; revert Hg; apply Grouped_no_leader;
       [exact Hlt|congruence]..]);
    destruct (Grouped_leader_inv _ _ _ Ei Hg) as (Hn & Hfit & Hg');
    rewrite bool_decide_eq_false_2 in E by lia;
    (destruct (length (TrackList_Channels leader)) as [|n] eqn:En;
     [discriminate|]); try discriminate.
  apply (IH _ _ _) in E; [exact E|exact Hg'|lia|].
  rewrite <- En.
  match goal with
  | |- Cover _ _ (acc ++ [?s]) _ =>
      apply (Cover_snoc inputTracks pMixerSpec acc i s Hc); cbn; auto; lia
  end.
Qed.

(** X13.  The constructor makes one source for each channel group, in the
    order of the input tracks: the sizes of the groups of the sources add up
    to the number of input tracks, no group is empty, and the source at
    position [k] is made for the track at the position that the groups
    before it take up. *)
Theorem Mixer_sources_cover_tracks
    (inputTracks : list (option SampleTrack))
    (mayThrow : bool) (warpOptions : WarpOptions)
    (startTime stopTime : double) (numOutChannels outBufferSize : N)
    (outInterleaved : bool) (outRate : double) (outFormat : sampleFormat)
    (highQuality : bool) (mixerSpec : option MixerSpec)
    (applyTrackGains : bool) :
  Grouped inputTracks 0 ->
  exists m,
    Mixer_Mixer inputTracks mayThrow warpOptions startTime stopTime
      numOutChannels outBufferSize outInterleaved outRate outFormat
      highQuality mixerSpec applyTrackGains = Ok m /\
    sum_list (groupSizes (mSources m)) = length inputTracks /\
    forall k source,
      mSources m !! k = Some source ->
      inputTracks !! leaderPosition (mSources m) k
        = Some (Some (mpLeader source)) /\
      (1 <= length (TrackList_Channels (mpLeader source)))%nat /\
      (leaderPosition (mSources m) k
       + length (TrackList_Channels (mpLeader source))
       <= length inputTracks)%nat.
Proof.
  intros Hg. unfold Mixer_Mixer.
  match goal with
  | |- context [makeSources ?f ?t ?b ?r ?w ?h ?mt ?p 0%nat []] =>
      destruct (makeSources_total t b r w h mt p 0 Hg f []) as [srcs E];
        [lia|];
      pose proof (makeSources_cover t b r w h mt p f 0 [] srcs Hg) as Hc
  end.
  rewrite E. cbn [bind]. eexists. split; [reflexivity|]. cbn [mSources].
  destruct Hc as [Hsum Hall]; [lia| |exact E|].
  { split; [reflexivity|]. intros k s Hk. discriminate. }
  split; [exact Hsum|]. intros k source Hk.
  destruct (Hall k source Hk) as (H1 & H2 & H3 & _). auto.
Qed.

(** X14.  When the mix specification matches the output channels and the
    input tracks, every channel of every source is routed by the row of the
    map that belongs to its track: channel [j] of the source made for the
    leader at position [p] gets row [p + j]. *)
Theorem Mixer_routes_by_track_rows
    (inputTracks : list (option SampleTrack))
    (mayThrow : bool) (warpOptions : WarpOptions)
    (startTime stopTime : double) (numOutChannels outBufferSize : N)
    (outInterleaved : bool) (outRate : double) (outFormat : sampleFormat)
    (highQuality : bool) (spec : MixerSpec) (applyTrackGains : bool) :
  Grouped inputTracks 0 ->
  SpecOk spec ->
  GetNumChannels spec = numOutChannels ->
  GetNumTracks spec = N.of_nat (length inputTracks) ->
  exists m,
    Mixer_Mixer inputTracks mayThrow warpOptions startTime stopTime
      numOutChannels outBufferSize outInterleaved outRate outFormat
      highQuality (Some spec) applyTrackGains = Ok m /\
    forall k source j,
      mSources m !! k = Some source ->
      (j < length (TrackList_Channels (mpLeader source)))%nat ->
      exists row,
        mMap spec !! (leaderPosition (mSources m) k + j)%nat = Some row /\
        (N.to_nat numOutChannels <= length row)%nat /\
        Source_MixerSpec source j = Ok (Some row).
Proof.
  intros Hg [Hrows Hrow] Hc Ht. unfold Mixer_Mixer.
  rewrite Hc, Ht, !N.eqb_refl. cbn [andb].
  match goal with
  | |- context [makeSources ?f ?t ?b ?r ?w ?h ?mt ?p 0%nat []] =>
      destruct (makeSources_total t b r w h mt p 0 Hg f []) as [srcs E];
        [lia|];
      pose proof (makeSources_cover t b r w h mt p f 0 [] srcs Hg) as Hcov
  end.
  rewrite E. cbn [bind]. eexists. split; [reflexivity|]. cbn [mSources].
  destruct Hcov as [Hsum Hall]; [lia| |exact E|].
  { split; [reflexivity|]. intros k s Hk. discriminate. }
  intros k source j Hk Hj.
  destruct (Hall k source Hk) as (_ & _ & Hfit & Hmap).
  destruct (lookup_lt_is_Some_2 (mMap spec)
              (leaderPosition srcs k + j)) as [row Hr]; [lia|].
  exists row. split; [exact Hr|]. split.
  - rewrite <- Hc. exact (Forall_lookup_1 _ _ _ _ Hrow Hr).
  - unfold Source_MixerSpec. rewrite Hmap. unfold read.
    rewrite lookup_drop, Hr. reflexivity.
Qed.

(** X15.  A mixer that the constructor returns is ready for [Process]: it
    is well formed, its current time is the start time, which lies between
    the bounds, and its accumulation buffers are silent. *)
Theorem Mixer_constructed_ready
    (inputTracks : list (option SampleTrack))
    (mayThrow : bool) (warpOptions : WarpOptions)
    (startTime stopTime : double) (numOutChannels outBufferSize : N)
    (outInterleaved : bool) (outRate : double) (outFormat : sampleFormat)
    (highQuality : bool) (mixerSpec : option MixerSpec)
    (applyTrackGains : bool) :
  Grouped inputTracks 0 ->
  1 <= numOutChannels ->
  (forall spec, mixerSpec = Some spec -> SpecOk spec) ->
  isnan startTime = false -> isnan stopTime = false ->
  exists m,
    Mixer_Mixer inputTracks mayThrow warpOptions startTime stopTime
      numOutChannels outBufferSize outInterleaved outRate outFormat
      highQuality mixerSpec applyTrackGains = Ok m /\
    WfMixer m /\
    MixGetCurrentTime m = startTime /\
    TimeInBounds (mTimesAndSpeed m) /\
    BufferSize m = outBufferSize /\
    Forall (Forall (fun x => x = float_zero)) (mTemp m).
Proof.
  intros Hg Hn Hspec Hstart Hstop.
  assert (Hm : exists m,
             Mixer_Mixer inputTracks mayThrow warpOptions startTime stopTime
               numOutChannels outBufferSize outInterleaved outRate outFormat
               highQuality mixerSpec applyTrackGains = Ok m).
  { unfold Mixer_Mixer.
    match goal with
    | |- context [makeSources ?f ?t ?b ?r ?w ?h ?mt ?p 0%nat []] =>
        destruct (makeSources_total t b r w h mt p 0 Hg f []) as [srcs ->];
          [lia|]
    end.
    cbn. eauto. }
  destruct Hm as [m E]. exists m. split; [exact E|].
  split; [exact (Mixer_Mixer_wf _ _ _ _ _ _ _ _ _ _ _ _ _ _ Hn Hspec E)|].
  unfold Mixer_Mixer in E. bind_inv. injection E as <-.
  unfold MixGetCurrentTime, TimeInBounds, between, BufferSize. cbn.
  split; [reflexivity|]. split.
  - rewrite (dle_refl _ Hstart). cbn.
    destruct (dlt stopTime startTime) eqn:Eb.
    + rewrite (dlt_dle _ _ Eb). apply orb_true_r.
    + rewrite (dlt_false_dle _ _ Hstop Hstart Eb). reflexivity.
  - split; [reflexivity|]. unfold initVector2, initVector.
    apply Forall_replicate, Forall_replicate. reflexivity.
Qed.

(** X16.  [GetBuffer()] is [GetBuffer(0)], and on a constructed mixer it is
    an access inside [mBuffer] exactly when the mixer is interleaved or has
    an output channel: a planar mixer without output channels has no
    buffer at all. *)
Theorem GetBuffer_without_channel
    (inputTracks : list (option SampleTrack))
    (mayThrow : bool) (warpOptions : WarpOptions)
    (startTime stopTime : double) (numOutChannels outBufferSize : N)
    (outInterleaved : bool) (outRate : double) (outFormat : sampleFormat)
    (highQuality : bool) (mixerSpec : option MixerSpec)
    (applyTrackGains : bool) (m : Mixer) :
  Mixer_Mixer inputTracks mayThrow warpOptions startTime stopTime
    numOutChannels outBufferSize outInterleaved outRate outFormat
    highQuality mixerSpec applyTrackGains = Ok m ->
  GetBuffer0 m = GetBuffer m 0 /\
  ((exists b, GetBuffer0 m = Ok b) <->
   outInterleaved = true \/ 1 <= numOutChannels) /\
  (outInterleaved = false -> numOutChannels = 0 ->
   GetBuffer0 m = Fail OutOfBounds).
Proof.
  intros E. unfold Mixer_Mixer in E. bind_inv. injection E as <-.
  unfold GetBuffer0, GetBuffer, read, initVector. cbn.
  split; [reflexivity|].
  destruct outInterleaved.
  - cbn. split; [split; eauto|discriminate].
  - destruct (N.to_nat numOutChannels) as [|n] eqn:En; cbn.
    + split; [|reflexivity].
      split; [intros [b Hb]; discriminate|intros [Hi|Hn]; [discriminate|lia]].
    + split; [split; [intros _; right; lia|eauto]|lia].
Qed.

End ConstructorExtras.

(** X17.  Without a map no channel is dropped: for at least one output
    channel, whatever the role, [findChannelFlags] returns one flag for each
    output channel and at least one of them is set; for the roles Left and
    Right exactly one is set. *)
Theorem findChannelFlags_routes_somewhere (numChannels : N)
    (channel : ChannelType) :
  1 <= numChannels ->
  exists flags,
    findChannelFlags numChannels None channel = Ok flags /\
    length flags = N.to_nat numChannels /\
    (exists c, flags !! c = Some true) /\
    (channel = LeftChannel \/ channel = RightChannel ->
     forall c c', flags !! c = Some true -> flags !! c' = Some true ->
                  c = c').
Proof.
  intros Hn. unfold findChannelFlags.
  assert (Hone : forall i : nat,
             (i < N.to_nat numChannels)%nat ->
             exists flags,
               store (replicate (N.to_nat numChannels) false) i true
                 = Ok flags /\
               length flags = N.to_nat numChannels /\
               (exists c, flags !! c = Some true) /\
               forall c c', flags !! c = Some true ->
                            flags !! c' = Some true -> c = c').
  { intros i Hi. rewrite store_lt by (rewrite length_replicate; exact Hi).
    eexists. split; [reflexivity|].
    split; [rewrite length_insert; apply length_replicate|].
    assert (Honly : forall c,
               <[i := true]> (replicate (N.to_nat numChannels) false) !! c
                 = Some true -> c = i).
    { intros c Hc. destruct (decide (c = i)) as [->|Hne]; [reflexivity|].
      rewrite list_lookup_insert_ne in Hc by congruence.
      apply lookup_replicate_1 in Hc as [Hc _]. discriminate. }
    split.
    - exists i. apply list_lookup_insert_eq. rewrite length_replicate. exact Hi.
    - intros c c' Hc Hc'. rewrite (Honly c Hc), (Honly c' Hc'). reflexivity. }
  destruct channel.
  - destruct (Hone 0%nat) as (flags & E & Hl & Hex & Huniq); [lia|].
    exists flags. auto.
  - destruct (2 <=? numChannels) eqn:E2.
    + apply N.leb_le in E2.
      destruct (Hone 1%nat) as (flags & E & Hl & Hex & Huniq); [lia|].
      exists flags. auto.
    + destruct (Hone 0%nat) as (flags & E & Hl & Hex & Huniq); [lia|].
      exists flags. auto.
  - eexists. split; [reflexivity|]. split; [apply length_replicate|].
    split; [exists 0%nat; apply lookup_replicate_2; lia|].
    intros [Hc|Hc]; discriminate.
  - eexists. split; [reflexivity|]. split; [apply length_replicate|].
    split; [exists 0%nat; apply lookup_replicate_2; lia|].
    intros [Hc|Hc]; discriminate.
Qed.

(** ** Concrete runs of the abort and of the mix *)

(** The abort of the call, for the mixer whose second source is exhausted:
    the first source acquires, which leaves the loop in the state [st]; the
    second, asked to acquire in that state, returns nothing. *)
Lemma Process_source_exhausted_witness :
  exists earlier st,
    mixSources second_exhausted 4
      (Buffers_Channels (mFloatBuffers second_exhausted)) 0
      (take 1 (mSources second_exhausted)) (Process_entry second_exhausted)
      = Ok (true, earlier, st) /\
    4 <= BufferSize second_exhausted /\
    mSources second_exhausted !! 1%nat
      = Some (scripted_source [mono] (script None None 0)) /\
    (MixerSource_Acquire
       (mSourceState (scripted_source [mono] (script None None 0)))
       (pBuffers st) 4
       (set_mTime (mTimesAndSpeed second_exhausted) (pTime st))).1.1.1
      = None /\
    exists m' log,
      Process second_exhausted 4 = Ok (0, m', log) /\
      AcquireCall 1 None ∈ log /\
      (forall i' res, (1 < i')%nat -> AcquireCall i' res ∉ log) /\
      (forall i' j, (1 <= i')%nat -> MixBuffersCall i' j ∉ log) /\
      drop 2 (mSources m') = drop 2 (mSources second_exhausted).
Proof.
  do 2 eexists.
  split; [lazy; reflexivity|].
  assert (Hmax : 4 <= BufferSize second_exhausted) by (cbn; lia).
  split; [exact Hmax|]. split; [reflexivity|]. split; [reflexivity|].
  apply (Process_source_exhausted second_exhausted 4 1
           (scripted_source [mono] (script None None 0)) _ _ Hmax
           eq_refl eq_refl eq_refl).
Defined.

(** The mix of the stereo source into one output channel. *)
Lemma Process_mixes_two_channels_witness :
  WfMixer stereo_into_mono /\ 4 <= BufferSize stereo_into_mono /\
  exists r m' log,
    Process stereo_into_mono 4 = Ok (r, m', log) /\
    mTemp m' =
      mixDown boundByTwo stereo_into_mono 4 (mSources stereo_into_mono)
        (mFloatBuffers stereo_into_mono)
        (mTime (mTimesAndSpeed stereo_into_mono))
        (Clear (mTemp stereo_into_mono)) /\
    (exists r2 m2 log2,
       Process
         (with_times stereo_into_mono (mTimesAndSpeed stereo_into_mono)
            (map firstTwo (mSources stereo_into_mono)))
         4 = Ok (r2, m2, log2) /\
       mTemp m2 = mTemp m') /\
    forall i source k,
      mSources stereo_into_mono !! i = Some source ->
      AcquireCall i (Some k) ∈ log ->
      mixedChannels i log = seq 0 (boundByTwo source).
Proof.
  assert (Hwf : WfMixer stereo_into_mono)
    by (apply scripted_mixer_wf; [lia|repeat constructor]).
  assert (Hmax : 4 <= BufferSize stereo_into_mono) by (cbn; lia).
  split; [exact Hwf|]. split; [exact Hmax|].
  exact (Process_mixes_two_channels stereo_into_mono 4 Hwf
           scripted_within_bound scripted_keeps_shape Hmax).
Defined.

(** A source of three channels, a sample of 1 each, into two output
    channels: the third channel, a mono channel that would go to both
    outputs, is not mixed. *)
Example Process_three_channels :
  match
    Process
      (scripted_mixer 2
         [scripted_source [left; right; mono] (script (Some 4) (Some 3%Z) 1)])
      4
  with
  | Ok (r, m', log) =>
      r = 4 /\
      log = [AcquireCall 0 (Some 4); MixBuffersCall 0 0; MixBuffersCall 0 1] /\
      mTemp m' = [replicate 4 (float_of_Z 1); replicate 4 (float_of_Z 1)]
  | Fail _ => False
  end.
Proof. vm_compute. repeat split. Qed.

(** In a build without assertions the constructor leaves the loop at the
    null leader, or at the stereo leader that has no follower, and makes a
    mixer of the mono track before it. *)
Example Mixer_release_breaks :
  match construct release_build null_in_the_middle,
        construct release_build lone_stereo_leader with
  | Ok m1, Ok m2 =>
      map mpLeader (mSources m1) = [mono_track] /\
      map mpLeader (mSources m2) = [mono_track]
  | _, _ => False
  end.
Proof. vm_compute. split; reflexivity. Qed.

(** The same lists in a build with assertions. *)
Example Mixer_debug_stops :
  construct scripted null_in_the_middle = Fail AssertionFailed /\
  construct scripted lone_stereo_leader = Fail AssertionFailed.
Proof. split; reflexivity. Qed.


(** The log of the call on the mixer whose second source is exhausted. *)
Lemma Process_log_is_faithful_witness :
  WfMixer second_exhausted /\ 4 <= BufferSize second_exhausted /\
  exists r m' log,
    Process second_exhausted 4 = Ok (r, m', log) /\
    (r = 0 \/ forall i, AcquireCall i None ∉ log) /\
    forall i res,
      AcquireCall i res ∈ log ->
      exists source earlier st,
        mSources second_exhausted !! i = Some source /\
        mixSources second_exhausted 4
          (Buffers_Channels (mFloatBuffers second_exhausted)) 0
          (take i (mSources second_exhausted))
          (Process_entry second_exhausted) = Ok (true, earlier, st) /\
        (MixerSource_Acquire (mSourceState source) (pBuffers st) 4
           (set_mTime (mTimesAndSpeed second_exhausted) (pTime st))).1.1.1
          = res.
Proof.
  assert (Hwf : WfMixer second_exhausted)
    by (apply scripted_mixer_wf; [lia|repeat constructor]).
  assert (Hmax : 4 <= BufferSize second_exhausted) by (cbn; lia).
  split; [exact Hwf|]. split; [exact Hmax|].
  exact (Process_log_is_faithful second_exhausted 4 Hwf
           scripted_within_bound scripted_keeps_shape Hmax).
Defined.

(** ** More concrete runs *)


(** A flip to backward play, and the same speed once more. *)
Lemma SetSpeedForKeyboardScrubbing_repeat_witness :
  SetSpeedForKeyboardScrubbing mono_and_stereo (double_of_Z (-1))
    (double_of_Z 50) = Ok flipped_backward /\
  SetSpeedForKeyboardScrubbing flipped_backward (double_of_Z (-1))
    (double_of_Z 7) = Ok flipped_backward.
Proof.
  assert (E : SetSpeedForKeyboardScrubbing mono_and_stereo (double_of_Z (-1))
                (double_of_Z 50) = Ok flipped_backward) by reflexivity.
  split; [exact E|].
  exact (SetSpeedForKeyboardScrubbing_repeat mono_and_stereo flipped_backward
           (double_of_Z (-1)) (double_of_Z 50) (double_of_Z 7) E).
Defined.

(** The flip keeps the invariants of the mono and the stereo source. *)
Lemma SetSpeedForKeyboardScrubbing_keeps_invariants_witness :
  isfinite (double_of_Z (-1)) = true /\
  isnan (double_of_Z 50) = false /\
  WfMixer mono_and_stereo /\
  TimeInBounds (mTimesAndSpeed mono_and_stereo) /\
  exists m',
    SetSpeedForKeyboardScrubbing mono_and_stereo (double_of_Z (-1))
      (double_of_Z 50) = Ok m' /\
    WfMixer m' /\ TimeInBounds (mTimesAndSpeed m').
Proof.
  assert (Hfin : isfinite (double_of_Z (-1)) = true) by reflexivity.
  assert (Hstart : isnan (double_of_Z 50) = false) by reflexivity.
  assert (Hwf : WfMixer mono_and_stereo)
    by (apply scripted_mixer_wf; [lia|repeat constructor]).
  assert (Hin : TimeInBounds (mTimesAndSpeed mono_and_stereo))
    by reflexivity.
  split; [exact Hfin|]. split; [exact Hstart|]. split; [exact Hwf|].
  split; [exact Hin|].
  exact (SetSpeedForKeyboardScrubbing_keeps_invariants mono_and_stereo
           (double_of_Z (-1)) (double_of_Z 50) Hfin Hstart Hwf Hin).
Defined.

(** Three frames of the source into the second of two buffers. *)
Lemma MixBuffers_keeps_channels_apart_witness :
  length [false; true] = N.to_nat 2 /\
  length [float_one; float_half] = N.to_nat 2 /\
  length some_dests = N.to_nat 2 /\
  Forall (fun v : list float => length v = 4%nat) some_dests /\
  (Z.to_nat 3 <= 4)%nat /\ (Z.to_nat 3 <= length some_src)%nat /\
  exists dests',
    MixBuffers 2 [false; true] [float_one; float_half] some_src some_dests 3
      = Ok dests' /\
    length dests' = length some_dests /\
    forall c dest,
      some_dests !! c = Some dest ->
      exists dest',
        dests' !! c = Some dest' /\
        length dest' = length dest /\
        ([false; true] !! c = Some false -> dest' = dest) /\
        (forall x, (Z.to_nat 3 <= x)%nat -> dest' !! x = dest !! x) /\
        ([false; true] !! c = Some true ->
         forall gain x d s,
           [float_one; float_half] !! c = Some gain ->
           (x < Z.to_nat 3)%nat ->
           dest !! x = Some d -> some_src !! x = Some s ->
           dest' !! x = Some (fadd d (fmul s gain))).
Proof.
  assert (H1 : length [false; true] = N.to_nat 2) by reflexivity.
  assert (H2 : length [float_one; float_half] = N.to_nat 2) by reflexivity.
  assert (H3 : length some_dests = N.to_nat 2) by reflexivity.
  assert (H4 : Forall (fun v : list float => length v = 4%nat) some_dests)
    by (repeat constructor).
  assert (H5 : (Z.to_nat 3 <= 4)%nat) by lia.
  assert (H6 : (Z.to_nat 3 <= length some_src)%nat) by (cbn; lia).
  split; [exact H1|]. split; [exact H2|]. split; [exact H3|].
  split; [exact H4|]. split; [exact H5|]. split; [exact H6|].
  exact (MixBuffers_keeps_channels_apart 2 [false; true]
           [float_one; float_half] some_src some_dests 3 4
           H1 H2 H3 H4 H5 H6).
Defined.

(** The same buffers: 2 + 3 * 0.5 = 3.5 in the first three samples of the
    flagged buffer, nothing else touched. *)
Example MixBuffers_example :
  MixBuffers 2 [false; true] [float_one; float_half] some_src some_dests 3
  = Ok [replicate 4 (float_of_Z 1);
        replicate 3 (S754_finite false 14680064 (-22)) ++ [float_of_Z 2]].
Proof. reflexivity. Qed.

(** No frames: the buffers stay as they are. *)
Lemma MixBuffers_nothing_to_mix_witness :
  length [true; true] = N.to_nat 2 /\
  length [float_one; float_half] = N.to_nat 2 /\
  length some_dests = N.to_nat 2 /\
  (0 <= 0)%Z /\
  MixBuffers 2 [true; true] [float_one; float_half] some_src some_dests 0
  = Ok some_dests.
Proof.
  assert (H1 : length [true; true] = N.to_nat 2) by reflexivity.
  assert (H2 : length [float_one; float_half] = N.to_nat 2) by reflexivity.
  assert (H3 : length some_dests = N.to_nat 2) by reflexivity.
  assert (H4 : (0 <= 0)%Z) by lia.
  split; [exact H1|]. split; [exact H2|]. split; [exact H3|].
  split; [exact H4|].
  exact (MixBuffers_nothing_to_mix 2 [true; true] [float_one; float_half]
           some_src some_dests 0 H1 H2 H3 H4).
Defined.

(** The routing of a right channel into two output channels. *)
Lemma findChannelFlags_routes_somewhere_witness :
  1 <= 2 /\
  exists flags,
    findChannelFlags 2 None RightChannel = Ok flags /\
    length flags = N.to_nat 2 /\
    (exists c, flags !! c = Some true) /\
    (RightChannel = LeftChannel \/ RightChannel = RightChannel ->
     forall c c', flags !! c = Some true -> flags !! c' = Some true ->
                  c = c').
Proof.
  assert (Hn : 1 <= 2) by lia.
  split; [exact Hn|].
  exact (findChannelFlags_routes_somewhere 2 RightChannel Hn).
Defined.


(** The output buffers of the mixer whose second source is exhausted. *)
Lemma Process_abort_keeps_output_witness :
  WfMixer second_exhausted /\ 4 <= BufferSize second_exhausted /\
  exists r m' log,
    Process second_exhausted 4 = Ok (r, m', log) /\
    forall i,
      AcquireCall i None ∈ log ->
      mBuffer m' = mBuffer second_exhausted /\
      forall channel, GetBuffer m' channel = GetBuffer second_exhausted channel.
Proof.
  assert (Hwf : WfMixer second_exhausted)
    by (apply scripted_mixer_wf; [lia|repeat constructor]).
  assert (Hmax : 4 <= BufferSize second_exhausted) by (cbn; lia).
  split; [exact Hwf|]. split; [exact Hmax|].
  exact (Process_abort_keeps_output second_exhausted 4 Hwf
           scripted_within_bound scripted_keeps_shape Hmax).
Defined.

(** The order of the calls on the mixer whose second source is
    exhausted. *)
Lemma Process_acquires_in_order_witness :
  WfMixer second_exhausted /\ 4 <= BufferSize second_exhausted /\
  exists r m' log k,
    Process second_exhausted 4 = Ok (r, m', log) /\
    acquireOrder log = seq 0 k /\
    (k <= length (mSources second_exhausted))%nat /\
    ((forall i, AcquireCall i None ∉ log) ->
     k = length (mSources second_exhausted)) /\
    (forall i, AcquireCall i None ∈ log -> k = S i).
Proof.
  assert (Hwf : WfMixer second_exhausted)
    by (apply scripted_mixer_wf; [lia|repeat constructor]).
  assert (Hmax : 4 <= BufferSize second_exhausted) by (cbn; lia).
  split; [exact Hwf|]. split; [exact Hmax|].
  exact (Process_acquires_in_order second_exhausted 4 Hwf
           scripted_within_bound scripted_keeps_shape Hmax).
Defined.

(** Two frames of the mono and the stereo source: the rest of the block is
    silence. *)
Lemma Process_tail_is_silent_witness :
  WfMixer mono_and_stereo /\ 2 <= BufferSize mono_and_stereo /\
  exists r m' log,
    Process mono_and_stereo 2 = Ok (r, m', log) /\
    TailZero (N.to_nat (max_list (acquired log))) (mTemp m') /\
    ((forall i, AcquireCall i None ∉ log) ->
     TailZero (N.to_nat r) (mTemp m')).
Proof.
  assert (Hwf : WfMixer mono_and_stereo)
    by (apply scripted_mixer_wf; [lia|repeat constructor]).
  assert (Hmax : 2 <= BufferSize mono_and_stereo) by (cbn; lia).
  split; [exact Hwf|]. split; [exact Hmax|].
  exact (Process_tail_is_silent mono_and_stereo 2 Hwf
           scripted_within_bound scripted_keeps_shape Hmax).
Defined.

Example Process_two_frames :
  match Process mono_and_stereo 2 with
  | Ok (r, m', _) =>
      r = 2 /\
      mTemp m' = replicate 2 (replicate 2 (float_of_Z 7)
                              ++ replicate 2 float_zero)
  | Fail _ => False
  end.
Proof. vm_compute. split; reflexivity. Qed.

(** The sources of silence keep to what is asked of [Acquire]. *)
Lemma silent_within_bound : @AcquireWithinBound silent_sources.
Proof.
  intros state data bound ts k. cbn.
  destruct state as [n|]; cbn; intros [= <-]. lia.
Qed.

Lemma silent_keeps_shape : @AcquireKeepsShape silent_sources.
Proof.
  intros state data bound ts. cbn. rewrite List.map_map.
  apply List.map_ext. intros v. apply length_map.
Qed.

Lemma silent_is_silent : @AcquireSilent silent_sources.
Proof.
  intros state data bound ts. cbn.
  apply List.Forall_map. apply Forall_forall. intros v _.
  apply List.Forall_map. apply Forall_forall. intros x _. reflexivity.
Qed.

Lemma silent_mixer_wf : WfMixer silent_mixer.
Proof. constructor; cbn; try reflexivity; try lia; repeat constructor. Qed.

(** Silence through the stereo source, over a block that held samples. *)
Lemma Process_of_silence_witness :
  WfMixer silent_mixer /\ 4 <= BufferSize silent_mixer /\
  GainsFinite silent_mixer /\
  exists r m' log,
    Process silent_mixer 4 = Ok (r, m', log) /\
    Forall (Forall (fun x => x = float_zero)) (mTemp m').
Proof.
  assert (Hmax : 4 <= BufferSize silent_mixer) by (cbn; lia).
  assert (Hfin : GainsFinite silent_mixer)
    by (repeat constructor).
  split; [exact silent_mixer_wf|]. split; [exact Hmax|].
  split; [exact Hfin|].
  exact (Process_of_silence silent_mixer 4 silent_mixer_wf
           silent_within_bound silent_keeps_shape Hmax silent_is_silent
           Hfin).
Defined.

(** Other samples in the accumulation buffers of the mono and the stereo
    source. *)
Lemma Process_ignores_stale_samples_witness :
  map length (replicate 2 (replicate 4 (float_of_Z 9)))
    = map length (mTemp mono_and_stereo) /\
  Process (set_mTemp mono_and_stereo
             (replicate 2 (replicate 4 (float_of_Z 9)))) 4
  = Process mono_and_stereo 4.
Proof.
  assert (Hshape : map length (replicate 2 (replicate 4 (float_of_Z 9)))
                   = map length (mTemp mono_and_stereo)) by reflexivity.
  split; [exact Hshape|].
  exact (Process_ignores_stale_samples mono_and_stereo
           (replicate 2 (replicate 4 (float_of_Z 9))) 4 Hshape).
Defined.


(** Nothing of the left channel reaches output channel 1. *)
Lemma left_only_unrouted : Unrouted left_only 1.
Proof.
  intros source j track map flags Hs Ht Hm Hf. cbn in Hs.
  apply list_elem_of_singleton in Hs. subst source. cbn in Ht, Hm.
  injection Hm as <-.
  destruct j as [|j]; [|destruct j; discriminate].
  injection Ht as <-. cbn in Hf. injection Hf as <-. reflexivity.
Qed.

Lemma Process_unrouted_output_is_silent_witness :
  WfMixer left_only /\ 4 <= BufferSize left_only /\ Unrouted left_only 1 /\
  exists r m' log,
    Process left_only 4 = Ok (r, m', log) /\
    forall buffer,
      mTemp m' !! 1%nat = Some buffer ->
      Forall (fun x => x = float_zero) buffer.
Proof.
  assert (Hwf : WfMixer left_only)
    by (apply scripted_mixer_wf; [lia|repeat constructor]).
  assert (Hmax : 4 <= BufferSize left_only) by (cbn; lia).
  split; [exact Hwf|]. split; [exact Hmax|].
  split; [exact left_only_unrouted|].
  exact (Process_unrouted_output_is_silent left_only 4 1 Hwf
           scripted_within_bound scripted_keeps_shape Hmax
           left_only_unrouted).
Defined.

Example Process_left_only :
  match Process left_only 4 with
  | Ok (r, m', _) =>
      r = 4 /\
      mTemp m' = [replicate 4 (float_of_Z 2); replicate 4 float_zero]
  | Fail _ => False
  end.
Proof. vm_compute. split; reflexivity. Qed.

(** In a build with assertions: a list with a null leader, one whose
    stereo group overruns it, and one with an empty group. *)
Example Mixer_rejects_bad_tracks :
  Mixer_Mixer [Some mono_track; None] false no_warp double_zero
    (double_of_Z 100) 2 4 false (double_of_Z 44100) floatSample false None
    false = Fail AssertionFailed /\
  Mixer_Mixer [Some mono_track; Some stereo_track] false no_warp double_zero
    (double_of_Z 100) 2 4 false (double_of_Z 44100) floatSample false None
    false = Fail AssertionFailed /\
  Mixer_Mixer [Some {| TrackList_Channels := [] |}] false no_warp double_zero
    (double_of_Z 100) 2 4 false (double_of_Z 44100) floatSample false None
    false = Fail NeverReturns.
Proof. repeat split. Qed.

(** The sources made of the three tracks. *)
Lemma Mixer_sources_cover_tracks_witness :
  Grouped three_tracks 0 /\
  exists m,
    construct_three false None = Ok m /\
    sum_list (groupSizes (mSources m)) = length three_tracks /\
    forall k source,
      mSources m !! k = Some source ->
      three_tracks !! leaderPosition (mSources m) k
        = Some (Some (mpLeader source)) /\
      (1 <= length (TrackList_Channels (mpLeader source)))%nat /\
      (leaderPosition (mSources m) k
       + length (TrackList_Channels (mpLeader source))
       <= length three_tracks)%nat.
Proof.
  split; [exact three_tracks_grouped|].
  exact (Mixer_sources_cover_tracks three_tracks false no_warp double_zero
           (double_of_Z 100) 2 4 false (double_of_Z 44100) floatSample false
           None false three_tracks_grouped).
Defined.

Lemma spec_for_three_tracks_ok : SpecOk spec_for_three_tracks.
Proof. split; [reflexivity|]. repeat constructor. Qed.

(** The three tracks with the mix specification for them. *)
Lemma Mixer_routes_by_track_rows_witness :
  Grouped three_tracks 0 /\
  SpecOk spec_for_three_tracks /\
  GetNumChannels spec_for_three_tracks = 2 /\
  GetNumTracks spec_for_three_tracks = N.of_nat (length three_tracks) /\
  exists m,
    construct_three false (Some spec_for_three_tracks) = Ok m /\
    forall k source j,
      mSources m !! k = Some source ->
      (j < length (TrackList_Channels (mpLeader source)))%nat ->
      exists row,
        mMap spec_for_three_tracks !! (leaderPosition (mSources m) k + j)%nat
          = Some row /\
        (N.to_nat 2 <= length row)%nat /\
        Source_MixerSpec source j = Ok (Some row).
Proof.
  assert (Hc : GetNumChannels spec_for_three_tracks = 2) by reflexivity.
  assert (Ht : GetNumTracks spec_for_three_tracks
               = N.of_nat (length three_tracks)) by reflexivity.
  split; [exact three_tracks_grouped|].
  split; [exact spec_for_three_tracks_ok|].
  split; [exact Hc|]. split; [exact Ht|].
  exact (Mixer_routes_by_track_rows three_tracks false no_warp double_zero
           (double_of_Z 100) 2 4 false (double_of_Z 44100) floatSample false
           spec_for_three_tracks false three_tracks_grouped
           spec_for_three_tracks_ok Hc Ht).
Defined.

(** The rows that the two sources of the three tracks get: the stereo
    source the first two, the mono source the third. *)
Example three_routed_rows :
  map (fun source => (Source_MixerSpec source 0, Source_MixerSpec source 1))
    (mSources three_routed)
  = [(Ok (Some [false; true]), Ok (Some [true; false]));
     (Ok (Some [true; true]), Fail OutOfBounds)].
Proof. reflexivity. Qed.

(** The mixer of the three tracks is ready. *)
Lemma Mixer_constructed_ready_witness :
  Grouped three_tracks 0 /\ 1 <= 2 /\
  (forall spec, Some spec_for_three_tracks = Some spec -> SpecOk spec) /\
  isnan double_zero = false /\ isnan (double_of_Z 100) = false /\
  exists m,
    construct_three false (Some spec_for_three_tracks) = Ok m /\
    WfMixer m /\
    MixGetCurrentTime m = double_zero /\
    TimeInBounds (mTimesAndSpeed m) /\
    BufferSize m = 4 /\
    Forall (Forall (fun x => x = float_zero)) (mTemp m).
Proof.
  assert (Hn : 1 <= 2) by lia.
  assert (Hspec : forall spec,
             Some spec_for_three_tracks = Some spec -> SpecOk spec)
    by (intros spec [= <-]; exact spec_for_three_tracks_ok).
  assert (H0 : isnan double_zero = false) by reflexivity.
  assert (H1 : isnan (double_of_Z 100) = false) by reflexivity.
  split; [exact three_tracks_grouped|]. split; [exact Hn|].
  split; [exact Hspec|]. split; [exact H0|]. split; [exact H1|].
  exact (Mixer_constructed_ready three_tracks false no_warp double_zero
           (double_of_Z 100) 2 4 false (double_of_Z 44100) floatSample false
           (Some spec_for_three_tracks) false three_tracks_grouped Hn Hspec
           H0 H1).
Defined.

(** [GetBuffer()] on the interleaved mixer of the three tracks. *)
Lemma GetBuffer_without_channel_witness :
  construct_three true None = Ok three_interleaved /\
  GetBuffer0 three_interleaved = GetBuffer three_interleaved 0 /\
  ((exists b, GetBuffer0 three_interleaved = Ok b) <->
   true = true \/ 1 <= 2) /\
  (true = false -> 2 = 0 -> GetBuffer0 three_interleaved = Fail OutOfBounds).
Proof.
  assert (E : construct_three true None = Ok three_interleaved)
    by reflexivity.
  split; [exact E|].
  exact (GetBuffer_without_channel three_tracks false no_warp double_zero
           (double_of_Z 100) 2 4 true (double_of_Z 44100) floatSample false
           None false three_interleaved E).
Defined.
